(** * Phantasma explorer client: fetcher and type normaliser

    A shallow embedding of [src/phantasma.py] (class [PhantasmaAPI]) and
    [src/type_handlers.py] (class [StrictTypeHandler]).

    Python values are an inductive type [pyval]; a Python expression that
    can raise is a function into [res], the exception monad; the fetch
    operations run in [io], which threads the log of the HTTP requests made
    so far and can also run out of fuel, the image of a [while True] loop
    that the upstream never lets end.

    Strings are sequences of bytes: the character classes of Python
    ([str.strip], [\d], [str.upper]) are modelled on ASCII.  Library
    functions whose full behaviour is outside this repository (correct
    rounding of a decimal literal to a double, [repr] of floats and
    containers, [datetime.fromtimestamp], [pandas.to_datetime], ...) are
    the fields of a record [Runtime] that every definition takes as a
    parameter.  The interpreter is CPython 3.11 with its defaults: an int
    of more than 4300 digits has no decimal string, [decimal] is the C
    module on a 64-bit platform.  When pandas builds a frame it infers a
    dtype for every column: a column of numbers and missing values becomes
    float64, and [apply] and [astype] see the values so stored. *)

From Stdlib Require Import ZArith NArith QArith Qpower List String Ascii Bool Lia.
From Stdlib Require Import Floats DecimalString DecimalPos.
Import ListNotations.
Local Open Scope string_scope.
Local Open Scope Z_scope.

Set Implicit Arguments.
Set Warnings "-register-all".

(** ** Exceptions and the exception monad *)

(** The instances of Python's [Exception] that the modelled code can meet.
    [KeyboardInterrupt] and [SystemExit] derive from [BaseException] only,
    are delivered asynchronously and are not part of the model. *)
Inductive exn : Type :=
| ValueError
| KeyError
| IndexError
| TypeError
| AttributeError
| InvalidOperation
| OverflowError
| OSError
| RequestException.

Inductive res (A : Type) : Type :=
| Ok (a : A)
| Raise (e : exn).
Arguments Ok {A} a.
Arguments Raise {A} e.

Definition rbind {A B : Type} (m : res A) (k : A -> res B) : res B :=
  match m with
  | Ok a => k a
  | Raise e => Raise e
  end.

Declare Scope res_scope.
Delimit Scope res_scope with res.
Notation "x <- m ;; k" := (rbind m (fun x => k))
  (at level 100, m at next level, right associativity) : res_scope.
Notation "m ;;; k" := (rbind m (fun _ => k))
  (at level 100, right associativity) : res_scope.

(** [try: m except: raise e], the bare [except:] of the type handlers. *)
Definition reraise_as {A : Type} (e : exn) (m : res A) : res A :=
  match m with
  | Ok a => Ok a
  | Raise _ => Raise e
  end.

Fixpoint mapM {A B : Type} (f : A -> res B) (l : list A) : res (list B) :=
  match l with
  | [] => Ok []
  | x :: l' =>
      (y <- f x ;;
       ys <- mapM f l' ;;
       Ok (y :: ys))%res
  end.

(** ** Python values *)

(** [datetime]: the wall-clock reading (microseconds since 0001-01-01
    00:00, whatever the zone) and the zone offset in seconds, if any. *)
Record datetime : Type := mkDatetime {
  wallclock : Z;
  tzinfo : option Z
}.

Inductive pyval : Type :=
| PNone
| PBool (b : bool)
| PInt (z : Z)
| PFloat (f : float)
| PStr (s : string)
| PList (l : list pyval)
| PDict (d : list (string * pyval))
| PDatetime (t : datetime).

(** A [dict] with string keys, in insertion order. *)
Definition dict : Type := list (string * pyval).

Fixpoint dict_lookup (k : string) (d : dict) : option pyval :=
  match d with
  | [] => None
  | (k', v) :: d' => if String.eqb k k' then Some v else dict_lookup k d'
  end.

(** [d[k] = v]: replaces in place, or appends a new key. *)
Fixpoint dict_set (k : string) (v : pyval) (d : dict) : dict :=
  match d with
  | [] => [(k, v)]
  | (k', v') :: d' =>
      if String.eqb k k' then (k, v) :: d' else (k', v') :: dict_set k v d'
  end.

(** [{k: v, **d}]. *)
Definition dict_with_first (k : string) (v : pyval) (d : dict) : dict :=
  match dict_lookup k d with
  | None => (k, v) :: d
  | Some w => (k, w) :: filter (fun kv => negb (String.eqb k (fst kv))) d
  end.

(** ** Arbitrary-precision decimals, [decimal.Decimal] *)

Inductive decimal : Type :=
| DFin (neg : bool) (coef : N) (exp : Z)
| DInf (neg : bool)
| DNaN (signaling : bool).

Definition dec_zero : decimal := DFin false 0 0.

(** The integer [+/-coef * 10^(exp - m)], for [m <= exp]. *)
Definition dec_scaled (neg : bool) (coef : N) (exp m : Z) : Z :=
  (if neg then -1 else 1) * Z.of_N coef * 10 ^ (exp - m).

(** Numerical order of two decimals that are not NaN. *)
Definition dec_cmp (a b : decimal) : comparison :=
  match a, b with
  | DFin na ca ea, DFin nb cb eb =>
      let m := Z.min ea eb in
      Z.compare (dec_scaled na ca ea m) (dec_scaled nb cb eb m)
  | DInf true, DInf true => Eq
  | DInf true, _ => Lt
  | _, DInf true => Gt
  | DInf false, DInf false => Eq
  | DInf false, _ => Gt
  | _, DInf false => Lt
  | _, _ => Eq
  end.

Definition dec_is_nan (a : decimal) : bool :=
  match a with
  | DNaN _ => true
  | _ => false
  end.

(** [a < b] and [a >= b] on [Decimal]: an ordering comparison that involves
    a NaN signals [InvalidOperation], which the default context traps. *)
Definition dec_lt (a b : decimal) : res bool :=
  if dec_is_nan a || dec_is_nan b then Raise InvalidOperation
  else Ok (match dec_cmp a b with Lt => true | _ => false end).

Definition dec_ge (a b : decimal) : res bool :=
  if dec_is_nan a || dec_is_nan b then Raise InvalidOperation
  else Ok (match dec_cmp a b with Lt => false | _ => true end).

(** ** Characters and numeric literals *)

Definition is_digit (c : ascii) : bool :=
  let n := nat_of_ascii c in (48 <=? n)%nat && (n <=? 57)%nat.

Definition digit_val (c : ascii) : N := N.of_nat (nat_of_ascii c - 48).

(** ASCII white space as [str.strip] and [str.isspace] see it. *)
Definition is_space (c : ascii) : bool :=
  let n := nat_of_ascii c in
  ((9 <=? n)%nat && (n <=? 13)%nat) || ((28 <=? n)%nat && (n <=? 32)%nat).

(** White space as [int] and [float] skip it around a literal ([Py_ISSPACE]):
    the information separators 28 to 31 are not part of it. *)
Definition is_c_space (c : ascii) : bool :=
  let n := nat_of_ascii c in
  ((9 <=? n)%nat && (n <=? 13)%nat) || (n =? 32)%nat.

Definition lower_ascii (c : ascii) : ascii :=
  let n := nat_of_ascii c in
  if (65 <=? n)%nat && (n <=? 90)%nat then ascii_of_nat (n + 32) else c.

Definition upper_ascii (c : ascii) : ascii :=
  let n := nat_of_ascii c in
  if (97 <=? n)%nat && (n <=? 122)%nat then ascii_of_nat (n - 32) else c.

Fixpoint drop_spaces (s : list ascii) : list ascii :=
  match s with
  | c :: s' => if is_space c then drop_spaces s' else s
  | [] => []
  end.

Definition strip_chars (s : list ascii) : list ascii :=
  rev (drop_spaces (rev (drop_spaces s))).

Fixpoint drop_c_spaces (s : list ascii) : list ascii :=
  match s with
  | c :: s' => if is_c_space c then drop_c_spaces s' else s
  | [] => []
  end.

(** The literal [int] and [float] read: the string without the white
    space around it. *)
Definition strip_c_chars (s : list ascii) : list ascii :=
  rev (drop_c_spaces (rev (drop_c_spaces s))).

(** [s.strip()]. *)
Definition strip (s : string) : string :=
  string_of_list_ascii (strip_chars (list_ascii_of_string s)).

(** [s.upper()] and [s.lower()]. *)
Definition upper (s : string) : string :=
  string_of_list_ascii (map upper_ascii (list_ascii_of_string s)).

Definition lower (s : string) : string :=
  string_of_list_ascii (map lower_ascii (list_ascii_of_string s)).

(** A run of digits: its value, its length and what follows it. *)
Fixpoint span_digits (s : list ascii) (acc : N) (n : Z) : N * Z * list ascii :=
  match s with
  | c :: s' =>
      if is_digit c then span_digits s' (acc * 10 + digit_val c)%N (n + 1)
      else (acc, n, s)
  | [] => (acc, n, [])
  end.

Definition read_sign (s : list ascii) : bool * list ascii :=
  match s with
  | "-"%char :: s' => (true, s')
  | "+"%char :: s' => (false, s')
  | _ => (false, s)
  end.

Fixpoint starts_with (p s : list ascii) : option (list ascii) :=
  match p, s with
  | [], _ => Some s
  | a :: p', b :: s' =>
      if Ascii.eqb a (lower_ascii b) then starts_with p' s' else None
  | _ :: _, [] => None
  end.

(** What a numeric string denotes: [sign digits . digits E exponent],
    an infinity or a NaN (quiet or signaling, maybe with a payload). *)
Inductive numlit : Type :=
| LitFin (neg : bool) (coef : N) (exp : Z)
| LitInf (neg : bool)
| LitNaN (neg signaling payload : bool).

(** The exponent part: nothing, or [E], a sign and at least one digit. *)
Definition read_exponent (s : list ascii) : option Z :=
  match s with
  | [] => Some 0
  | c :: s' =>
      if Ascii.eqb (lower_ascii c) "e"%char then
        let (neg, s1) := read_sign s' in
        match span_digits s1 0 0 with
        | (v, n, []) =>
            if 0 <? n then Some (if neg then - Z.of_N v else Z.of_N v) else None
        | _ => None
        end
      else None
  end.

(** The grammar of [decimal]'s string constructor (module [_pydecimal],
    [_parser]), matched case-insensitively against the whole string. *)
Definition parse_numeric (s : list ascii) : option numlit :=
  let (neg, s0) := read_sign s in
  match starts_with (list_ascii_of_string "infinity") s0 with
  | Some [] => Some (LitInf neg)
  | _ =>
  match starts_with (list_ascii_of_string "inf") s0 with
  | Some [] => Some (LitInf neg)
  | _ =>
  match starts_with (list_ascii_of_string "nan") s0 with
  | Some d =>
      match span_digits d 0 0 with
      | (_, n, []) => Some (LitNaN neg false (0 <? n))
      | _ => None
      end
  | None =>
  match starts_with (list_ascii_of_string "snan") s0 with
  | Some d =>
      match span_digits d 0 0 with
      | (_, n, []) => Some (LitNaN neg true (0 <? n))
      | _ => None
      end
  | None =>
      let '(ip, ni, s1) := span_digits s0 0 0 in
      let '(coef, nf, s2) :=
        match s1 with
        | "."%char :: s1' => span_digits s1' ip 0
        | _ => (ip, 0, s1)
        end in
      if 0 <? ni + nf then
        match read_exponent s2 with
        | Some e => Some (LitFin neg coef (e - nf))
        | None => None
        end
      else None
  end end end end.

(** The number of decimal digits of a coefficient; zero has one. *)
Definition coef_digits (coef : N) : Z :=
  Z.of_nat (Decimal.nb_digits (N.to_uint coef)).

(** The bounds of the C module [_decimal] on a 64-bit platform: the
    greatest adjusted exponent and the least exponent a finite decimal
    can have ([MAX_EMAX], and [Etiny] of the widest context). *)
Definition decimal_emax : Z := 999999999999999999.
Definition decimal_etiny : Z := -1999999999999999997.

(** A literal that [Decimal] can hold exactly. *)
Definition decimal_in_range (coef : N) (exp : Z) : bool :=
  (decimal_etiny <=? exp) && (exp + coef_digits coef - 1 <=? decimal_emax).

(** [Decimal(s)] for a string: white space is stripped and every
    underscore removed before the grammar applies; a literal beyond the
    bounds of the module is an [InvalidOperation] like a malformed one. *)
Definition Decimal_of_str (s : string) : res decimal :=
  let cs := filter (fun c => negb (Ascii.eqb c "_"%char))
                   (strip_chars (list_ascii_of_string s)) in
  match parse_numeric cs with
  | Some (LitFin neg c e) =>
      if decimal_in_range c e then Ok (DFin neg c e)
      else Raise InvalidOperation
  | Some (LitInf neg) => Ok (DInf neg)
  | Some (LitNaN _ sig _) => Ok (DNaN sig)
  | None => Raise InvalidOperation
  end.

(** ** Floats: IEEE binary64, as Python's [float] *)

(** [int(f)]: truncation toward zero. *)
Definition int_of_float (f : float) : res Z :=
  match Prim2SF f with
  | S754_nan => Raise ValueError
  | S754_infinity _ => Raise OverflowError
  | S754_zero _ => Ok 0
  | S754_finite s m e =>
      let mag := if 0 <=? e then Z.pos m * 2 ^ e
                 else Z.shiftr (Z.pos m) (- e) in
      Ok (if s then - mag else mag)
  end.

(** [m * 2^e] with the factors of two taken out of [m] while [e < 0]:
    the reduced fraction of [float.as_integer_ratio]. *)
Fixpoint odd_part (m : positive) (e : Z) : positive * Z :=
  match m with
  | xO m' => if e <? 0 then odd_part m' (e + 1) else (m, e)
  | _ => (m, e)
  end.

(** [Decimal(f)] for a float, [Decimal.from_float]: the exact value. *)
Definition Decimal_of_float (f : float) : decimal :=
  match Prim2SF f with
  | S754_nan => DNaN false
  | S754_infinity s => DInf s
  | S754_zero s => DFin s 0 0
  | S754_finite s m e =>
      let (n, k) := odd_part m e in
      if k <? 0 then DFin s (N.pos n * 5 ^ Z.to_N (- k)) k
      else DFin s (N.pos n * 2 ^ Z.to_N k) 0
  end.

(** [a == b] between an int and a float: exact. *)
Definition int_eq_float (z : Z) (f : float) : bool :=
  match Prim2SF f with
  | S754_zero _ => z =? 0
  | S754_finite s m e =>
      let v := if s then Z.neg m else Z.pos m in
      if 0 <=? e then z =? v * 2 ^ e else z * 2 ^ (- e) =? v
  | _ => false
  end.

(** ** The library functions the model takes as given *)

Record Runtime : Type := mkRuntime {
  (** the double nearest to [+/-coef * 10^exp] ([strtod]; an infinity on overflow) *)
  strtod : bool -> N -> Z -> float;
  (** [repr] of a finite float, a list, a dict or a datetime *)
  repr_other : pyval -> res string;
  (** [Decimal((sign, digits, exponent))] on a list *)
  Decimal_of_sequence : list pyval -> res decimal;
  (** the truth value of [pd.isna(l)] for a list [l] (an array) *)
  isna_of_list : list pyval -> res bool;
  (** the wall-clock reading of [datetime.fromtimestamp(v)], local time *)
  localtime : pyval -> res Z;
  (** [pd.to_datetime(v)] *)
  pd_to_datetime : pyval -> res pyval;
  (** [d.timestamp()] *)
  datetime_timestamp : datetime -> res float
}.

(** ** Python's built-in operations on values *)

Definition chars_of (s : string) : list pyval :=
  map (fun c => PStr (String c EmptyString)) (list_ascii_of_string s).

Definition keys_of (d : dict) : list pyval := map (fun kv => PStr (fst kv)) d.

(** [v[k]] for a string key. *)
Definition getitem (v : pyval) (k : string) : res pyval :=
  match v with
  | PDict d =>
      match dict_lookup k d with
      | Some x => Ok x
      | None => Raise KeyError
      end
  | _ => Raise TypeError
  end.

(** [v[i]] for an integer index. *)
Definition getindex (v : pyval) (i : Z) : res pyval :=
  let pick (l : list pyval) :=
    let j := if i <? 0 then i + Z.of_nat (List.length l) else i in
    if j <? 0 then Raise IndexError
    else match nth_error l (Z.to_nat j) with
         | Some x => Ok x
         | None => Raise IndexError
         end in
  match v with
  | PList l => pick l
  | PStr s => pick (chars_of s)
  | PDict _ => Raise KeyError
  | _ => Raise TypeError
  end.

(** [bool(v)]. *)
Definition truth (v : pyval) : bool :=
  match v with
  | PNone => false
  | PBool b => b
  | PInt z => negb (z =? 0)
  | PFloat f => negb (PrimFloat.eqb f 0)
  | PStr s => negb (String.eqb s "")
  | PList l => match l with [] => false | _ => true end
  | PDict d => match d with [] => false | _ => true end
  | PDatetime _ => true
  end.

(** The elements [for x in v] goes through. *)
Definition iter (v : pyval) : res (list pyval) :=
  match v with
  | PList l => Ok l
  | PStr s => Ok (chars_of s)
  | PDict d => Ok (keys_of d)
  | _ => Raise TypeError
  end.

(** [len(v)]. *)
Definition len (v : pyval) : res Z :=
  match v with
  | PList l => Ok (Z.of_nat (List.length l))
  | PStr s => Ok (Z.of_nat (String.length s))
  | PDict d => Ok (Z.of_nat (List.length d))
  | _ => Raise TypeError
  end.

(** [a == b] on datetimes: a naive and an aware one are never equal. *)
Definition datetime_eq (a b : datetime) : bool :=
  match tzinfo a, tzinfo b with
  | None, None => wallclock a =? wallclock b
  | Some oa, Some ob =>
      wallclock a - 1000000 * oa =? wallclock b - 1000000 * ob
  | _, _ => false
  end.

(** [a == b]. *)
Fixpoint py_eq (a b : pyval) {struct a} : bool :=
  match a, b with
  | PNone, PNone => true
  | PBool x, PBool y => Bool.eqb x y
  | PBool x, PInt z | PInt z, PBool x => z =? Z.b2z x
  | PBool x, PFloat f | PFloat f, PBool x => int_eq_float (Z.b2z x) f
  | PInt x, PInt y => x =? y
  | PInt z, PFloat f | PFloat f, PInt z => int_eq_float z f
  | PFloat f, PFloat g => PrimFloat.eqb f g
  | PStr s, PStr t => String.eqb s t
  | PList l, PList m =>
      (fix all2 (l m : list pyval) {struct l} : bool :=
         match l, m with
         | [], [] => true
         | x :: l', y :: m' => py_eq x y && all2 l' m'
         | _, _ => false
         end) l m
  | PDict d, PDict e =>
      Nat.eqb (List.length d) (List.length e) &&
      (fix sub (d : list (string * pyval)) {struct d} : bool :=
         match d with
         | [] => true
         | (k, v) :: d' =>
             match dict_lookup k e with
             | Some w => py_eq v w
             | None => false
             end && sub d'
         end) d
  | PDatetime s, PDatetime t => datetime_eq s t
  | _, _ => false
  end.

Fixpoint is_prefix (p s : list ascii) : bool :=
  match p, s with
  | [], _ => true
  | a :: p', b :: s' => Ascii.eqb a b && is_prefix p' s'
  | _ :: _, [] => false
  end.

Fixpoint is_substring (p s : list ascii) : bool :=
  is_prefix p s || match s with
                   | [] => false
                   | _ :: s' => is_substring p s'
                   end.

(** [k in v] for a string [k]. *)
Definition contains (k : string) (v : pyval) : res bool :=
  match v with
  | PDict d => Ok (match dict_lookup k d with Some _ => true | None => false end)
  | PList l => Ok (existsb (py_eq (PStr k)) l)
  | PStr s => Ok (is_substring (list_ascii_of_string k) (list_ascii_of_string s))
  | _ => Raise TypeError
  end.

(** [v.get(k, default)]. *)
Definition get_method (v : pyval) (k : string) (default : pyval) : res pyval :=
  match v with
  | PDict d => Ok (match dict_lookup k d with Some x => x | None => default end)
  | _ => Raise AttributeError
  end.

(** [v in addresses] for a set of strings: the value is hashed first. *)
Definition set_contains (addresses : list string) (v : pyval) : res bool :=
  match v with
  | PStr s => Ok (existsb (String.eqb s) addresses)
  | PList _ | PDict _ => Raise TypeError
  | _ => Ok false
  end.

(** [sys.get_int_max_str_digits()], at its default. *)
Definition int_max_str_digits : Z := 4300.

(** The number of decimal digits of an int, its sign apart. *)
Definition int_digits (z : Z) : Z :=
  Z.of_nat (Decimal.nb_digits (N.to_uint (Z.abs_N z))).

(** [str(z)] for an int: [ValueError] beyond the digit limit. *)
Definition str_of_Z (z : Z) : res string :=
  if int_max_str_digits <? int_digits z then Raise ValueError
  else Ok (NilZero.string_of_int (Z.to_int z)).

(** Every underscore stands between two digits. *)
Fixpoint underscores_ok (prev_digit : bool) (s : list ascii) : bool :=
  match s with
  | [] => true
  | c :: s' =>
      if Ascii.eqb c "_"%char then
        prev_digit
        && match s' with d :: _ => is_digit d | [] => false end
        && underscores_ok false s'
      else underscores_ok (is_digit c) s'
  end.

Definition without_underscores (s : list ascii) : list ascii :=
  filter (fun c => negb (Ascii.eqb c "_"%char)) s.

(** [int(s)] for a string, base ten: [ValueError] on a malformed literal
    and on one of more digits, leading zeros included, than the limit. *)
Definition int_of_str (s : string) : res Z :=
  let (neg, s0) := read_sign (strip_c_chars (list_ascii_of_string s)) in
  if underscores_ok false s0 then
    match span_digits (without_underscores s0) 0 0 with
    | (v, n, []) =>
        if (0 <? n) && (n <=? int_max_str_digits)
        then Ok (if neg then - Z.of_N v else Z.of_N v)
        else Raise ValueError
    | _ => Raise ValueError
    end
  else Raise ValueError.

(** [int(v)]. *)
Definition int_of (v : pyval) : res Z :=
  match v with
  | PBool b => Ok (Z.b2z b)
  | PInt z => Ok z
  | PFloat f => int_of_float f
  | PStr s => int_of_str s
  | _ => Raise TypeError
  end.

Section WithRuntime.

Variable rt : Runtime.

(** [str(v)]. *)
Definition str_of (v : pyval) : res string :=
  match v with
  | PNone => Ok "None"
  | PBool true => Ok "True"
  | PBool false => Ok "False"
  | PInt z => str_of_Z z
  | PStr s => Ok s
  | PFloat f =>
      match Prim2SF f with
      | S754_nan => Ok "nan"
      | S754_infinity false => Ok "inf"
      | S754_infinity true => Ok "-inf"
      | _ => repr_other rt v
      end
  | _ => repr_other rt v
  end.

(** [float(s)] for a string. *)
Definition float_of_str (s : string) : res float :=
  let cs := strip_c_chars (list_ascii_of_string s) in
  if underscores_ok false cs then
    match parse_numeric (without_underscores cs) with
    | Some (LitFin neg c e) => Ok (strtod rt neg c e)
    | Some (LitInf neg) => Ok (if neg then neg_infinity else infinity)
    | Some (LitNaN _ false false) => Ok nan
    | _ => Raise ValueError
    end
  else Raise ValueError.

(** [float(z)] for an int: the nearest double, or [OverflowError]. *)
Definition float_of_Z (z : Z) : res float :=
  let f := strtod rt (z <? 0) (Z.abs_N z) 0 in
  if PrimFloat.is_infinity f then Raise OverflowError else Ok f.

(** [float(v)]. *)
Definition float_of (v : pyval) : res float :=
  match v with
  | PBool b => float_of_Z (Z.b2z b)
  | PInt z => float_of_Z z
  | PFloat f => Ok f
  | PStr s => float_of_str s
  | _ => Raise TypeError
  end.

(** [Decimal(v)]. *)
Definition Decimal_of (v : pyval) : res decimal :=
  match v with
  | PBool b => Ok (DFin false (if b then 1 else 0) 0)
  | PInt z => Ok (DFin (z <? 0) (Z.abs_N z) 0)
  | PFloat f => Ok (Decimal_of_float f)
  | PStr s => Decimal_of_str s
  | PList l => Decimal_of_sequence rt l
  | _ => Raise TypeError
  end.

(** The test [if pd.isna(v):]. *)
Definition isna (v : pyval) : res bool :=
  match v with
  | PNone => Ok true
  | PFloat f => Ok (PrimFloat.is_nan f)
  | PList l => isna_of_list rt l
  | _ => Ok false
  end.


(** ** pandas: a table built from a list of records *)

(** A frame: its columns and its rows, every row holding the values as
    the columns store them.  In [pd.DataFrame(records)] the columns are
    the keys of the records, in the order they first appear; a record that
    lacks a column holds NaN. *)
Record DataFrame : Type := mkDataFrame {
  df_columns : list string;
  df_records : list dict
}.

Definition has_column (c : string) (cols : list string) : bool :=
  existsb (String.eqb c) cols.

Definition add_keys (cols : list string) (r : dict) : list string :=
  fold_left (fun cs kv => if has_column (fst kv) cs then cs else (cs ++ [fst kv])%list)
            r cols.

(** The cell of a record in a column. *)
Definition cell (c : string) (r : dict) : pyval :=
  match dict_lookup c r with
  | Some v => v
  | None => PFloat nan
  end.

(** The double nearest to an int, ties to even; none beyond the range. *)
Definition double_of_Z (z : Z) : option float :=
  match binary_normalize prec emax z 0 false with
  | S754_infinity _ => None
  | f => Some (SF2Prim f)
  end.

(** What the scan of a column has met so far (pandas 2,
    [lib.maybe_convert_objects] and its [Seen]): a [None], a bool, an int,
    an int above the int64 range, a negative int, a float, and a value
    that keeps the column as Python objects. *)
Record Seen : Type := mkSeen {
  null_ : bool;
  bool_ : bool;
  int_ : bool;
  uint_ : bool;
  sint_ : bool;
  float_ : bool;
  object_ : bool
}.

Definition nothing_seen : Seen := mkSeen false false false false false false false.

Definition INT64_MIN : Z := - 2 ^ 63.
Definition INT64_MAX : Z := 2 ^ 63 - 1.
Definition UINT64_MAX : Z := 2 ^ 64 - 1.

(** The scan goes through the column until a value that is no number and
    no [None] stops it.  Every int is first cast to a double, which raises
    [OverflowError] when no double holds it; an int outside the 64-bit
    ranges, or a negative one beside one above int64, stops the scan too,
    unless a [None] came before it.  (A datetime keeps its column as
    objects; the records the fetch operations build hold none.) *)
Fixpoint scan_objects (objects : list pyval) (seen : Seen) : res Seen :=
  match objects with
  | [] => Ok seen
  | val :: rest =>
      match val with
      | PNone =>
          scan_objects rest
            (mkSeen true (bool_ seen) (int_ seen) (uint_ seen) (sint_ seen)
                    (float_ seen) (object_ seen))
      | PBool _ =>
          scan_objects rest
            (mkSeen (null_ seen) true (int_ seen) (uint_ seen) (sint_ seen)
                    (float_ seen) (object_ seen))
      | PFloat _ =>
          scan_objects rest
            (mkSeen (null_ seen) (bool_ seen) (int_ seen) (uint_ seen)
                    (sint_ seen) true (object_ seen))
      | PInt z =>
          match double_of_Z z with
          | None => Raise OverflowError
          | Some _ =>
              if null_ seen then
                scan_objects rest
                  (mkSeen true (bool_ seen) true (uint_ seen) (sint_ seen)
                          (float_ seen) (object_ seen))
              else
                let uint := uint_ seen || ((INT64_MAX <? z) && (z <=? UINT64_MAX)) in
                let sint := sint_ seen || ((INT64_MIN <=? z) && (z <? 0)) in
                if (uint && sint) || (UINT64_MAX <? z) || (z <? INT64_MIN) then
                  Ok (mkSeen false (bool_ seen) true uint sint (float_ seen) true)
                else
                  scan_objects rest
                    (mkSeen false (bool_ seen) true uint sint (float_ seen)
                            (object_ seen))
          end
      | _ =>
          Ok (mkSeen (null_ seen) (bool_ seen) (int_ seen) (uint_ seen)
                     (sint_ seen) (float_ seen) true)
      end
  end.

(** The column becomes float64 when the scan met numbers and missing
    values only, a float among them, or an int and a [None]. *)
Definition is_float64 (seen : Seen) : bool :=
  negb (object_ seen) && negb (bool_ seen)
  && (float_ seen || (int_ seen && null_ seen)).

(** The dtype inferred for the column [c] of the records. *)
Definition column_dtype (records : list dict) (c : string) : res (string * bool) :=
  (seen <- scan_objects (map (cell c) records) nothing_seen ;;
   Ok (c, is_float64 seen))%res.

(** A value as a float64 column stores it. *)
Definition as_float64 (v : pyval) : pyval :=
  match v with
  | PNone => PFloat nan
  | PInt z =>
      match double_of_Z z with
      | Some f => PFloat f
      | None => v
      end
  | _ => v
  end.

(** A row of the frame: every column's cell, as the column stores it. *)
Definition frame_row (dtypes : list (string * bool)) (r : dict) : dict :=
  map (fun cd => (fst cd, if snd cd : bool then as_float64 (cell (fst cd) r)
                          else cell (fst cd) r)) dtypes.

(** [pd.DataFrame(records)]. *)
Definition pd_DataFrame (records : list dict) : res DataFrame :=
  let columns := fold_left add_keys records [] in
  (dtypes <- mapM (column_dtype records) columns ;;
   Ok (mkDataFrame columns (map (frame_row dtypes) records)))%res.

(** [df[c]]: the column, or [KeyError]. *)
Definition df_getitem (df : DataFrame) (c : string) : res (list pyval) :=
  if has_column c (df_columns df) then Ok (map (cell c) (df_records df))
  else Raise KeyError.

(** [str(v).strip()]. *)
Definition str_strip (v : pyval) : res string :=
  (s <- str_of v ;; Ok (strip s))%res.

(** [series.astype(str).str.strip()]. *)
Definition astype_str_strip (col : list pyval) : res (list string) :=
  mapM str_strip col.

(** ** [type_handlers.py]: class [StrictTypeHandler] *)

(** [d.replace(tzinfo=None)]: the wall clock stays, the zone goes. *)
Definition replace_tzinfo_None (d : datetime) : datetime :=
  mkDatetime (wallclock d) None.

(** [StrictTypeHandler.to_timestamp].  Its [print], which writes the
    value to the standard output, is not modelled.  A result of
    [pd.to_datetime] that is no datetime has no such [replace]: the bare
    [except] turns that failure too into [ValueError]. *)
Definition to_timestamp (value : pyval) : res datetime :=
  match value with
  | PDatetime d => Ok (replace_tzinfo_None d)
  | PBool _ | PInt _ | PFloat _ =>
      (w <- localtime rt value ;;
       Ok (mkDatetime w None))%res
  | _ =>
      reraise_as ValueError
        (ts <- pd_to_datetime rt value ;;
         match ts with
         | PDatetime d => Ok (replace_tzinfo_None d)
         | _ => Raise AttributeError
         end)%res
  end.

(** [StrictTypeHandler.to_decimal]. *)
Definition to_decimal (value : pyval) : res decimal :=
  (na <- isna value ;;
   if na then Ok (DFin false 0 0)
   else reraise_as ValueError
          (s <- str_of value ;;
           Decimal_of (PStr s)))%res.

(** [StrictTypeHandler.to_float]. *)
Definition to_float (value : pyval) : res float :=
  (na <- isna value ;;
   if na then Ok 0%float
   else reraise_as ValueError (float_of value))%res.

(** [StrictTypeHandler.to_int]. *)
Definition to_int (value : pyval) : res Z :=
  reraise_as ValueError
    (s <- str_of value ;;
     f <- float_of (PStr s) ;;
     int_of (PFloat f))%res.

Record symbol_formats : Type := mkSymbolFormats {
  sf_base : string;
  sf_lunar : string;
  sf_ccxt : string;
  sf_lower : string
}.

Record TokenInfo : Type := mkTokenInfo {
  ti_created_timestamp : datetime;
  ti_decimals : Z;
  ti_symbol : string;
  ti_symbol_formats : symbol_formats;
  ti_name : string;
  ti_supply : decimal;
  ti_creators : option (list string);
  ti_involved : option (list string);
  ti_early_transfers : option pyval
}.

(** [[str(addr).strip() for addr in data[k]]] when [k in data]. *)
Definition stripped_list (data : dict) (k : string) : res (option (list string)) :=
  match dict_lookup k data with
  | None => Ok None
  | Some v =>
      (l <- iter v ;;
       stripped <- mapM str_strip l ;;
       Ok (Some stripped))%res
  end.

Definition dict_get (data : dict) (k : string) (default : pyval) : pyval :=
  match dict_lookup k data with
  | Some v => v
  | None => default
  end.

(** [StrictTypeHandler.format_token_info]. *)
Definition format_token_info (data : dict) : res TokenInfo :=
  (base_symbol <- str_strip (dict_get data "symbol" (PStr "")) ;;
   created <- getitem (PDict data) "created_timestamp" ;;
   created_timestamp <- to_timestamp created ;;
   decimals <- to_int (dict_get data "decimals" (PInt 0)) ;;
   let formats :=
     mkSymbolFormats base_symbol (upper base_symbol)
                     (upper base_symbol ++ "/USDT")%string (lower base_symbol) in
   name <- str_strip (dict_get data "name" (PStr "")) ;;
   supply <- to_decimal (dict_get data "supply" (PInt 0)) ;;
   creators <- stripped_list data "creators" ;;
   involved <- stripped_list data "involved" ;;
   Ok (mkTokenInfo created_timestamp decimals base_symbol formats name supply
                   creators involved (dict_lookup "early_transfers" data)))%res.

(** The formatted tables, column by column, as [pd.DataFrame({...})]
    builds them. *)
Record holders_table : Type := mkHolders {
  h_owner_address : list string;
  h_balance : list decimal
}.

Record historical_holders_table : Type := mkHistoricalHolders {
  hh_timestamp : list datetime;
  hh_owner_address : list string;
  hh_balance : list decimal
}.

Record prices_table : Type := mkPrices {
  p_timestamp : list datetime;
  p_average_price : list float;
  p_close_price : list float;
  p_volume : list decimal
}.

Record transfers_table : Type := mkTransfers {
  t_timestamp : list datetime;
  t_from_address : list string;
  t_to_address : list string;
  t_quantity : list decimal;
  t_transaction_hash : list string
}.

(** [series.dt.tz_localize(None)] (the nanosecond bounds of pandas'
    datetimes are not modelled). *)
Definition tz_localize_None (col : list datetime) : list datetime :=
  map replace_tzinfo_None col.

(** [StrictTypeHandler.format_holders_df]. *)
Definition format_holders_df (df : DataFrame) : res holders_table :=
  (owner <- df_getitem df "owner_address" ;;
   owners <- astype_str_strip owner ;;
   balance <- df_getitem df "balance" ;;
   balances <- mapM to_decimal balance ;;
   Ok (mkHolders owners balances))%res.

(** [StrictTypeHandler.format_historical_holders_df]. *)
Definition format_historical_holders_df (df : DataFrame)
  : res historical_holders_table :=
  (ts <- df_getitem df "timestamp" ;;
   timestamps <- mapM to_timestamp ts ;;
   owner <- df_getitem df "owner_address" ;;
   owners <- astype_str_strip owner ;;
   balance <- df_getitem df "balance" ;;
   balances <- mapM to_decimal balance ;;
   Ok (mkHistoricalHolders timestamps owners balances))%res.

(** [StrictTypeHandler.format_prices_df]. *)
Definition format_prices_df (df : DataFrame) : res prices_table :=
  (ts <- df_getitem df "timestamp" ;;
   timestamps <- mapM to_timestamp ts ;;
   ap <- df_getitem df "average_price" ;;
   average <- mapM to_float ap ;;
   cp <- df_getitem df "close_price" ;;
   close <- mapM to_float cp ;;
   vol <- df_getitem df "volume" ;;
   volume <- mapM to_decimal vol ;;
   Ok (mkPrices (tz_localize_None timestamps) average close volume))%res.

(** [StrictTypeHandler.format_transfers_df]. *)
Definition format_transfers_df (df : DataFrame) : res transfers_table :=
  (ts <- df_getitem df "timestamp" ;;
   timestamps <- mapM to_timestamp ts ;;
   from <- df_getitem df "from_address" ;;
   from_address <- astype_str_strip from ;;
   to <- df_getitem df "to_address" ;;
   to_address <- astype_str_strip to ;;
   qty <- df_getitem df "quantity" ;;
   quantity <- mapM to_decimal qty ;;
   hash <- df_getitem df "transaction_hash" ;;
   transaction_hash <- astype_str_strip hash ;;
   Ok (mkTransfers (tz_localize_None timestamps) from_address to_address
                   quantity transaction_hash))%res.

End WithRuntime.

(** ** The transport and the monad of the fetch operations *)

(** What [requests.get] hands back: the status, the body as text and what
    [response.json()] makes of it. *)
Record response : Type := mkResponse {
  status_code : Z;
  text : string;
  json : res pyval
}.

(** A request as it leaves: the URL and the query parameters. *)
Definition request : Type := (string * dict)%type.

(** The upstream: what [requests.get] does on a request, given the
    requests made before it. *)
Definition upstream : Type := list request -> string -> dict -> res response.

Inductive outcome (A : Type) : Type :=
| Returns (a : A)
| Raises (e : exn)
| OutOfFuel.
Arguments Returns {A} a.
Arguments Raises {A} e.
Arguments OutOfFuel {A}.

(** A computation that makes requests: from the log of the requests made
    so far to an outcome and the log extended. *)
Definition io (A : Type) : Type := list request -> outcome A * list request.

Definition ret {A : Type} (a : A) : io A := fun log => (Returns a, log).

Definition bind {A B : Type} (m : io A) (k : A -> io B) : io B :=
  fun log =>
    match m log with
    | (Returns a, log') => k a log'
    | (Raises e, log') => (Raises e, log')
    | (OutOfFuel, log') => (OutOfFuel, log')
    end.

Definition lift {A : Type} (r : res A) : io A :=
  fun log =>
    match r with
    | Ok a => (Returns a, log)
    | Raise e => (Raises e, log)
    end.

Definition out_of_fuel {A : Type} : io A := fun log => (OutOfFuel, log).

(** [try: return body / except Exception as e: logger.error(...); return None]. *)
Definition try_or_None {A : Type} (body : io A) : io (option A) :=
  fun log =>
    match body log with
    | (Returns a, log') => (Returns (Some a), log')
    | (Raises _, log') => (Returns None, log')
    | (OutOfFuel, log') => (OutOfFuel, log')
    end.

Declare Scope io_scope.
Delimit Scope io_scope with io.
Notation "x <- m ;; k" := (bind m (fun x => k))
  (at level 100, m at next level, right associativity) : io_scope.

(** ** [phantasma.py]: class [PhantasmaAPI] *)

Definition base_url : string := "https://api-explorer.phantasma.info/api/v1".

(** The page size of every paginated fetch. *)
Definition page_limit : Z := 20000.

(** [d[k]] where the code holds an int. *)
Definition int_item (d : dict) (k : string) : res Z :=
  match dict_lookup k d with
  | Some (PInt z) => Ok z
  | Some _ => Raise TypeError
  | None => Raise KeyError
  end.

(** [next((b['amount'] for b in balances if b['token']['symbol'] ==
    token_symbol), '0')]: the amount of the first entry for the symbol. *)
Fixpoint first_amount (token_symbol : pyval) (balances : list pyval) : res pyval :=
  match balances with
  | [] => Ok (PStr "0")
  | b :: rest =>
      (token <- getitem b "token" ;;
       symbol <- getitem token "symbol" ;;
       if py_eq symbol token_symbol then getitem b "amount"
       else first_amount token_symbol rest)%res
  end.

(** The record a transfer row is made of; the same dict literal stands in
    [fetch_transfers] and in [fetch_early_transfers]. *)
Definition transfer_record (event_send event_receive : pyval) : res dict :=
  (date <- getitem event_send "date" ;;
   timestamp <- int_of date ;;
   from_address <- getitem event_send "address" ;;
   to_address <- getitem event_receive "address" ;;
   token_event <- getitem event_send "token_event" ;;
   quantity <- getitem token_event "value" ;;
   transaction_hash <- getitem event_send "transaction_hash" ;;
   Ok [("timestamp", PInt timestamp);
       ("from_address", from_address);
       ("to_address", to_address);
       ("quantity", quantity);
       ("transaction_hash", transaction_hash)])%res.

(** The body of [for index, event_send in enumerate(result_send['events'])]:
    [row] is what one pass does with the pair, [None] standing for
    [continue]. *)
Fixpoint pair_events (row : pyval -> pyval -> res (option dict))
    (result_receive : pyval) (index : Z) (events_send : list pyval)
    (all_transfers : list dict) : res (list dict) :=
  match events_send with
  | [] => Ok all_transfers
  | event_send :: rest =>
      (events_receive <- getitem result_receive "events" ;;
       event_receive <- getindex events_receive index ;;
       r <- row event_send event_receive ;;
       pair_events row result_receive (index + 1) rest
         match r with
         | Some d => (all_transfers ++ [d])%list
         | None => all_transfers
         end)%res
  end.

Section Fetcher.

Variable rt : Runtime.
Variable up : upstream.

(** [PhantasmaAPI._make_request]. *)
Definition _make_request (endpoint : string) (params : dict) : io pyval :=
  fun log =>
    let url := (base_url ++ "/" ++ endpoint)%string in
    let log' := (log ++ [(url, params)])%list in
    match up log url params with
    | Raise e => (Raises e, log')
    | Ok r =>
        if status_code r =? 200 then lift (json r) log'
        else (Raises ValueError, log')
    end.

(** [PhantasmaAPI.get_symbol_by_token_address]. *)
Definition get_symbol_by_token_address (token_address : string) : io pyval :=
  (results <- _make_request "addresses" [("address", PStr token_address)] ;;
   result <- lift (getitem results "addresses") ;;
   if negb (truth result) then lift (Raise ValueError)
   else lift (first <- getindex result 0 ;; getitem first "address_name")%res)%io.

(** [PhantasmaAPI.fetch_token_info]. *)
Definition fetch_token_info_body (token_address : string) : io TokenInfo :=
    (token_symbol <- get_symbol_by_token_address token_address ;;
     results <- _make_request "tokens"
                  [("symbol", token_symbol); ("create_event", PInt 1)] ;;
     lift (tokens <- getitem results "tokens" ;;
           result <- getindex tokens 0 ;;
           has_event <- contains "create_event" result ;;
           created_ts <- (if has_event then
                            (ev <- getitem result "create_event" ;;
                             date <- getitem ev "creation_date" ;;
                             int_of date)
                          else Ok 0) ;;
           decimals <- getitem result "decimals" ;;
           symbol <- getitem result "symbol" ;;
           symbol_str <- str_of rt symbol ;;
           name <- getitem result "name" ;;
           name_str <- str_of rt name ;;
           supply <- getitem result "current_supply" ;;
           format_token_info rt
             [("created_timestamp", PInt created_ts);
              ("decimals", decimals);
              ("symbol", PStr symbol_str);
              ("name", PStr name_str);
              ("supply", supply)])%res)%io.

Definition fetch_token_info (token_address : string) : io (option TokenInfo) :=
  try_or_None (fetch_token_info_body token_address).

(** One pass of [for holder in result['addresses']]: the record to append,
    or [None] when the balance is below [min_balance]. *)
Definition holder_row (token_symbol : pyval) (min_balance : decimal)
    (holder : pyval) : res (option dict) :=
  (balances <- getitem holder "balances" ;;
   entries <- iter balances ;;
   balance <- first_amount token_symbol entries ;;
   amount <- Decimal_of rt balance ;;
   enough <- dec_ge amount min_balance ;;
   if enough then
     (address <- getitem holder "address" ;;
      Ok (Some [("owner_address", address); ("balance", balance)]))
   else Ok None)%res.

Fixpoint holders_rows (token_symbol : pyval) (min_balance : decimal)
    (holders : list pyval) (all_holders : list dict) : res (list dict) :=
  match holders with
  | [] => Ok all_holders
  | holder :: rest =>
      (r <- holder_row token_symbol min_balance holder ;;
       holders_rows token_symbol min_balance rest
         match r with
         | Some d => (all_holders ++ [d])%list
         | None => all_holders
         end)%res
  end.

(** The [while True] loop of [fetch_holders]; one unit of fuel per page. *)
Fixpoint holders_pages (fuel : nat) (token_symbol : pyval)
    (min_balance : decimal) (params : dict) (all_holders : list dict)
    : io (list dict) :=
  match fuel with
  | O => out_of_fuel
  | S fuel' =>
      (result <- _make_request "addresses" params ;;
       addresses <- lift (getitem result "addresses") ;;
       if negb (truth addresses) then ret all_holders
       else
         holders <- lift (iter addresses) ;;
         all_holders' <- lift (holders_rows token_symbol min_balance
                                            holders all_holders) ;;
         n <- lift (len addresses) ;;
         limit <- lift (int_item params "limit") ;;
         if n <? limit then ret all_holders'
         else
           offset <- lift (int_item params "offset") ;;
           holders_pages fuel' token_symbol min_balance
             (dict_set "offset" (PInt (offset + limit)) params)
             all_holders')%io
  end.

Definition holders_params (token_symbol : pyval) : dict :=
  [("offset", PInt 0);
   ("limit", PInt page_limit);
   ("contract", token_symbol);
   ("with_balance", PInt 1)].

(** [PhantasmaAPI.fetch_holders]. *)
Definition fetch_holders_body (fuel : nat) (token_address : string)
    (min_balance : decimal) : io holders_table :=
    (token_symbol <- get_symbol_by_token_address token_address ;;
     all_holders <- holders_pages fuel token_symbol min_balance
                      (holders_params token_symbol) [] ;;
     lift (df <- pd_DataFrame all_holders ;;
           format_holders_df rt df)%res)%io.

Definition fetch_holders (fuel : nat) (token_address : string)
    (min_balance : decimal) : io (option holders_table) :=
  try_or_None (fetch_holders_body fuel token_address min_balance).

(** [PhantasmaAPI.fetch_historical_owners]: its body is [pass]. *)
Definition fetch_historical_owners (token_address : string)
    (addresses : list string) (start_date : datetime)
    (end_date : option datetime) : io (option historical_holders_table) :=
  ret None.

(** [int(d.timestamp()) if d else None]; a datetime is always true. *)
Definition date_param (d : option datetime) : res pyval :=
  match d with
  | Some t =>
      (f <- datetime_timestamp rt t ;;
       z <- int_of (PFloat f) ;;
       Ok (PInt z))%res
  | None => Ok PNone
  end.

Definition events_params (date_greater date_less token_symbol : pyval) : dict :=
  [("date_greater", date_greater);
   ("date_less", date_less);
   ("offset", PInt 0);
   ("limit", PInt page_limit);
   ("contract", token_symbol);
   ("with_event_data", PInt 1)].

(** The [while True] loop that [fetch_transfers] and [fetch_early_transfers]
    both spell out, the same but for what a pass of the inner [for] does with
    a pair ([row]); one unit of fuel per page. *)
Fixpoint events_pages (fuel : nat) (row : pyval -> pyval -> res (option dict))
    (params : dict) (all_transfers : list dict) : io (list dict) :=
  match fuel with
  | O => out_of_fuel
  | S fuel' =>
      (result_send <- _make_request "events"
                        (dict_with_first "event_kind" (PStr "TokenSend") params) ;;
       result_receive <- _make_request "events"
                        (dict_with_first "event_kind" (PStr "TokenReceive") params) ;;
       events_send <- lift (getitem result_send "events") ;;
       stop <- (if negb (truth events_send) then ret true
                else
                  events_receive <- lift (getitem result_receive "events") ;;
                  ret (negb (truth events_receive))) ;;
       if stop : bool then ret all_transfers
       else
         sends <- lift (iter events_send) ;;
         all_transfers' <- lift (pair_events row result_receive 0 sends
                                             all_transfers) ;;
         n <- lift (len events_send) ;;
         limit <- lift (int_item params "limit") ;;
         if n <? limit then ret all_transfers'
         else
           offset <- lift (int_item params "offset") ;;
           events_pages fuel' row
             (dict_set "offset" (PInt (offset + limit)) params)
             all_transfers')%io
  end.

(** The [if addresses:] block of [fetch_transfers]: does the pair pass? *)
Definition address_filter (addresses : option (list string))
    (from_address_only : bool) (event_send event_receive : pyval) : res bool :=
  match addresses with
  | Some ((_ :: _) as wanted) =>
      if from_address_only then
        (sender <- getitem event_send "address" ;;
         set_contains wanted sender)%res
      else
        (sender <- getitem event_send "address" ;;
         receiver <- getitem event_receive "address" ;;
         hit <- set_contains wanted sender ;;
         if hit then Ok true else set_contains wanted receiver)%res
  | _ => Ok true
  end.

(** One pass of the inner [for] of [fetch_transfers]. *)
Definition transfers_row (addresses : option (list string))
    (from_address_only : bool) (min_value : decimal)
    (event_send event_receive : pyval) : res (option dict) :=
  (token_event <- getitem event_send "token_event" ;;
   value <- getitem token_event "value" ;;
   amount <- Decimal_of rt value ;;
   below <- dec_lt amount min_value ;;
   if below then Ok None
   else
     pass <- address_filter addresses from_address_only
                            event_send event_receive ;;
     if pass then
       (d <- transfer_record event_send event_receive ;;
        Ok (Some d))
     else Ok None)%res.

(** [PhantasmaAPI.fetch_transfers]. *)
Definition fetch_transfers_body (fuel : nat) (token_address : string)
    (addresses : option (list string)) (start_date end_date : option datetime)
    (from_address_only : bool) (min_value : decimal)
    : io transfers_table :=
    (token_symbol <- get_symbol_by_token_address token_address ;;
     date_greater <- lift (date_param start_date) ;;
     date_less <- lift (date_param end_date) ;;
     all_transfers <- events_pages fuel
                        (transfers_row addresses from_address_only min_value)
                        (events_params date_greater date_less token_symbol) [] ;;
     lift (df <- pd_DataFrame all_transfers ;;
           format_transfers_df rt df)%res)%io.

Definition fetch_transfers (fuel : nat) (token_address : string)
    (addresses : option (list string)) (start_date end_date : option datetime)
    (from_address_only : bool) (min_value : decimal)
    : io (option transfers_table) :=
  try_or_None (fetch_transfers_body fuel token_address addresses start_date end_date from_address_only min_value).

(** [Decimal(0.005)]: the decimal expansion of the double. *)
Definition dust_threshold : decimal := Decimal_of_float 0.005%float.

(** One pass of the inner [for] of [fetch_early_transfers]. *)
Definition early_transfers_row (token_symbol : pyval)
    (event_send event_receive : pyval) : res (option dict) :=
  (skip <- (if py_eq token_symbol (PStr "KCAL") then
              (token_event <- getitem event_send "token_event" ;;
               value <- getitem token_event "value" ;;
               amount <- Decimal_of rt value ;;
               dec_lt amount dust_threshold)
            else Ok false) ;;
   if skip : bool then Ok None
   else
     (d <- transfer_record event_send event_receive ;;
      Ok (Some d)))%res.

(** [PhantasmaAPI.fetch_early_transfers]. *)
Definition fetch_early_transfers_body (fuel : nat) (token_address : string)
    (start_date end_date : option datetime) : io transfers_table :=
    (token_symbol <- get_symbol_by_token_address token_address ;;
     date_greater <- lift (date_param start_date) ;;
     date_less <- lift (date_param end_date) ;;
     all_transfers <- events_pages fuel (early_transfers_row token_symbol)
                        (events_params date_greater date_less token_symbol) [] ;;
     lift (df <- pd_DataFrame all_transfers ;;
           format_transfers_df rt df)%res)%io.

Definition fetch_early_transfers (fuel : nat) (token_address : string)
    (start_date end_date : option datetime) : io (option transfers_table) :=
  try_or_None (fetch_early_transfers_body fuel token_address start_date end_date).

(** One pass of [for price_point in result['history_prices']]. *)
Definition price_row (price_point : pyval) : res dict :=
  (date <- getitem price_point "date" ;;
   timestamp <- int_of date ;;
   price <- getitem price_point "price" ;;
   average_price <- getitem price "usd" ;;
   price' <- getitem price_point "price" ;;
   close_price <- getitem price' "usd" ;;
   volume <- get_method price_point "volume" (PStr "0") ;;
   Ok [("timestamp", PInt timestamp);
       ("average_price", average_price);
       ("close_price", close_price);
       ("volume", volume)])%res.

(** [PhantasmaAPI.fetch_prices]; the dates are not used. *)
Definition fetch_prices_body (token_address : string) (start_date : datetime)
    (end_date : option datetime) : io prices_table :=
    (token_symbol <- get_symbol_by_token_address token_address ;;
     result <- _make_request "historyPrices" [("symbol", token_symbol)] ;;
     lift (history <- getitem result "history_prices" ;;
           points <- iter history ;;
           prices <- mapM price_row points ;;
           df <- pd_DataFrame prices ;;
           format_prices_df rt df)%res)%io.

Definition fetch_prices (token_address : string) (start_date : datetime)
    (end_date : option datetime) : io (option prices_table) :=
  try_or_None (fetch_prices_body token_address start_date end_date).

End Fetcher.

(** ** Definitions used to state the properties *)

(** A datetime that carries no zone. *)
Definition naive (d : datetime) : Prop := tzinfo d = None.

(** What [row] keeps of a list of (send, receive) pairs, in order,
    appended to [acc]. *)
Fixpoint rows_of_pairs (row : pyval -> pyval -> res (option dict))
    (pairs : list (pyval * pyval)) (acc : list dict) : res (list dict) :=
  match pairs with
  | [] => Ok acc
  | (s, r) :: rest =>
      (kept <- row s r ;;
       rows_of_pairs row rest
         match kept with
         | Some d => (acc ++ [d])%list
         | None => acc
         end)%res
  end.

(** The URL [_make_request] builds for an endpoint. *)
Definition endpoint_url (endpoint : string) : string :=
  (base_url ++ "/" ++ endpoint)%string.

(** A runtime for the worked examples: local time is UTC, and no example
    reaches another library function. *)
Definition example_runtime : Runtime :=
  mkRuntime (fun _ _ _ => 0%float) (fun _ => Ok "")
            (fun _ => Raise TypeError) (fun _ => Raise ValueError)
            (fun v => match v with
                      | PInt z => Ok ((62135596800 + z) * 1000000)
                      | _ => Raise OverflowError
                      end)
            (fun _ => Raise ValueError)
            (fun _ => Raise OverflowError).

(** A computation that cannot run out of fuel. *)
Definition total {A : Type} (m : io A) : Prop :=
  forall log, fst (m log) <> OutOfFuel.

(** [a >= b] and [a < b] for decimals that are numbers. *)
Definition at_least (a b : decimal) : Prop := dec_cmp a b <> Lt.

Definition below (a b : decimal) : Prop := dec_cmp a b = Lt.

(** A balance entry that is for another symbol than [token_symbol]. *)
Definition other_symbol (token_symbol : pyval) (b : pyval) : Prop :=
  exists token symbol,
    getitem b "token" = Ok token /\
    getitem token "symbol" = Ok symbol /\
    py_eq symbol token_symbol = false.

(** The address condition of the transfers fetch in the words of the
    specification: with a non-empty set of addresses of interest, the
    sender is in the set when [from_address_only] holds, the sender or the
    receiver is otherwise; with no set (or an empty one) every pair
    passes. *)
Definition address_wanted (addresses : option (list string))
    (from_address_only : bool) (sender receiver : string) : Prop :=
  match addresses with
  | Some ((_ :: _) as wanted) =>
      if from_address_only then In sender wanted
      else In sender wanted \/ In receiver wanted
  | _ => True
  end.

(** The pair of the specification's examples: a send event of 5 from "A"
    at time 100 in transaction "h1", and its receive event at "B". *)
Definition example_send : pyval :=
  PDict [("address", PStr "A");
         ("date", PStr "100");
         ("transaction_hash", PStr "h1");
         ("token_event", PDict [("value", PStr "5")])].

Definition example_receive : pyval := PDict [("address", PStr "B")].

(** A holder of nothing: no balance entry for any token. *)
Definition example_holder : pyval :=
  PDict [("address", PStr "P2K"); ("balances", PList [])].

(** A holder the filter of [fetch_holders] keeps. *)
Definition accepted (rt : Runtime) (token_symbol : pyval) (min_balance : decimal)
    (holder : pyval) : Prop :=
  exists d, holder_row rt token_symbol min_balance holder = Ok (Some d).

(** The requests of one page of the events loop. *)
Definition send_request (params : dict) : dict :=
  dict_with_first "event_kind" (PStr "TokenSend") params.

Definition receive_request (params : dict) : dict :=
  dict_with_first "event_kind" (PStr "TokenReceive") params.

Definition ok_response (body : pyval) : res response :=
  Ok (mkResponse 200 "" (Ok body)).

(** An upstream that knows one token, "SOUL", and answers every events
    request with the one pair of the examples. *)
Definition example_events_upstream : upstream :=
  fun _ url params =>
    if String.eqb url (endpoint_url "addresses") then
      ok_response (PDict [("addresses", PList [PDict [("address_name", PStr "SOUL")]])])
    else if py_eq (dict_get params "event_kind" PNone) (PStr "TokenSend") then
      ok_response (PDict [("events", PList [example_send])])
    else
      ok_response (PDict [("events", PList [example_receive])]).

(** An upstream whose send stream has two events on the page where its
    receive stream has one. *)
Definition short_receive_upstream : upstream :=
  fun _ url params =>
    if String.eqb url (endpoint_url "addresses") then
      ok_response (PDict [("addresses", PList [PDict [("address_name", PStr "SOUL")]])])
    else if py_eq (dict_get params "event_kind" PNone) (PStr "TokenSend") then
      ok_response (PDict [("events", PList [example_send; example_send])])
    else
      ok_response (PDict [("events", PList [example_receive])]).

(** A full page of holders, a page of 15000, and an upstream that serves
    the given page at offset 0 and nothing after it. *)
Definition full_page : list pyval := repeat example_holder (Z.to_nat page_limit).

Definition short_page : list pyval := repeat example_holder (Z.to_nat 15000).

Definition paged_upstream (first : list pyval) : upstream :=
  fun _ _ params =>
    ok_response
      (PDict [("addresses",
               if py_eq (dict_get params "offset" PNone) (PInt 0)
               then PList first else PList [])]).

(** A send event of exactly 0.005. *)
Definition threshold_send : pyval :=
  PDict [("address", PStr "A");
         ("date", PStr "100");
         ("transaction_hash", PStr "h1");
         ("token_event", PDict [("value", PStr "0.005")])].

(** The rational a finite decimal stands for. *)
Definition dec_value (neg : bool) (coef : N) (exp : Z) : Q :=
  (inject_Z ((if neg then -1 else 1) * Z.of_N coef) * inject_Z 10 ^ exp)%Q.

(** The state of the events loop at the top of a pass: the parameters, the
    accumulated records and the log of requests. *)
Record loop_state : Type := mkLoopState {
  ls_params : dict;
  ls_acc : list dict;
  ls_log : list request
}.

(** One pass of the events loop over a full page: both streams have
    events, the pairing goes through, and the page is not short. *)
Inductive full_page_step (up : upstream)
    (row : pyval -> pyval -> res (option dict)) : loop_state -> loop_state -> Prop :=
| FullPage (params : dict) (acc : list dict) (log : list request)
    (result_send : pyval) (l1 : list request)
    (result_receive : pyval) (l2 : list request)
    (sends recvs : list pyval) (acc' : list dict) (limit offset : Z) :
    _make_request up "events" (send_request params) log
      = (Returns result_send, l1) ->
    _make_request up "events" (receive_request params) l1
      = (Returns result_receive, l2) ->
    getitem result_send "events" = Ok (PList sends) ->
    getitem result_receive "events" = Ok (PList recvs) ->
    sends <> [] -> recvs <> [] ->
    pair_events row result_receive 0 sends acc = Ok acc' ->
    int_item params "limit" = Ok limit ->
    int_item params "offset" = Ok offset ->
    limit <= Z.of_nat (List.length sends) ->
    full_page_step up row
      (mkLoopState params acc log)
      (mkLoopState (dict_set "offset" (PInt (offset + limit)) params) acc' l2).

(** The loop gets from one state to another in [n] full pages. *)
Inductive reaches_page (up : upstream)
    (row : pyval -> pyval -> res (option dict)) : nat -> loop_state -> loop_state -> Prop :=
| reaches_here (s : loop_state) : reaches_page up row 0 s s
| reaches_next (n : nat) (s1 s2 s3 : loop_state) :
    full_page_step up row s1 s2 ->
    reaches_page up row n s2 s3 ->
    reaches_page up row (S n) s1 s3.

(** An upstream with one token, "SOUL", and one page of two holders: one
    with 2.50 SOUL (and some KCAL), one with no SOUL at all. *)
Definition example_holders_upstream : upstream :=
  fun _ _ params =>
    match dict_lookup "address" params with
    | Some _ =>
        ok_response
          (PDict [("addresses", PList [PDict [("address_name", PStr "SOUL")]])])
    | None =>
        ok_response
          (PDict [("addresses",
                   PList [PDict [("address", PStr " P2K1 ");
                                 ("balances",
                                  PList [PDict [("token", PDict [("symbol", PStr "KCAL")]);
                                                ("amount", PStr "7")];
                                         PDict [("token", PDict [("symbol", PStr "SOUL")]);
                                                ("amount", PStr "2.50")]])];
                          PDict [("address", PStr "P2K2");
                                 ("balances",
                                  PList [PDict [("token", PDict [("symbol", PStr "KCAL")]);
                                                ("amount", PStr "9")]])]])])
    end.

(** The parameters of the [i]-th page of a paginated fetch that starts
    from [params] at [offset]. *)
Definition page_params (params : dict) (offset limit : Z) (i : nat) : dict :=
  dict_set "offset" (PInt (offset + Z.of_nat i * limit)) params.

(** The requests of [k] pages of the holders loop, and of the events loop
    (a send request and a receive request per page). *)
Definition holders_requests (params : dict) (offset limit : Z) (k : nat)
  : list request :=
  map (fun i => (endpoint_url "addresses", page_params params offset limit i))
      (seq 0 k).

Definition events_requests (params : dict) (offset limit : Z) (k : nat)
  : list request :=
  flat_map (fun i =>
              [(endpoint_url "events",
                send_request (page_params params offset limit i));
               (endpoint_url "events",
                receive_request (page_params params offset limit i))])
           (seq 0 k).

(** A record that a pass of the inner loop over some pair has emitted. *)
Definition emitted_by (row : pyval -> pyval -> res (option dict)) (d : dict) : Prop :=
  exists event_send event_receive, row event_send event_receive = Ok (Some d).

(** A record that [fetch_holders] has made of some holder. *)
Definition holder_record_of (rt : Runtime) (token_symbol : pyval)
    (min_balance : decimal) (d : dict) : Prop :=
  exists holder, holder_row rt token_symbol min_balance holder = Ok (Some d).

(** A transfer record that satisfies the filters of [fetch_transfers]: its
    quantity reads as a decimal that is not below [min_value], and, when a
    non-empty set of addresses is given, the sender is in the set
    ([from_address_only]) or the sender or the receiver is. *)
Definition passes_filters (rt : Runtime) (addresses : option (list string))
    (from_address_only : bool) (min_value : decimal) (d : dict) : Prop :=
  exists timestamp sender receiver quantity hash amount,
    d = [("timestamp", PInt timestamp);
         ("from_address", sender);
         ("to_address", receiver);
         ("quantity", quantity);
         ("transaction_hash", hash)] /\
    Decimal_of rt quantity = Ok amount /\
    dec_lt amount min_value = Ok false /\
    match addresses with
    | Some ((_ :: _) as wanted) =>
        if from_address_only then set_contains wanted sender = Ok true
        else set_contains wanted sender = Ok true \/
             set_contains wanted receiver = Ok true
    | _ => True
    end.


(** A string with no white space at either end. *)
Definition starts_clean (l : list ascii) : Prop :=
  match l with
  | c :: _ => is_space c = false
  | [] => True
  end.

Definition trimmed_chars (l : list ascii) : Prop :=
  starts_clean l /\ starts_clean (rev l).

Definition trimmed (s : string) : Prop :=
  trimmed_chars (list_ascii_of_string s).

(** An upstream with the token "SOUL" and a price history of two points,
    the first without a volume. *)
Definition example_prices_upstream : upstream :=
  fun _ url _ =>
    if String.eqb url (endpoint_url "addresses") then
      ok_response (PDict [("addresses", PList [PDict [("address_name", PStr "SOUL")]])])
    else
      ok_response
        (PDict [("history_prices",
                 PList [PDict [("date", PInt 100);
                               ("price", PDict [("usd", PFloat 0.5%float)])];
                        PDict [("date", PStr "200");
                               ("price", PDict [("usd", PFloat 0.25%float)]);
                               ("volume", PStr "12.5")]])]).

(** The characters of a decimal numeral. *)
Definition uint_chars (d : Decimal.uint) : list ascii :=
  list_ascii_of_string (NilEmpty.string_of_uint d).

(** The symbol the upstream gives for a token address: the address_name
    of the first entry of its answer, with status 200, to the resolution
    request. *)
Definition resolves_to (up : upstream) (log : list request) (token : string)
    (symbol : pyval) : Prop :=
  exists r body found first,
    up log (endpoint_url "addresses") [("address", PStr token)] = Ok r /\
    status_code r = 200 /\
    json r = Ok body /\
    getitem body "addresses" = Ok found /\
    truth found = true /\
    getindex found 0 = Ok first /\
    getitem first "address_name" = Ok symbol.

(** A record whose field [k] came as a string. *)
Definition string_field (k : string) (d : dict) : Prop :=
  exists s, dict_lookup k d = Some (PStr s).


(** The same for a transfer record and its quantity in the table. *)
Definition transfer_in_table (min_value : decimal)
    (d : dict) (q : decimal) : Prop :=
  exists timestamp sender receiver s hash,
    d = [("timestamp", PInt timestamp);
         ("from_address", sender);
         ("to_address", receiver);
         ("quantity", PStr s);
         ("transaction_hash", hash)] /\
    Decimal_of_str s = Ok q /\
    dec_lt q min_value = Ok false.

(** An upstream that cannot be reached, and one that knows no token. *)
Definition unreachable_upstream : upstream :=
  fun _ _ _ => Raise RequestException.

Definition empty_upstream : upstream :=
  fun _ _ _ => ok_response (PDict [("addresses", PList [])]).

(** An upstream with one token, " soul " of no decimals, that has no
    creation event. *)
Definition example_token_upstream : upstream :=
  fun _ url _ =>
    if String.eqb url (endpoint_url "addresses") then
      ok_response (PDict [("addresses", PList [PDict [("address_name", PStr "SOUL")]])])
    else
      ok_response
        (PDict [("tokens",
                 PList [PDict [("symbol", PStr " soul ");
                               ("name", PStr "Phantasma Stake");
                               ("decimals", PInt 0);
                               ("current_supply", PStr "1000")]])]).


(** A record of the early transfers: the record of some pair, whose value,
    when the symbol is "KCAL", reads as a decimal not below
    [Decimal(0.005)]. *)
Definition early_record (rt : Runtime) (token_symbol : pyval) (d : dict) : Prop :=
  exists event_send event_receive,
    transfer_record event_send event_receive = Ok d /\
    (py_eq token_symbol (PStr "KCAL") = true ->
     exists token_event value amount,
       getitem event_send "token_event" = Ok token_event /\
       getitem token_event "value" = Ok value /\
       Decimal_of rt value = Ok amount /\
       dec_lt amount dust_threshold = Ok false).

(** An upstream for the token "KCAL" with two transfers on its only page:
    one of 0.005 and one of 5. *)
Definition kcal_events_upstream : upstream :=
  fun _ url params =>
    if String.eqb url (endpoint_url "addresses") then
      ok_response (PDict [("addresses", PList [PDict [("address_name", PStr "KCAL")]])])
    else if py_eq (dict_get params "event_kind" PNone) (PStr "TokenSend") then
      ok_response (PDict [("events", PList [threshold_send; example_send])])
    else
      ok_response (PDict [("events", PList [example_receive; example_receive])]).

(** * Properties *)

Unset Implicit Arguments.

(** ** The monads *)

Lemma rbind_Ok {A B : Type} (m : res A) (k : A -> res B) (b : B) :
  rbind m k = Ok b -> exists a, m = Ok a /\ k a = Ok b.
Proof.
  destruct m as [a | e]; simpl; intros H; [ eauto | discriminate ].
Qed.

Lemma reraise_as_Ok {A : Type} (e : exn) (m : res A) (a : A) :
  reraise_as e m = Ok a -> m = Ok a.
Proof. destruct m; simpl; congruence. Qed.

Lemma bind_Returns {A B : Type} (m : io A) (k : A -> io B) log b log' :
  bind m k log = (Returns b, log') ->
  exists a l1, m log = (Returns a, l1) /\ k a l1 = (Returns b, log').
Proof.
  unfold bind. destruct (m log) as [[a | e |] l1]; intros H;
    [ eauto | discriminate | discriminate ].
Qed.

Lemma lift_Returns {A : Type} (r : res A) log a log' :
  lift r log = (Returns a, log') -> r = Ok a /\ log' = log.
Proof.
  unfold lift. destruct r; intros H; inversion H; auto.
Qed.

Lemma try_or_None_Some {A : Type} (body : io A) log a log' :
  try_or_None body log = (Returns (Some a), log') ->
  body log = (Returns a, log').
Proof.
  unfold try_or_None. destruct (body log) as [[x | e |] l1]; intros H;
    inversion H; reflexivity.
Qed.

Lemma try_or_None_catches {A : Type} (body : io A) log e log' :
  body log = (Raises e, log') ->
  try_or_None body log = (Returns None, log').
Proof. unfold try_or_None. intros ->. reflexivity. Qed.

Lemma try_or_None_never_raises {A : Type} (body : io A) log e :
  fst (try_or_None body log) <> Raises e.
Proof.
  unfold try_or_None. destruct (body log) as [[x | e' |] l1]; simpl; discriminate.
Qed.

Lemma bind_Returns_eq {A B : Type} (m : io A) (k : A -> io B) log a l1 :
  m log = (Returns a, l1) -> bind m k log = k a l1.
Proof. unfold bind. intros ->. reflexivity. Qed.

Lemma bind_Raises_eq {A B : Type} (m : io A) (k : A -> io B) log e l1 :
  m log = (Raises e, l1) -> bind m k log = (Raises e, l1).
Proof. unfold bind. intros ->. reflexivity. Qed.

Lemma bind_lift {A B : Type} (r : res A) (k : A -> io B) log :
  bind (lift r) k log
  = match r with
    | Ok a => k a log
    | Raise e => (Raises e, log)
    end.
Proof. unfold bind, lift. destruct r; reflexivity. Qed.

Lemma bind_ret {A B : Type} (a : A) (k : A -> io B) log :
  bind (ret a) k log = k a log.
Proof. reflexivity. Qed.

Lemma mapM_length {A B : Type} (f : A -> res B) (l : list A) (l' : list B) :
  mapM f l = Ok l' -> List.length l' = List.length l.
Proof.
  revert l'. induction l as [| x l IH]; simpl; intros l' H.
  - inversion H. reflexivity.
  - apply rbind_Ok in H. destruct H as [y [_ H]].
    apply rbind_Ok in H. destruct H as [ys [Hys H]].
    inversion H. simpl. f_equal. auto.
Qed.

Lemma mapM_Forall {A B : Type} (f : A -> res B) (P : B -> Prop) :
  (forall x y, f x = Ok y -> P y) ->
  forall l l', mapM f l = Ok l' -> Forall P l'.
Proof.
  intros Hf. induction l as [| x l IH]; simpl; intros l' H.
  - inversion H. constructor.
  - apply rbind_Ok in H. destruct H as [y [Hy H]].
    apply rbind_Ok in H. destruct H as [ys [Hys H]].
    inversion H. constructor; eauto.
Qed.

(** ** The type handlers *)

Section Handlers.

Variable rt : Runtime.

Lemma Prim2SF_of_nan (f : float) :
  PrimFloat.is_nan f = true -> Prim2SF f = S754_nan.
Proof. intros H. unfold Prim2SF. rewrite H. reflexivity. Qed.

Lemma to_timestamp_naive (v : pyval) (d : datetime) :
  to_timestamp rt v = Ok d -> naive d.
Proof.
  unfold to_timestamp, naive. intros H.
  assert (Hother :
    reraise_as ValueError
      (ts <- pd_to_datetime rt v ;;
       match ts with
       | PDatetime d => Ok (replace_tzinfo_None d)
       | _ => Raise AttributeError
       end)%res = Ok d -> tzinfo d = None).
  { intros H'. apply reraise_as_Ok in H'. apply rbind_Ok in H'.
    destruct H' as [ts [_ H']]. destruct ts; try discriminate.
    inversion H'. reflexivity. }
  destruct v; auto;
    try (apply rbind_Ok in H; destruct H as [w [_ H]]; inversion H; reflexivity).
  inversion H. reflexivity.
Qed.

Lemma tz_localize_None_naive (col : list datetime) :
  Forall naive (tz_localize_None col).
Proof.
  unfold tz_localize_None. induction col; simpl; constructor; auto. reflexivity.
Qed.

End Handlers.

(** C10. [to_int] has no default for a missing value: on NaN and on [None]
    it raises the conversion error ([ValueError]), where [to_decimal] and
    [to_float] give zero.  For a NaN the float parse of its string
    succeeds (it yields NaN) and it is the truncation to an integer that
    fails. *)
Theorem to_int_raises_where_siblings_default (rt : Runtime) (f : float) :
  PrimFloat.is_nan f = true ->
  (to_int rt (PFloat f) = Raise ValueError /\
   to_int rt PNone = Raise ValueError) /\
  ((s <- str_of rt (PFloat f) ;; float_of rt (PStr s))%res = Ok nan /\
   int_of (PFloat nan) = Raise ValueError) /\
  (to_decimal rt (PFloat f) = Ok (DFin false 0 0) /\
   to_decimal rt PNone = Ok (DFin false 0 0)) /\
  (to_float rt (PFloat f) = Ok 0%float /\
   to_float rt PNone = Ok 0%float).
Proof.
  intros Hnan.
  assert (Hstr : str_of rt (PFloat f) = Ok "nan").
  { unfold str_of. rewrite (Prim2SF_of_nan f Hnan). reflexivity. }
  split; [ split | split; [ split | split; split ] ].
  - unfold to_int. rewrite Hstr. reflexivity.
  - reflexivity.
  - rewrite Hstr. reflexivity.
  - reflexivity.
  - unfold to_decimal, isna. simpl. rewrite Hnan. reflexivity.
  - reflexivity.
  - unfold to_float, isna. simpl. rewrite Hnan. reflexivity.
  - reflexivity.
Qed.

Lemma to_int_raises_where_siblings_default_at_nan :
  (to_int example_runtime (PFloat nan) = Raise ValueError /\
   to_int example_runtime PNone = Raise ValueError) /\
  ((s <- str_of example_runtime (PFloat nan) ;;
    float_of example_runtime (PStr s))%res = Ok nan /\
   int_of (PFloat nan) = Raise ValueError) /\
  (to_decimal example_runtime (PFloat nan) = Ok (DFin false 0 0) /\
   to_decimal example_runtime PNone = Ok (DFin false 0 0)) /\
  (to_float example_runtime (PFloat nan) = Ok 0%float /\
   to_float example_runtime PNone = Ok 0%float).
Proof.
  apply (to_int_raises_where_siblings_default example_runtime nan).
  reflexivity.
Defined.

Ltac res_inv H :=
  repeat (apply rbind_Ok in H;
          let x := fresh "x" in
          let Hx := fresh "Hx" in
          destruct H as [x [Hx H]]).

Ltac io_inv H :=
  repeat (apply bind_Returns in H;
          let x := fresh "x" in
          let l := fresh "l" in
          let Hx := fresh "Hx" in
          destruct H as [x [l [Hx H]]]).

Lemma format_transfers_df_naive (rt : Runtime) df t :
  format_transfers_df rt df = Ok t -> Forall naive (t_timestamp t).
Proof.
  unfold format_transfers_df. intros H. res_inv H. inversion H. simpl.
  apply tz_localize_None_naive.
Qed.

Lemma format_prices_df_naive (rt : Runtime) df t :
  format_prices_df rt df = Ok t -> Forall naive (p_timestamp t).
Proof.
  unfold format_prices_df. intros H. res_inv H. inversion H. simpl.
  apply tz_localize_None_naive.
Qed.

Lemma format_historical_holders_df_naive (rt : Runtime) df t :
  format_historical_holders_df rt df = Ok t -> Forall naive (hh_timestamp t).
Proof.
  unfold format_historical_holders_df. intros H. res_inv H. inversion H. simpl.
  eapply mapM_Forall; [ | eassumption ]. apply to_timestamp_naive.
Qed.

(** C6. Every value [to_timestamp] returns is timezone-naive; a datetime
    that carries a zone keeps its wall-clock reading and loses the zone
    (stripped, not converted), and so does what [pd.to_datetime] parses out
    of a string; every timestamp of a formatted table (transfers, prices,
    historical holders) and of a table a fetch operation returns is
    naive. *)
Theorem timestamps_carry_no_zone (rt : Runtime) :
  (forall v d, to_timestamp rt v = Ok d -> naive d) /\
  (forall t, to_timestamp rt (PDatetime t) = Ok (mkDatetime (wallclock t) None)) /\
  (forall s t, pd_to_datetime rt (PStr s) = Ok (PDatetime t) ->
               to_timestamp rt (PStr s) = Ok (mkDatetime (wallclock t) None)) /\
  (forall df t, format_transfers_df rt df = Ok t -> Forall naive (t_timestamp t)) /\
  (forall df t, format_prices_df rt df = Ok t -> Forall naive (p_timestamp t)) /\
  (forall df t, format_historical_holders_df rt df = Ok t ->
                Forall naive (hh_timestamp t)) /\
  (forall up fuel token addresses start_date end_date from_only min_value log t log',
      fetch_transfers rt up fuel token addresses start_date end_date
                      from_only min_value log = (Returns (Some t), log') ->
      Forall naive (t_timestamp t)) /\
  (forall up fuel token start_date end_date log t log',
      fetch_early_transfers rt up fuel token start_date end_date log
        = (Returns (Some t), log') ->
      Forall naive (t_timestamp t)) /\
  (forall up token start_date end_date log t log',
      fetch_prices rt up token start_date end_date log = (Returns (Some t), log') ->
      Forall naive (p_timestamp t)).
Proof.
  split; [ exact (to_timestamp_naive rt) | ].
  split; [ reflexivity | ].
  split.
  { intros s t H. unfold to_timestamp. rewrite H. reflexivity. }
  split; [ exact (format_transfers_df_naive rt) | ].
  split; [ exact (format_prices_df_naive rt) | ].
  split; [ exact (format_historical_holders_df_naive rt) | ].
  split; [ | split ].
  - intros up fuel token addresses sd ed fo mv log t log' H.
    apply try_or_None_Some in H. unfold fetch_transfers_body in H.
    io_inv H. apply lift_Returns in H. destruct H as [H _].
    apply rbind_Ok in H. destruct H as [df [_ H]].
    exact (format_transfers_df_naive _ _ _ H).
  - intros up fuel token sd ed log t log' H.
    apply try_or_None_Some in H. unfold fetch_early_transfers_body in H.
    io_inv H. apply lift_Returns in H. destruct H as [H _].
    apply rbind_Ok in H. destruct H as [df [_ H]].
    exact (format_transfers_df_naive _ _ _ H).
  - intros up token sd ed log t log' H.
    apply try_or_None_Some in H. unfold fetch_prices_body in H.
    io_inv H. apply lift_Returns in H. destruct H as [H _].
    do 4 (apply rbind_Ok in H; destruct H as [? [_ H]]).
    exact (format_prices_df_naive _ _ _ H).
Qed.

(** ** Tables and empty accumulations *)

Lemma df_getitem_length (df : DataFrame) (c : string) (col : list pyval) :
  df_getitem df c = Ok col -> List.length col = List.length (df_records df).
Proof.
  unfold df_getitem. destruct (has_column c (df_columns df)); intros H;
    [ | discriminate ].
  inversion H. apply length_map.
Qed.

(** The frame of a list of records: its columns are the keys of the
    records and it has one row per record. *)
Lemma pd_DataFrame_shape (records : list dict) (df : DataFrame) :
  pd_DataFrame records = Ok df ->
  df_columns df = fold_left add_keys records [] /\
  List.length (df_records df) = List.length records.
Proof.
  unfold pd_DataFrame. intros H.
  apply rbind_Ok in H. destruct H as [dtypes [_ H]].
  inversion H. simpl. split; [ reflexivity | apply length_map ].
Qed.

Lemma df_getitem_records (records : list dict) (df : DataFrame) (c : string)
    (col : list pyval) :
  pd_DataFrame records = Ok df ->
  df_getitem df c = Ok col -> records <> [].
Proof.
  intros Hdf H ->. destruct (pd_DataFrame_shape _ _ Hdf) as [Hcols _].
  unfold df_getitem in H. rewrite Hcols in H. discriminate H.
Qed.

Lemma format_holders_df_rows (rt : Runtime) records df t :
  pd_DataFrame records = Ok df ->
  format_holders_df rt df = Ok t ->
  records <> [] /\ List.length (h_owner_address t) = List.length records.
Proof.
  unfold format_holders_df. intros Hdf H.
  apply rbind_Ok in H. destruct H as [owner [Ho H]].
  split; [ exact (df_getitem_records _ _ _ _ Hdf Ho) | ].
  apply rbind_Ok in H. destruct H as [owners [Hos H]].
  res_inv H. inversion H. simpl.
  rewrite (mapM_length _ _ _ Hos), (df_getitem_length _ _ _ Ho).
  exact (proj2 (pd_DataFrame_shape _ _ Hdf)).
Qed.

Lemma format_transfers_df_rows (rt : Runtime) records df t :
  pd_DataFrame records = Ok df ->
  format_transfers_df rt df = Ok t ->
  records <> [] /\ List.length (t_from_address t) = List.length records.
Proof.
  unfold format_transfers_df. intros Hdf H.
  apply rbind_Ok in H. destruct H as [ts [Hts H]].
  split; [ exact (df_getitem_records _ _ _ _ Hdf Hts) | ].
  apply rbind_Ok in H. destruct H as [stamps [_ H]].
  apply rbind_Ok in H. destruct H as [from [Hfrom H]].
  apply rbind_Ok in H. destruct H as [froms [Hfroms H]].
  res_inv H. inversion H. simpl.
  rewrite (mapM_length _ _ _ Hfroms), (df_getitem_length _ _ _ Hfrom).
  exact (proj2 (pd_DataFrame_shape _ _ Hdf)).
Qed.

Lemma format_prices_df_rows (rt : Runtime) records df t :
  pd_DataFrame records = Ok df ->
  format_prices_df rt df = Ok t ->
  records <> [] /\ List.length (p_average_price t) = List.length records.
Proof.
  unfold format_prices_df. intros Hdf H.
  apply rbind_Ok in H. destruct H as [ts [Hts H]].
  split; [ exact (df_getitem_records _ _ _ _ Hdf Hts) | ].
  apply rbind_Ok in H. destruct H as [stamps [_ H]].
  apply rbind_Ok in H. destruct H as [ap [Hap H]].
  apply rbind_Ok in H. destruct H as [average [Hav H]].
  res_inv H. inversion H. simpl.
  rewrite (mapM_length _ _ _ Hav), (df_getitem_length _ _ _ Hap).
  exact (proj2 (pd_DataFrame_shape _ _ Hdf)).
Qed.

Lemma nonempty_of_length {A B : Type} (l : list A) (l' : list B) :
  l' <> [] -> List.length l = List.length l' -> l <> [].
Proof.
  intros Hl' Hlen ->. destruct l'; [ congruence | discriminate ].
Qed.

(** C8. Formatting an empty record list raises the missing-column error
    ([KeyError]); hence, when the record list a fetch has accumulated is
    empty at the end of its loop, [fetch_holders], [fetch_transfers],
    [fetch_early_transfers] and [fetch_prices] return [None]; and a table
    that one of them does return has at least one row. *)
Theorem empty_accumulation_returns_None (rt : Runtime) (up : upstream) :
  ((df <- pd_DataFrame [] ;; format_holders_df rt df)%res = Raise KeyError /\
   (df <- pd_DataFrame [] ;; format_transfers_df rt df)%res = Raise KeyError /\
   (df <- pd_DataFrame [] ;; format_prices_df rt df)%res = Raise KeyError) /\
  (forall fuel token min_balance log symbol l1 l2,
      get_symbol_by_token_address up token log = (Returns symbol, l1) ->
      holders_pages rt up fuel symbol min_balance (holders_params symbol) [] l1
        = (Returns [], l2) ->
      fetch_holders rt up fuel token min_balance log = (Returns None, l2)) /\
  (forall fuel token addresses start_date end_date from_only min_value
          log symbol l1 greater less l2,
      get_symbol_by_token_address up token log = (Returns symbol, l1) ->
      date_param rt start_date = Ok greater ->
      date_param rt end_date = Ok less ->
      events_pages up fuel (transfers_row rt addresses from_only min_value)
                   (events_params greater less symbol) [] l1 = (Returns [], l2) ->
      fetch_transfers rt up fuel token addresses start_date end_date
                      from_only min_value log = (Returns None, l2)) /\
  (forall fuel token start_date end_date log symbol l1 greater less l2,
      get_symbol_by_token_address up token log = (Returns symbol, l1) ->
      date_param rt start_date = Ok greater ->
      date_param rt end_date = Ok less ->
      events_pages up fuel (early_transfers_row rt symbol)
                   (events_params greater less symbol) [] l1 = (Returns [], l2) ->
      fetch_early_transfers rt up fuel token start_date end_date log
        = (Returns None, l2)) /\
  (forall token start_date end_date log symbol l1 result l2 history,
      get_symbol_by_token_address up token log = (Returns symbol, l1) ->
      _make_request up "historyPrices" [("symbol", symbol)] l1
        = (Returns result, l2) ->
      getitem result "history_prices" = Ok history ->
      iter history = Ok [] ->
      fetch_prices rt up token start_date end_date log = (Returns None, l2)) /\
  (forall fuel token min_balance log t log',
      fetch_holders rt up fuel token min_balance log = (Returns (Some t), log') ->
      h_owner_address t <> []) /\
  (forall fuel token addresses start_date end_date from_only min_value log t log',
      fetch_transfers rt up fuel token addresses start_date end_date
                      from_only min_value log = (Returns (Some t), log') ->
      t_from_address t <> []) /\
  (forall fuel token start_date end_date log t log',
      fetch_early_transfers rt up fuel token start_date end_date log
        = (Returns (Some t), log') ->
      t_from_address t <> []) /\
  (forall token start_date end_date log t log',
      fetch_prices rt up token start_date end_date log = (Returns (Some t), log') ->
      p_average_price t <> []).
Proof.
  split; [ repeat split | ].
  split.
  { intros fuel token mb log symbol l1 l2 Hsym Hpages.
    unfold fetch_holders, try_or_None, fetch_holders_body, bind.
    rewrite Hsym, Hpages. reflexivity. }
  split.
  { intros fuel token addresses sd ed fo mv log symbol l1 g l l2 Hsym Hg Hl Hpages.
    unfold fetch_transfers, try_or_None, fetch_transfers_body, bind.
    rewrite Hsym, Hg, Hl. simpl. rewrite Hpages. reflexivity. }
  split.
  { intros fuel token sd ed log symbol l1 g l l2 Hsym Hg Hl Hpages.
    unfold fetch_early_transfers, try_or_None, fetch_early_transfers_body, bind.
    rewrite Hsym, Hg, Hl. simpl. rewrite Hpages. reflexivity. }
  split.
  { intros token sd ed log symbol l1 result l2 history Hsym Hreq Hget Hiter.
    unfold fetch_prices, try_or_None, fetch_prices_body, bind.
    rewrite Hsym, Hreq, Hget. simpl. rewrite Hiter. reflexivity. }
  split; [ | split; [ | split ] ].
  - intros fuel token mb log t log' H.
    apply try_or_None_Some in H. unfold fetch_holders_body in H.
    io_inv H. apply lift_Returns in H. destruct H as [H _].
    apply rbind_Ok in H. destruct H as [df [Hdf H]].
    destruct (format_holders_df_rows _ _ _ _ Hdf H) as [Hne Hlen].
    exact (nonempty_of_length _ _ Hne Hlen).
  - intros fuel token addresses sd ed fo mv log t log' H.
    apply try_or_None_Some in H. unfold fetch_transfers_body in H.
    io_inv H. apply lift_Returns in H. destruct H as [H _].
    apply rbind_Ok in H. destruct H as [df [Hdf H]].
    destruct (format_transfers_df_rows _ _ _ _ Hdf H) as [Hne Hlen].
    exact (nonempty_of_length _ _ Hne Hlen).
  - intros fuel token sd ed log t log' H.
    apply try_or_None_Some in H. unfold fetch_early_transfers_body in H.
    io_inv H. apply lift_Returns in H. destruct H as [H _].
    apply rbind_Ok in H. destruct H as [df [Hdf H]].
    destruct (format_transfers_df_rows _ _ _ _ Hdf H) as [Hne Hlen].
    exact (nonempty_of_length _ _ Hne Hlen).
  - intros token sd ed log t log' H.
    apply try_or_None_Some in H. unfold fetch_prices_body in H.
    io_inv H. apply lift_Returns in H. destruct H as [H _].
    do 3 (apply rbind_Ok in H; destruct H as [? [_ H]]).
    apply rbind_Ok in H. destruct H as [df [Hdf H]].
    destruct (format_prices_df_rows _ _ _ _ Hdf H) as [Hne Hlen].
    exact (nonempty_of_length _ _ Hne Hlen).
Qed.

(** ** Failing soft *)

Lemma total_lift {A : Type} (r : res A) : total (lift r).
Proof. intros log. unfold lift. destruct r; discriminate. Qed.

Lemma total_bind {A B : Type} (m : io A) (k : A -> io B) :
  total m -> (forall a, total (k a)) -> total (bind m k).
Proof.
  intros Hm Hk log. unfold bind. specialize (Hm log).
  destruct (m log) as [[a | e |] l1]; simpl in *;
    [ apply Hk | discriminate | congruence ].
Qed.

Lemma total_make_request (up : upstream) endpoint params :
  total (_make_request up endpoint params).
Proof.
  intros log. unfold _make_request.
  destruct (up log _ params) as [r | e]; [ | discriminate ].
  destruct (status_code r =? 200); [ apply total_lift | discriminate ].
Qed.

Lemma total_get_symbol (up : upstream) token :
  total (get_symbol_by_token_address up token).
Proof.
  unfold get_symbol_by_token_address.
  apply total_bind; [ apply total_make_request | intros results ].
  apply total_bind; [ apply total_lift | intros result ].
  destruct (negb (truth result)); apply total_lift.
Qed.

Lemma total_try_or_None {A : Type} (body : io A) :
  total body -> forall log, exists r log', try_or_None body log = (Returns r, log').
Proof.
  intros Hb log. specialize (Hb log). unfold try_or_None.
  destruct (body log) as [[a | e |] l1]; simpl in *; eauto. congruence.
Qed.

Lemma make_request_transport_failure (up : upstream) endpoint params log e :
  up log (endpoint_url endpoint) params = Raise e ->
  _make_request up endpoint params log
    = (Raises e, (log ++ [(endpoint_url endpoint, params)])%list).
Proof.
  intros H. unfold _make_request. fold (endpoint_url endpoint). rewrite H.
  reflexivity.
Qed.

(** C4. No fetch operation raises to its caller: whatever the upstream
    does, the outcome of [fetch_token_info], [fetch_holders],
    [fetch_transfers], [fetch_early_transfers] and [fetch_prices] is a
    returned value (or, for the paginated ones, a loop that the upstream
    never lets end), and whenever the body of the operation raises (in the
    request, in the symbol resolution or in the parsing) the operation
    returns [None].  The two operations without a loop always return. *)
Theorem fetch_operations_fail_soft (rt : Runtime) (up : upstream) :
  ((forall token log e,
       fst (fetch_token_info rt up token log) <> Raises e) /\
   (forall fuel token min_balance log e,
       fst (fetch_holders rt up fuel token min_balance log) <> Raises e) /\
   (forall fuel token addresses start_date end_date from_only min_value log e,
       fst (fetch_transfers rt up fuel token addresses start_date end_date
                            from_only min_value log) <> Raises e) /\
   (forall fuel token start_date end_date log e,
       fst (fetch_early_transfers rt up fuel token start_date end_date log)
         <> Raises e) /\
   (forall token start_date end_date log e,
       fst (fetch_prices rt up token start_date end_date log) <> Raises e)) /\
  ((forall token log e log',
       fetch_token_info_body rt up token log = (Raises e, log') ->
       fetch_token_info rt up token log = (Returns None, log')) /\
   (forall fuel token min_balance log e log',
       fetch_holders_body rt up fuel token min_balance log = (Raises e, log') ->
       fetch_holders rt up fuel token min_balance log = (Returns None, log')) /\
   (forall fuel token addresses start_date end_date from_only min_value log e log',
       fetch_transfers_body rt up fuel token addresses start_date end_date
                            from_only min_value log = (Raises e, log') ->
       fetch_transfers rt up fuel token addresses start_date end_date
                       from_only min_value log = (Returns None, log')) /\
   (forall fuel token start_date end_date log e log',
       fetch_early_transfers_body rt up fuel token start_date end_date log
         = (Raises e, log') ->
       fetch_early_transfers rt up fuel token start_date end_date log
         = (Returns None, log')) /\
   (forall token start_date end_date log e log',
       fetch_prices_body rt up token start_date end_date log = (Raises e, log') ->
       fetch_prices rt up token start_date end_date log = (Returns None, log'))) /\
  ((forall token log,
       exists r log', fetch_token_info rt up token log = (Returns r, log')) /\
   (forall token start_date end_date log,
       exists r log',
         fetch_prices rt up token start_date end_date log = (Returns r, log'))).
Proof.
  split; [ | split ].
  - repeat split; intros; apply try_or_None_never_raises.
  - repeat split; intros; apply try_or_None_catches with (e := e); assumption.
  - split.
    + intros token log. apply total_try_or_None.
      unfold fetch_token_info_body.
      apply total_bind; [ apply total_get_symbol | intros symbol ].
      apply total_bind; [ apply total_make_request | intros results ].
      apply total_lift.
    + intros token sd ed log. apply total_try_or_None.
      unfold fetch_prices_body.
      apply total_bind; [ apply total_get_symbol | intros symbol ].
      apply total_bind; [ apply total_make_request | intros results ].
      apply total_lift.
Qed.

(** A transport failure on the first request (the symbol resolution):
    every fetch operation returns [None], after that one request. *)
Lemma transport_failure_returns_None (rt : Runtime) (up : upstream)
    (token : string) (log : list request) (e : exn) :
  up log (endpoint_url "addresses") [("address", PStr token)] = Raise e ->
  let log' := (log ++ [(endpoint_url "addresses", [("address", PStr token)])])%list in
  fetch_token_info rt up token log = (Returns None, log') /\
  (forall fuel min_balance,
      fetch_holders rt up fuel token min_balance log = (Returns None, log')) /\
  (forall fuel addresses start_date end_date from_only min_value,
      fetch_transfers rt up fuel token addresses start_date end_date
                      from_only min_value log = (Returns None, log')) /\
  (forall fuel start_date end_date,
      fetch_early_transfers rt up fuel token start_date end_date log
        = (Returns None, log')) /\
  (forall start_date end_date,
      fetch_prices rt up token start_date end_date log = (Returns None, log')).
Proof.
  intros H log'.
  assert (Hsym : get_symbol_by_token_address up token log = (Raises e, log')).
  { unfold get_symbol_by_token_address, bind.
    rewrite (make_request_transport_failure up _ _ _ e H). reflexivity. }
  repeat split; intros; apply try_or_None_catches with (e := e).
  - unfold fetch_token_info_body, bind. rewrite Hsym. reflexivity.
  - unfold fetch_holders_body, bind. rewrite Hsym. reflexivity.
  - unfold fetch_transfers_body, bind. rewrite Hsym. reflexivity.
  - unfold fetch_early_transfers_body, bind. rewrite Hsym. reflexivity.
  - unfold fetch_prices_body, bind. rewrite Hsym. reflexivity.
Qed.

(** ** The order on decimals is the order of their values *)

Lemma dec_value_scaled (neg : bool) (coef : N) (exp m : Z) :
  m <= exp ->
  (dec_value neg coef exp
   == inject_Z (dec_scaled neg coef exp m) * inject_Z 10 ^ m)%Q.
Proof.
  intros Hm. unfold dec_value, dec_scaled.
  replace exp with ((exp - m) + m) at 1 by lia.
  rewrite Qpower_plus by discriminate.
  rewrite <- (Zpower_Qpower 10 (exp - m)) by lia.
  rewrite (inject_Z_mult _ (10 ^ (exp - m))).
  ring.
Qed.

Lemma Qcompare_scale (x y : Z) (p : Q) :
  (0 < p)%Q -> (inject_Z x * p ?= inject_Z y * p)%Q = (x ?= y).
Proof.
  destruct p as [n d]. unfold Qlt, Qcompare. simpl. intros Hp.
  rewrite !Z.mul_1_r in *.
  rewrite <- !Z.mul_assoc.
  symmetry. rewrite (Z.mul_comm x), (Z.mul_comm y).
  apply Zmult_compare_compat_l.
  assert (0 < n * Z.pos d) by (apply Z.mul_pos_pos; lia). lia.
Qed.

Lemma dec_cmp_value (na : bool) (ca : N) (ea : Z) (nb : bool) (cb : N) (eb : Z) :
  dec_cmp (DFin na ca ea) (DFin nb cb eb)
  = (dec_value na ca ea ?= dec_value nb cb eb)%Q.
Proof.
  unfold dec_cmp. cbv zeta.
  rewrite (Qcompare_comp
             _ _ (dec_value_scaled na ca ea (Z.min ea eb) ltac:(lia))
             _ _ (dec_value_scaled nb cb eb (Z.min ea eb) ltac:(lia))).
  symmetry. apply Qcompare_scale. apply Qpower_0_lt. reflexivity.
Qed.

(** On finite decimals [below] is [<] and [at_least] is [>=] on the
    values. *)
Lemma below_at_least_value (na : bool) (ca : N) (ea : Z)
    (nb : bool) (cb : N) (eb : Z) :
  (below (DFin na ca ea) (DFin nb cb eb)
   <-> (dec_value na ca ea < dec_value nb cb eb)%Q) /\
  (at_least (DFin na ca ea) (DFin nb cb eb)
   <-> (dec_value nb cb eb <= dec_value na ca ea)%Q).
Proof.
  unfold below, at_least. rewrite dec_cmp_value.
  split.
  - rewrite Qlt_alt. reflexivity.
  - rewrite Qle_alt, <- (Qcompare_antisym (dec_value na ca ea)).
    destruct (dec_value na ca ea ?= dec_value nb cb eb)%Q; simpl;
      split; congruence.
Qed.

(** The order on decimals does not depend on the exponents chosen. *)
Example dec_cmp_examples :
  dec_cmp (DFin false 250 (-2)) (DFin false 25 (-1)) = Eq /\
  dec_cmp (DFin false 5 0) (DFin false 10 0) = Lt /\
  dec_cmp (DFin true 1 3) (DFin false 1 (-3)) = Lt /\
  dec_cmp (DFin false 0 0) (DFin true 0 5) = Eq /\
  dec_cmp (DFin false 1 2) (DFin false 99 0) = Gt /\
  dec_cmp (DInf true) (DFin true 1 100) = Lt.
Proof. repeat split. Qed.

(** ** The holders filter *)

Lemma existsb_eqb_In (s : string) (l : list string) :
  existsb (String.eqb s) l = true <-> In s l.
Proof.
  rewrite existsb_exists. split.
  - intros [x [Hin Heq]]. apply String.eqb_eq in Heq. subst. exact Hin.
  - intros Hin. exists s. split; [ exact Hin | apply String.eqb_refl ].
Qed.

Lemma first_amount_skips (token_symbol : pyval) (pre rest : list pyval) :
  Forall (other_symbol token_symbol) pre ->
  first_amount token_symbol (pre ++ rest) = first_amount token_symbol rest.
Proof.
  induction 1 as [| b pre [token [symbol [Ht [Hs Hne]]]] _ IH]; simpl.
  - reflexivity.
  - rewrite Ht. simpl. rewrite Hs. simpl. rewrite Hne. exact IH.
Qed.

(** C5. The balance of a holder is the amount of the first entry of its
    balance list whose token symbol is the token's own, and "0" when there
    is none; the holder is included, with its address and that balance, if
    and only if the balance is at least [min_balance].  The boundary is
    inclusive: a balance "0" is included for [min_balance] 0 and excluded
    for [min_balance] 1. *)
Theorem holder_included_iff_balance_at_least
    (rt : Runtime) (token_symbol : pyval) (min_balance : decimal)
    (holder balances address balance : pyval) (entries : list pyval)
    (amount : decimal) :
  getitem holder "balances" = Ok balances ->
  iter balances = Ok entries ->
  first_amount token_symbol entries = Ok balance ->
  Decimal_of rt balance = Ok amount ->
  dec_is_nan amount = false ->
  dec_is_nan min_balance = false ->
  getitem holder "address" = Ok address ->
  (holder_row rt token_symbol min_balance holder
     = Ok (Some [("owner_address", address); ("balance", balance)])
   <-> at_least amount min_balance) /\
  (holder_row rt token_symbol min_balance holder = Ok None
   <-> below amount min_balance) /\
  (forall pre b post token symbol x,
      Forall (other_symbol token_symbol) pre ->
      getitem b "token" = Ok token ->
      getitem token "symbol" = Ok symbol ->
      py_eq symbol token_symbol = true ->
      getitem b "amount" = Ok x ->
      first_amount token_symbol (pre ++ b :: post) = Ok x) /\
  (forall others,
      Forall (other_symbol token_symbol) others ->
      first_amount token_symbol others = Ok (PStr "0")) /\
  holder_row rt token_symbol (DFin false 0 0) example_holder
    = Ok (Some [("owner_address", PStr "P2K"); ("balance", PStr "0")]) /\
  holder_row rt token_symbol (DFin false 1 0) example_holder = Ok None.
Proof.
  intros Hb Hi Hf Hd Hna Hnm Ha.
  assert (Hrow : holder_row rt token_symbol min_balance holder
                 = match dec_cmp amount min_balance with
                   | Lt => Ok None
                   | _ => Ok (Some [("owner_address", address);
                                    ("balance", balance)])
                   end).
  { unfold holder_row. rewrite Hb. simpl. rewrite Hi. simpl. rewrite Hf. simpl.
    rewrite Hd. simpl. unfold dec_ge. rewrite Hna, Hnm. simpl.
    destruct (dec_cmp amount min_balance); simpl; rewrite ?Ha; reflexivity. }
  unfold at_least, below. rewrite Hrow.
  split; [ | split; [ | split; [ | split; [ | split ] ] ] ].
  - destruct (dec_cmp amount min_balance); split; congruence.
  - destruct (dec_cmp amount min_balance); split; congruence.
  - intros pre b post token symbol x Hpre Ht Hs Heq Hx.
    rewrite (first_amount_skips _ _ _ Hpre). simpl.
    rewrite Ht. simpl. rewrite Hs. simpl. rewrite Heq. exact Hx.
  - intros others Hothers.
    rewrite <- (app_nil_r others). rewrite (first_amount_skips _ _ _ Hothers).
    reflexivity.
  - reflexivity.
  - reflexivity.
Qed.

Lemma holder_included_iff_balance_at_least_example :
  (holder_row example_runtime (PStr "SOUL") (DFin false 25 (-1))
     (PDict [("address", PStr "P2K");
             ("balances", PList [PDict [("token", PDict [("symbol", PStr "KCAL")]);
                                        ("amount", PStr "7")];
                                 PDict [("token", PDict [("symbol", PStr "SOUL")]);
                                        ("amount", PStr "2.50")]])])
     = Ok (Some [("owner_address", PStr "P2K"); ("balance", PStr "2.50")])
   <-> at_least (DFin false 250 (-2)) (DFin false 25 (-1))) /\
  holder_row example_runtime (PStr "SOUL") (DFin false 0 0) example_holder
    = Ok (Some [("owner_address", PStr "P2K"); ("balance", PStr "0")]) /\
  holder_row example_runtime (PStr "SOUL") (DFin false 1 0) example_holder = Ok None.
Proof.
  pose proof (holder_included_iff_balance_at_least
                example_runtime (PStr "SOUL") (DFin false 25 (-1))
                (PDict [("address", PStr "P2K");
                        ("balances",
                         PList [PDict [("token", PDict [("symbol", PStr "KCAL")]);
                                       ("amount", PStr "7")];
                                PDict [("token", PDict [("symbol", PStr "SOUL")]);
                                       ("amount", PStr "2.50")]])])
                (PList [PDict [("token", PDict [("symbol", PStr "KCAL")]);
                               ("amount", PStr "7")];
                        PDict [("token", PDict [("symbol", PStr "SOUL")]);
                               ("amount", PStr "2.50")]])
                (PStr "P2K") (PStr "2.50")
                [PDict [("token", PDict [("symbol", PStr "KCAL")]);
                        ("amount", PStr "7")];
                 PDict [("token", PDict [("symbol", PStr "SOUL")]);
                        ("amount", PStr "2.50")]]
                (DFin false 250 (-2))
                eq_refl eq_refl eq_refl eq_refl eq_refl eq_refl eq_refl)
    as [H1 [_ [_ [_ [H5 H6]]]]].
  exact (conj H1 (conj H5 H6)).
Defined.

(** [fetch_holders] run on a page of two holders: with [min_balance] 1
    only the holder of 2.50 comes back (its address trimmed), with
    [min_balance] 0 both do, the second with the default balance "0". *)
Example fetch_holders_example :
  fst (fetch_holders example_runtime example_holders_upstream 1 "token"
                     (DFin false 1 0) [])
    = Returns (Some (mkHolders ["P2K1"] [DFin false 250 (-2)])) /\
  fst (fetch_holders example_runtime example_holders_upstream 1 "token"
                     (DFin false 0 0) [])
    = Returns (Some (mkHolders ["P2K1"; "P2K2"]
                               [DFin false 250 (-2); DFin false 0 0])).
Proof. split; vm_compute; reflexivity. Qed.

(** ** The transfers filter *)

Lemma address_filter_spec (addresses : option (list string)) (from_only : bool)
    (event_send event_receive : pyval) (sender receiver : string) :
  getitem event_send "address" = Ok (PStr sender) ->
  getitem event_receive "address" = Ok (PStr receiver) ->
  exists pass,
    address_filter addresses from_only event_send event_receive = Ok pass /\
    (pass = true <-> address_wanted addresses from_only sender receiver).
Proof.
  intros Hs Hr. unfold address_filter, address_wanted.
  destruct addresses as [[| w wanted] |].
  - exists true. split; [ reflexivity | tauto ].
  - destruct from_only.
    + rewrite Hs. simpl. eexists. split; [ reflexivity | ].
      apply (existsb_eqb_In sender (w :: wanted)).
    + rewrite Hs. cbn [rbind]. rewrite Hr. cbn [rbind set_contains].
      destruct (existsb (String.eqb sender) (w :: wanted)) eqn:Hin.
      * exists true. split; [ reflexivity | ].
        split; [ intros _; left; apply existsb_eqb_In; exact Hin | reflexivity ].
      * eexists. split; [ reflexivity | ].
        rewrite (existsb_eqb_In receiver (w :: wanted)).
        split; [ intros H; right; exact H | ].
        intros [H | H]; [ | exact H ].
        apply existsb_eqb_In in H. congruence.
  - exists true. split; [ reflexivity | tauto ].
Qed.

(** C2. A pair whose fields can be read is emitted by [fetch_transfers] if
    and only if the value of the send event is not strictly less than
    [min_value] and the addresses pass: with a non-empty set of addresses,
    the sender is in it ([from_address_only]) or the sender or the receiver
    is; with no set only the value counts.  Otherwise the pair is
    skipped. *)
Theorem transfer_emitted_iff_filters_pass
    (rt : Runtime) (addresses : option (list string)) (from_only : bool)
    (min_value : decimal) (event_send event_receive token_event value : pyval)
    (amount : decimal) (sender receiver : string) (record : dict) :
  getitem event_send "token_event" = Ok token_event ->
  getitem token_event "value" = Ok value ->
  Decimal_of rt value = Ok amount ->
  dec_is_nan amount = false ->
  dec_is_nan min_value = false ->
  getitem event_send "address" = Ok (PStr sender) ->
  getitem event_receive "address" = Ok (PStr receiver) ->
  transfer_record event_send event_receive = Ok record ->
  (transfers_row rt addresses from_only min_value event_send event_receive
     = Ok (Some record)
   <-> ~ below amount min_value /\
       address_wanted addresses from_only sender receiver) /\
  (transfers_row rt addresses from_only min_value event_send event_receive
     = Ok None
   <-> ~ (~ below amount min_value /\
          address_wanted addresses from_only sender receiver)).
Proof.
  intros Hte Hv Hd Hna Hnm Hs Hr Hrec.
  destruct (address_filter_spec addresses from_only _ _ _ _ Hs Hr)
    as [pass [Hpass Hiff]].
  unfold transfers_row, below. rewrite Hte. simpl. rewrite Hv. simpl.
  rewrite Hd. simpl. unfold dec_lt. rewrite Hna, Hnm. simpl.
  destruct (dec_cmp amount min_value); simpl;
    try (rewrite Hpass; simpl; destruct pass; simpl; rewrite ?Hrec; simpl);
    (split; split; intros H; try discriminate H; try reflexivity;
     intuition congruence).
Qed.

Lemma transfer_emitted_iff_filters_pass_example :
  (transfers_row example_runtime (Some ["B"]) false (DFin false 0 0)
                 example_send example_receive
     = Ok (Some [("timestamp", PInt 100);
                 ("from_address", PStr "A");
                 ("to_address", PStr "B");
                 ("quantity", PStr "5");
                 ("transaction_hash", PStr "h1")])
   <-> ~ below (DFin false 5 0) (DFin false 0 0) /\
       address_wanted (Some ["B"]) false "A" "B") /\
  (transfers_row example_runtime (Some ["B"]) false (DFin false 0 0)
                 example_send example_receive
     = Ok None
   <-> ~ (~ below (DFin false 5 0) (DFin false 0 0) /\
          address_wanted (Some ["B"]) false "A" "B")).
Proof.
  exact (transfer_emitted_iff_filters_pass
           example_runtime (Some ["B"]) false (DFin false 0 0)
           example_send example_receive
           (PDict [("value", PStr "5")]) (PStr "5") (DFin false 5 0) "A" "B"
           [("timestamp", PInt 100);
            ("from_address", PStr "A");
            ("to_address", PStr "B");
            ("quantity", PStr "5");
            ("transaction_hash", PStr "h1")]
           eq_refl eq_refl eq_refl eq_refl eq_refl eq_refl eq_refl eq_refl).
Defined.

(** The filtering examples of the specification, run. *)
Example transfers_row_examples (rt : Runtime) :
  transfers_row rt None false (DFin false 0 0) example_send example_receive
    = Ok (Some [("timestamp", PInt 100);
                ("from_address", PStr "A");
                ("to_address", PStr "B");
                ("quantity", PStr "5");
                ("transaction_hash", PStr "h1")]) /\
  transfers_row rt None false (DFin false 10 0) example_send example_receive
    = Ok None /\
  transfers_row rt (Some ["B"]) false (DFin false 0 0) example_send example_receive
    = Ok (Some [("timestamp", PInt 100);
                ("from_address", PStr "A");
                ("to_address", PStr "B");
                ("quantity", PStr "5");
                ("transaction_hash", PStr "h1")]) /\
  transfers_row rt (Some ["B"]) true (DFin false 0 0) example_send example_receive
    = Ok None.
Proof. repeat split. Qed.

(** ** Pairing the two event streams *)

Lemma make_request_log (up : upstream) endpoint params log :
  snd (_make_request up endpoint params log)
  = (log ++ [(endpoint_url endpoint, params)])%list.
Proof.
  unfold _make_request. fold (endpoint_url endpoint).
  destruct (up log _ params) as [r | e]; [ | reflexivity ].
  destruct (status_code r =? 200); [ | reflexivity ].
  unfold lift. destruct (json r); reflexivity.
Qed.

Lemma getindex_nth (l : list pyval) (k : nat) :
  getindex (PList l) (Z.of_nat k)
  = match nth_error l k with
    | Some x => Ok x
    | None => Raise IndexError
    end.
Proof.
  unfold getindex.
  destruct (Z.ltb_spec (Z.of_nat k) 0) as [H | _]; [ lia | ].
  destruct (Z.ltb_spec (Z.of_nat k) 0) as [H | _]; [ lia | ].
  rewrite Nat2Z.id. reflexivity.
Qed.

Lemma skipn_nth_cons {A : Type} (l : list A) (k : nat) (x : A) :
  nth_error l k = Some x -> skipn k l = x :: skipn (S k) l.
Proof.
  revert k. induction l as [| y l IH]; intros [| k] H; simpl in *;
    try discriminate.
  - inversion H. reflexivity.
  - apply IH. exact H.
Qed.

Lemma pair_events_from (row : pyval -> pyval -> res (option dict))
    (result_receive : pyval) (recvs : list pyval) :
  getitem result_receive "events" = Ok (PList recvs) ->
  forall sends k acc,
    (k + List.length sends <= List.length recvs)%nat ->
    pair_events row result_receive (Z.of_nat k) sends acc
    = rows_of_pairs row (combine sends (skipn k recvs)) acc.
Proof.
  intros Hr. induction sends as [| s sends IH]; intros k acc Hlen.
  - reflexivity.
  - simpl in Hlen. simpl pair_events. rewrite Hr. cbn [rbind].
    rewrite getindex_nth.
    destruct (nth_error recvs k) as [r |] eqn:Hnth.
    + rewrite (skipn_nth_cons _ _ _ Hnth). cbn [rbind combine rows_of_pairs].
      destruct (row s r) as [kept | e]; [ | reflexivity ]. cbn [rbind].
      replace (Z.of_nat k + 1) with (Z.of_nat (S k)) by lia.
      apply IH. lia.
    + apply nth_error_None in Hnth. lia.
Qed.

Lemma transfer_record_fields (event_send event_receive : pyval) (d : dict) :
  transfer_record event_send event_receive = Ok d ->
  exists date timestamp sender receiver token_event quantity hash,
    getitem event_send "date" = Ok date /\
    int_of date = Ok timestamp /\
    getitem event_send "address" = Ok sender /\
    getitem event_receive "address" = Ok receiver /\
    getitem event_send "token_event" = Ok token_event /\
    getitem token_event "value" = Ok quantity /\
    getitem event_send "transaction_hash" = Ok hash /\
    d = [("timestamp", PInt timestamp);
         ("from_address", sender);
         ("to_address", receiver);
         ("quantity", quantity);
         ("transaction_hash", hash)].
Proof.
  unfold transfer_record. intros H.
  apply rbind_Ok in H. destruct H as [date [H1 H]].
  apply rbind_Ok in H. destruct H as [ts [H2 H]].
  apply rbind_Ok in H. destruct H as [a [H3 H]].
  apply rbind_Ok in H. destruct H as [b [H4 H]].
  apply rbind_Ok in H. destruct H as [te [H5 H]].
  apply rbind_Ok in H. destruct H as [q [H6 H]].
  apply rbind_Ok in H. destruct H as [h [H7 H]].
  inversion H. exists date, ts, a, b, te, q, h. repeat split; assumption.
Qed.

Lemma transfers_row_record (rt : Runtime) addresses from_only min_value
    (event_send event_receive : pyval) (d : dict) :
  transfers_row rt addresses from_only min_value event_send event_receive
    = Ok (Some d) ->
  transfer_record event_send event_receive = Ok d.
Proof.
  unfold transfers_row. intros H.
  apply rbind_Ok in H. destruct H as [te [_ H]].
  apply rbind_Ok in H. destruct H as [v [_ H]].
  apply rbind_Ok in H. destruct H as [amount [_ H]].
  apply rbind_Ok in H. destruct H as [small [_ H]].
  destruct small; [ discriminate | ].
  apply rbind_Ok in H. destruct H as [pass [_ H]].
  destruct pass; [ | discriminate ].
  apply rbind_Ok in H. destruct H as [d' [Hd H]].
  inversion H. subst. exact Hd.
Qed.

(** One page of the events loop that ends the loop: a stream is empty. *)
Lemma events_pages_stop (up : upstream) (fuel : nat)
    (row : pyval -> pyval -> res (option dict)) (params : dict)
    (acc : list dict) log result_send l1 result_receive l2 sends recvs :
  _make_request up "events" (send_request params) log = (Returns result_send, l1) ->
  _make_request up "events" (receive_request params) l1
    = (Returns result_receive, l2) ->
  getitem result_send "events" = Ok (PList sends) ->
  getitem result_receive "events" = Ok (PList recvs) ->
  sends = [] \/ recvs = [] ->
  events_pages up (S fuel) row params acc log = (Returns acc, l2).
Proof.
  intros Hs Hr Hse Hre Hempty. unfold send_request, receive_request in *.
  cbn [events_pages].
  rewrite (bind_Returns_eq _ _ _ _ _ Hs), (bind_Returns_eq _ _ _ _ _ Hr).
  rewrite bind_lift, Hse.
  destruct sends as [| s sends].
  - reflexivity.
  - destruct Hempty as [H | H]; [ discriminate | subst recvs ].
    cbn [truth negb]. unfold bind at 1. rewrite bind_lift, Hre. reflexivity.
Qed.

(** One page of the events loop on which both streams have events: the
    pairs are processed, and a full page leads to the next offset. *)
Lemma events_pages_page (up : upstream) (fuel : nat)
    (row : pyval -> pyval -> res (option dict)) (params : dict)
    (acc : list dict) log result_send l1 result_receive l2 sends recvs
    (limit offset : Z) :
  _make_request up "events" (send_request params) log = (Returns result_send, l1) ->
  _make_request up "events" (receive_request params) l1
    = (Returns result_receive, l2) ->
  getitem result_send "events" = Ok (PList sends) ->
  getitem result_receive "events" = Ok (PList recvs) ->
  sends <> [] -> recvs <> [] ->
  int_item params "limit" = Ok limit ->
  int_item params "offset" = Ok offset ->
  events_pages up (S fuel) row params acc log
  = match pair_events row result_receive 0 sends acc with
    | Raise e => (Raises e, l2)
    | Ok acc' =>
        if Z.of_nat (List.length sends) <? limit then (Returns acc', l2)
        else events_pages up fuel row
               (dict_set "offset" (PInt (offset + limit)) params) acc' l2
    end.
Proof.
  intros Hs Hr Hse Hre Hsn Hrn Hlim Hoff. unfold send_request, receive_request in *.
  cbn [events_pages].
  rewrite (bind_Returns_eq _ _ _ _ _ Hs), (bind_Returns_eq _ _ _ _ _ Hr).
  rewrite bind_lift, Hse.
  destruct sends as [| s sends]; [ congruence | ].
  destruct recvs as [| r recvs]; [ congruence | ].
  cbn [truth negb]. unfold bind at 1. rewrite bind_lift, Hre.
  cbn [truth negb ret]. rewrite bind_lift. cbn [iter]. rewrite bind_lift.
  destruct (pair_events row result_receive 0 (s :: sends) acc) as [acc' | e];
    [ | reflexivity ].
  rewrite bind_lift. cbn [len]. rewrite bind_lift, Hlim.
  destruct (Z.of_nat (List.length (s :: sends)) <? limit); [ reflexivity | ].
  rewrite bind_lift, Hoff. reflexivity.
Qed.

(** The pairing example of the specification, run through the whole of
    [fetch_transfers]: one send event from "A", one receive event at "B",
    no filter; three requests are made and one transfer comes back. *)
Example fetch_transfers_pairs_example :
  fetch_transfers example_runtime example_events_upstream 1 "token"
                  None None None false (DFin false 0 0) []
  = (Returns (Some (mkTransfers [mkDatetime 62135596900000000 None]
                                ["A"] ["B"] [DFin false 5 0] ["h1"])),
     [(endpoint_url "addresses", [("address", PStr "token")]);
      (endpoint_url "events",
       send_request (events_params PNone PNone (PStr "SOUL")));
      (endpoint_url "events",
       receive_request (events_params PNone PNone (PStr "SOUL")))]).
Proof. vm_compute. reflexivity. Qed.

(** A pair whose fields can be read and that the two filters let through
    gives its record: timestamp, from_address, quantity and
    transaction_hash of the send event, to_address of the receive event. *)
Lemma transfers_row_emits (rt : Runtime) (addresses : option (list string))
    (from_only : bool) (min_value : decimal) (event_send event_receive : pyval)
    date timestamp sender receiver token_event quantity hash amount :
  getitem event_send "date" = Ok date ->
  int_of date = Ok timestamp ->
  getitem event_send "address" = Ok sender ->
  getitem event_receive "address" = Ok receiver ->
  getitem event_send "token_event" = Ok token_event ->
  getitem token_event "value" = Ok quantity ->
  getitem event_send "transaction_hash" = Ok hash ->
  Decimal_of rt quantity = Ok amount ->
  dec_lt amount min_value = Ok false ->
  address_filter addresses from_only event_send event_receive = Ok true ->
  transfers_row rt addresses from_only min_value event_send event_receive
  = Ok (Some [("timestamp", PInt timestamp);
              ("from_address", sender);
              ("to_address", receiver);
              ("quantity", quantity);
              ("transaction_hash", hash)]).
Proof.
  intros Hdate Hint Hs Hr Hte Hq Hh Hdec Hlt Hpass.
  unfold transfers_row. rewrite Hte. cbn [rbind]. rewrite Hq. cbn [rbind].
  rewrite Hdec. cbn [rbind]. rewrite Hlt. cbn [rbind]. rewrite Hpass.
  cbn [rbind]. unfold transfer_record.
  rewrite Hdate. cbn [rbind]. rewrite Hint. cbn [rbind].
  rewrite Hs. cbn [rbind]. rewrite Hr. cbn [rbind].
  rewrite Hte. cbn [rbind]. rewrite Hq. cbn [rbind]. rewrite Hh. reflexivity.
Qed.

Lemma rows_of_pairs_all_emitted (row : pyval -> pyval -> res (option dict))
    (record : pyval -> pyval -> dict) :
  forall pairs acc,
    Forall (fun p => row (fst p) (snd p) = Ok (Some (record (fst p) (snd p))))
           pairs ->
    rows_of_pairs row pairs acc
    = Ok (acc ++ map (fun p => record (fst p) (snd p)) pairs)%list.
Proof.
  induction pairs as [| [s r] pairs IH]; intros acc Hall.
  - simpl. rewrite app_nil_r. reflexivity.
  - inversion Hall as [| p ps Hp Hps]; subst. simpl in Hp.
    simpl rows_of_pairs. rewrite Hp. cbn [rbind].
    rewrite (IH _ Hps). simpl. rewrite <- app_assoc. reflexivity.
Qed.

(** C1. On a page of [fetch_transfers] where both streams have events (and
    the receive stream has one for every send event), the send events are
    paired with the receive events position by position, as [combine]
    does, and the rows the filter keeps are appended in that order; a row
    that is emitted takes its timestamp, from_address, quantity and
    transaction_hash from the send event and its to_address from the
    receive event; a pair whose fields can be read and that passes the
    filters is emitted, with exactly that record, so that a page of such
    pairs adds one record per pair, in order; the loop stops, with what
    was accumulated, as soon as one of the two streams has no event on a
    page; and on the example of one send event from "A" and one receive
    event at "B" the whole operation returns the one transfer from "A" to
    "B". *)
Theorem transfers_paired_by_position (rt : Runtime)
    (addresses : option (list string)) (from_only : bool) (min_value : decimal) :
  let row := transfers_row rt addresses from_only min_value in
  (forall up fuel params acc log result_send l1 result_receive l2
          sends recvs limit offset,
      _make_request up "events" (send_request params) log
        = (Returns result_send, l1) ->
      _make_request up "events" (receive_request params) l1
        = (Returns result_receive, l2) ->
      getitem result_send "events" = Ok (PList sends) ->
      getitem result_receive "events" = Ok (PList recvs) ->
      sends <> [] -> recvs <> [] ->
      (List.length sends <= List.length recvs)%nat ->
      int_item params "limit" = Ok limit ->
      int_item params "offset" = Ok offset ->
      events_pages up (S fuel) row params acc log
      = match rows_of_pairs row (combine sends recvs) acc with
        | Raise e => (Raises e, l2)
        | Ok acc' =>
            if Z.of_nat (List.length sends) <? limit then (Returns acc', l2)
            else events_pages up fuel row
                   (dict_set "offset" (PInt (offset + limit)) params) acc' l2
        end) /\
  (forall event_send event_receive d,
      row event_send event_receive = Ok (Some d) ->
      exists date timestamp sender receiver token_event quantity hash,
        getitem event_send "date" = Ok date /\
        int_of date = Ok timestamp /\
        getitem event_send "address" = Ok sender /\
        getitem event_receive "address" = Ok receiver /\
        getitem event_send "token_event" = Ok token_event /\
        getitem token_event "value" = Ok quantity /\
        getitem event_send "transaction_hash" = Ok hash /\
        d = [("timestamp", PInt timestamp);
             ("from_address", sender);
             ("to_address", receiver);
             ("quantity", quantity);
             ("transaction_hash", hash)]) /\
  (forall up fuel params acc log result_send l1 result_receive l2 sends recvs,
      _make_request up "events" (send_request params) log
        = (Returns result_send, l1) ->
      _make_request up "events" (receive_request params) l1
        = (Returns result_receive, l2) ->
      getitem result_send "events" = Ok (PList sends) ->
      getitem result_receive "events" = Ok (PList recvs) ->
      sends = [] \/ recvs = [] ->
      events_pages up (S fuel) row params acc log = (Returns acc, l2)) /\
  (forall event_send event_receive
          date timestamp sender receiver token_event quantity hash amount,
      getitem event_send "date" = Ok date ->
      int_of date = Ok timestamp ->
      getitem event_send "address" = Ok sender ->
      getitem event_receive "address" = Ok receiver ->
      getitem event_send "token_event" = Ok token_event ->
      getitem token_event "value" = Ok quantity ->
      getitem event_send "transaction_hash" = Ok hash ->
      Decimal_of rt quantity = Ok amount ->
      dec_lt amount min_value = Ok false ->
      address_filter addresses from_only event_send event_receive = Ok true ->
      row event_send event_receive
      = Ok (Some [("timestamp", PInt timestamp);
                  ("from_address", sender);
                  ("to_address", receiver);
                  ("quantity", quantity);
                  ("transaction_hash", hash)])) /\
  (forall up fuel params acc log result_send l1 result_receive l2
          sends recvs limit offset record,
      _make_request up "events" (send_request params) log
        = (Returns result_send, l1) ->
      _make_request up "events" (receive_request params) l1
        = (Returns result_receive, l2) ->
      getitem result_send "events" = Ok (PList sends) ->
      getitem result_receive "events" = Ok (PList recvs) ->
      sends <> [] -> recvs <> [] ->
      (List.length sends <= List.length recvs)%nat ->
      int_item params "limit" = Ok limit ->
      int_item params "offset" = Ok offset ->
      Z.of_nat (List.length sends) < limit ->
      Forall (fun p => row (fst p) (snd p) = Ok (Some (record (fst p) (snd p))))
             (combine sends recvs) ->
      events_pages up (S fuel) row params acc log
      = (Returns (acc ++ map (fun p => record (fst p) (snd p))
                             (combine sends recvs))%list, l2)) /\
  fetch_transfers example_runtime example_events_upstream 1 "token"
                  None None None false (DFin false 0 0) []
  = (Returns (Some (mkTransfers [mkDatetime 62135596900000000 None]
                                ["A"] ["B"] [DFin false 5 0] ["h1"])),
     [(endpoint_url "addresses", [("address", PStr "token")]);
      (endpoint_url "events",
       send_request (events_params PNone PNone (PStr "SOUL")));
      (endpoint_url "events",
       receive_request (events_params PNone PNone (PStr "SOUL")))]).
Proof.
  intros row.
  assert (Hpage : forall up fuel params acc log rs l1 rr l2 sends recvs
                         limit offset,
      _make_request up "events" (send_request params) log = (Returns rs, l1) ->
      _make_request up "events" (receive_request params) l1 = (Returns rr, l2) ->
      getitem rs "events" = Ok (PList sends) ->
      getitem rr "events" = Ok (PList recvs) ->
      sends <> [] -> recvs <> [] ->
      (List.length sends <= List.length recvs)%nat ->
      int_item params "limit" = Ok limit ->
      int_item params "offset" = Ok offset ->
      events_pages up (S fuel) row params acc log
      = match rows_of_pairs row (combine sends recvs) acc with
        | Raise e => (Raises e, l2)
        | Ok acc' =>
            if Z.of_nat (List.length sends) <? limit then (Returns acc', l2)
            else events_pages up fuel row
                   (dict_set "offset" (PInt (offset + limit)) params) acc' l2
        end).
  { intros up fuel params acc log rs l1 rr l2 sends recvs limit offset
           Hs Hr Hse Hre Hsn Hrn Hlen Hlim Hoff.
    rewrite (events_pages_page up fuel row params acc log rs l1 rr l2
               sends recvs limit offset Hs Hr Hse Hre Hsn Hrn Hlim Hoff).
    pose proof (pair_events_from row rr recvs Hre sends 0 acc Hlen) as Hpairs.
    cbn [Z.of_nat skipn] in Hpairs. rewrite Hpairs. reflexivity. }
  split; [ exact Hpage | ]. split; [ | split; [ | split; [ | split ] ] ].
  - intros es er d H. apply transfer_record_fields.
    exact (transfers_row_record rt _ _ _ _ _ _ H).
  - intros up fuel params acc log rs l1 rr l2 sends recvs.
    apply events_pages_stop.
  - intros es er date timestamp sender receiver te quantity hash amount.
    apply transfers_row_emits.
  - intros up fuel params acc log rs l1 rr l2 sends recvs limit offset record
           Hs Hr Hse Hre Hsn Hrn Hlen Hlim Hoff Hshort Hall.
    rewrite (Hpage up fuel params acc log rs l1 rr l2 sends recvs limit offset
               Hs Hr Hse Hre Hsn Hrn Hlen Hlim Hoff).
    rewrite (rows_of_pairs_all_emitted row record _ acc Hall).
    apply Z.ltb_lt in Hshort. rewrite Hshort. reflexivity.
  - exact fetch_transfers_pairs_example.
Qed.


(** ** Streams of unequal length *)

Lemma pair_events_short (row : pyval -> pyval -> res (option dict))
    (result_receive : pyval) (recvs : list pyval) :
  getitem result_receive "events" = Ok (PList recvs) ->
  forall sends k acc,
    (k <= List.length recvs)%nat ->
    (List.length recvs < k + List.length sends)%nat ->
    exists e, pair_events row result_receive (Z.of_nat k) sends acc = Raise e.
Proof.
  intros Hr. induction sends as [| s sends IH]; intros k acc Hk Hlen.
  - simpl in Hlen. lia.
  - simpl in Hlen. simpl pair_events. rewrite Hr. cbn [rbind].
    rewrite getindex_nth.
    destruct (nth_error recvs k) as [r |] eqn:Hnth.
    + cbn [rbind]. destruct (row s r) as [kept | e];
        [ | eexists; reflexivity ].
      cbn [rbind]. replace (Z.of_nat k + 1) with (Z.of_nat (S k)) by lia.
      assert (k < List.length recvs)%nat
        by (apply nth_error_Some; congruence).
      apply IH; lia.
    + eexists; reflexivity.
Qed.

Lemma pair_events_prefix (row : pyval -> pyval -> res (option dict))
    (result_receive result_receive' : pyval) (recvs recvs' : list pyval) :
  getitem result_receive "events" = Ok (PList recvs) ->
  getitem result_receive' "events" = Ok (PList recvs') ->
  forall sends k acc,
    firstn (k + List.length sends) recvs = firstn (k + List.length sends) recvs' ->
    pair_events row result_receive (Z.of_nat k) sends acc
    = pair_events row result_receive' (Z.of_nat k) sends acc.
Proof.
  intros Hr Hr'. induction sends as [| s sends IH]; intros k acc Hpre.
  - reflexivity.
  - simpl pair_events. rewrite Hr, Hr'. cbn [rbind].
    rewrite !getindex_nth.
    assert (Hnth : nth_error recvs k = nth_error recvs' k).
    { pose proof (nth_error_firstn (k + List.length (s :: sends)) recvs k) as H1.
      pose proof (nth_error_firstn (k + List.length (s :: sends)) recvs' k) as H2.
      rewrite Hpre in H1. rewrite H1 in H2.
      destruct (Nat.ltb_spec k (k + List.length (s :: sends))) as [_ | Hge];
        [ exact H2 | simpl in Hge; lia ]. }
    rewrite Hnth.
    destruct (nth_error recvs' k) as [r |]; [ | reflexivity ].
    cbn [rbind]. destruct (row s r) as [kept | e]; [ | reflexivity ].
    cbn [rbind]. replace (Z.of_nat k + 1) with (Z.of_nat (S k)) by lia.
    apply IH. simpl in Hpre. replace (S k + List.length sends)%nat
      with (k + S (List.length sends))%nat by lia.
    exact Hpre.
Qed.

Lemma pair_events_app (row : pyval -> pyval -> res (option dict))
    (result_receive : pyval) (pre rest : list pyval) :
  forall k acc,
    pair_events row result_receive (Z.of_nat k) (pre ++ rest) acc
    = (acc' <- pair_events row result_receive (Z.of_nat k) pre acc ;;
       pair_events row result_receive (Z.of_nat (k + List.length pre)) rest acc')%res.
Proof.
  induction pre as [| s pre IH]; intros k acc.
  - simpl. rewrite Nat.add_0_r. reflexivity.
  - simpl app. simpl pair_events.
    destruct (getitem result_receive "events") as [events |]; [ | reflexivity ].
    cbn [rbind].
    destruct (getindex events (Z.of_nat k)) as [r |]; [ | reflexivity ].
    cbn [rbind]. destruct (row s r) as [kept |]; [ | reflexivity ].
    cbn [rbind]. replace (Z.of_nat k + 1) with (Z.of_nat (S k)) by lia.
    rewrite IH. simpl List.length.
    replace (S k + List.length pre)%nat with (k + S (List.length pre))%nat by lia.
    reflexivity.
Qed.

(** When every pair that exists goes through, it is the index into the
    receive list that raises. *)
Lemma pair_events_index_error (row : pyval -> pyval -> res (option dict))
    (result_receive : pyval) (recvs pre : list pyval) (s : pyval)
    (post : list pyval) (acc acc' : list dict) :
  getitem result_receive "events" = Ok (PList recvs) ->
  List.length pre = List.length recvs ->
  rows_of_pairs row (combine pre recvs) acc = Ok acc' ->
  pair_events row result_receive 0 (pre ++ s :: post) acc = Raise IndexError.
Proof.
  intros Hre Hlen Hrows.
  pose proof (pair_events_app row result_receive pre (s :: post) 0 acc) as Happ.
  pose proof (pair_events_from row result_receive recvs Hre pre 0 acc) as Hpre.
  cbn [Z.of_nat skipn Nat.add] in Happ, Hpre.
  rewrite Happ, Hpre, Hrows by lia. cbn [rbind pair_events].
  rewrite Hre. cbn [rbind]. rewrite getindex_nth.
  replace (nth_error recvs (List.length pre)) with (@None pyval);
    [ reflexivity | ].
  symmetry. apply nth_error_None. lia.
Qed.

Lemma events_pages_pairing_raises (up : upstream) (fuel : nat)
    (row : pyval -> pyval -> res (option dict)) (params : dict)
    (acc : list dict) log result_send l1 result_receive l2 sends recvs e :
  _make_request up "events" (send_request params) log = (Returns result_send, l1) ->
  _make_request up "events" (receive_request params) l1
    = (Returns result_receive, l2) ->
  getitem result_send "events" = Ok (PList sends) ->
  getitem result_receive "events" = Ok (PList recvs) ->
  sends <> [] -> recvs <> [] ->
  pair_events row result_receive 0 sends acc = Raise e ->
  events_pages up (S fuel) row params acc log = (Raises e, l2).
Proof.
  intros Hs Hr Hse Hre Hsn Hrn Hraise. unfold send_request, receive_request in *.
  cbn [events_pages].
  rewrite (bind_Returns_eq _ _ _ _ _ Hs), (bind_Returns_eq _ _ _ _ _ Hr).
  rewrite bind_lift, Hse.
  destruct sends as [| s sends]; [ congruence | ].
  destruct recvs as [| r recvs]; [ congruence | ].
  cbn [truth negb]. unfold bind at 1. rewrite bind_lift, Hre.
  cbn [truth negb ret]. rewrite bind_lift. cbn [iter]. rewrite bind_lift.
  rewrite Hraise. reflexivity.
Qed.

Lemma nonempty_of_longer {A B : Type} (short : list A) (long : list B) :
  (List.length short < List.length long)%nat -> long <> [].
Proof. intros H ->. simpl in H. lia. Qed.

Lemma events_pages_full_page (up : upstream)
    (row : pyval -> pyval -> res (option dict)) (s1 s2 : loop_state) :
  full_page_step up row s1 s2 ->
  forall fuel,
    events_pages up (S fuel) row (ls_params s1) (ls_acc s1) (ls_log s1)
    = events_pages up fuel row (ls_params s2) (ls_acc s2) (ls_log s2).
Proof.
  intros [params acc log rs l1 rr l2 sends recvs acc' limit offset
          Hs Hr Hse Hre Hsn Hrn Hpairs Hlim Hoff Hfull] fuel.
  cbn [ls_params ls_acc ls_log].
  rewrite (events_pages_page up fuel row params acc log rs l1 rr l2
             sends recvs limit offset Hs Hr Hse Hre Hsn Hrn Hlim Hoff).
  rewrite Hpairs.
  replace (Z.of_nat (List.length sends) <? limit) with false
    by (symmetry; apply Z.ltb_ge; lia).
  reflexivity.
Qed.

Lemma events_pages_reaches (up : upstream)
    (row : pyval -> pyval -> res (option dict)) (n : nat) (s1 s2 : loop_state) :
  reaches_page up row n s1 s2 ->
  forall fuel,
    events_pages up (n + fuel) row (ls_params s1) (ls_acc s1) (ls_log s1)
    = events_pages up fuel row (ls_params s2) (ls_acc s2) (ls_log s2).
Proof.
  induction 1 as [s | n s1 s2 s3 Hstep _ IH]; intros fuel.
  - reflexivity.
  - cbn [Nat.add]. rewrite (events_pages_full_page up row s1 s2 Hstep).
    apply IH.
Qed.

(** C9. On a page of [fetch_transfers] or [fetch_early_transfers] where
    both streams have events and the receive stream has fewer than the send
    stream, the pairing raises ([IndexError] from the index that runs out
    of the receive list, when every pair before it went through), the loop
    raises whatever had been accumulated, and the operation returns [None],
    on whichever page, the first or one reached after [n] full pages, this
    happens; and the receive events at positions beyond the length of the
    send list have no influence on what the pairing yields. *)
Theorem short_receive_stream_returns_None (rt : Runtime) (up : upstream) :
  (forall row result_receive recvs sends acc,
      getitem result_receive "events" = Ok (PList recvs) ->
      (List.length recvs < List.length sends)%nat ->
      exists e, pair_events row result_receive 0 sends acc = Raise e) /\
  (forall row result_receive recvs pre s post acc acc',
      getitem result_receive "events" = Ok (PList recvs) ->
      List.length pre = List.length recvs ->
      rows_of_pairs row (combine pre recvs) acc = Ok acc' ->
      pair_events row result_receive 0 (pre ++ s :: post) acc = Raise IndexError) /\
  (forall fuel row params acc log result_send l1 result_receive l2 sends recvs,
      _make_request up "events" (send_request params) log
        = (Returns result_send, l1) ->
      _make_request up "events" (receive_request params) l1
        = (Returns result_receive, l2) ->
      getitem result_send "events" = Ok (PList sends) ->
      getitem result_receive "events" = Ok (PList recvs) ->
      recvs <> [] ->
      (List.length recvs < List.length sends)%nat ->
      exists e, events_pages up (S fuel) row params acc log = (Raises e, l2)) /\
  (forall n fuel token addresses start_date end_date from_only min_value
          log symbol l1 greater less page result_send l2 result_receive l3
          sends recvs,
      get_symbol_by_token_address up token log = (Returns symbol, l1) ->
      date_param rt start_date = Ok greater ->
      date_param rt end_date = Ok less ->
      reaches_page up (transfers_row rt addresses from_only min_value) n
                   (mkLoopState (events_params greater less symbol) [] l1) page ->
      _make_request up "events" (send_request (ls_params page)) (ls_log page)
        = (Returns result_send, l2) ->
      _make_request up "events" (receive_request (ls_params page)) l2
        = (Returns result_receive, l3) ->
      getitem result_send "events" = Ok (PList sends) ->
      getitem result_receive "events" = Ok (PList recvs) ->
      recvs <> [] ->
      (List.length recvs < List.length sends)%nat ->
      fetch_transfers rt up (n + S fuel) token addresses start_date end_date
                      from_only min_value log = (Returns None, l3)) /\
  (forall n fuel token start_date end_date
          log symbol l1 greater less page result_send l2 result_receive l3
          sends recvs,
      get_symbol_by_token_address up token log = (Returns symbol, l1) ->
      date_param rt start_date = Ok greater ->
      date_param rt end_date = Ok less ->
      reaches_page up (early_transfers_row rt symbol) n
                   (mkLoopState (events_params greater less symbol) [] l1) page ->
      _make_request up "events" (send_request (ls_params page)) (ls_log page)
        = (Returns result_send, l2) ->
      _make_request up "events" (receive_request (ls_params page)) l2
        = (Returns result_receive, l3) ->
      getitem result_send "events" = Ok (PList sends) ->
      getitem result_receive "events" = Ok (PList recvs) ->
      recvs <> [] ->
      (List.length recvs < List.length sends)%nat ->
      fetch_early_transfers rt up (n + S fuel) token start_date end_date log
        = (Returns None, l3)) /\
  (forall row result_receive result_receive' recvs recvs' sends acc,
      getitem result_receive "events" = Ok (PList recvs) ->
      getitem result_receive' "events" = Ok (PList recvs') ->
      firstn (List.length sends) recvs = firstn (List.length sends) recvs' ->
      pair_events row result_receive 0 sends acc
      = pair_events row result_receive' 0 sends acc).
Proof.
  assert (Hpair : forall row result_receive recvs sends acc,
      getitem result_receive "events" = Ok (PList recvs) ->
      (List.length recvs < List.length sends)%nat ->
      exists e, pair_events row result_receive 0 sends acc = Raise e).
  { intros row rr recvs sends acc Hre Hlen.
    apply (pair_events_short row rr recvs Hre sends 0 acc); simpl; lia. }
  assert (Hloop : forall fuel row params acc log result_send l1 result_receive l2
                         sends recvs,
      _make_request up "events" (send_request params) log
        = (Returns result_send, l1) ->
      _make_request up "events" (receive_request params) l1
        = (Returns result_receive, l2) ->
      getitem result_send "events" = Ok (PList sends) ->
      getitem result_receive "events" = Ok (PList recvs) ->
      recvs <> [] ->
      (List.length recvs < List.length sends)%nat ->
      exists e, events_pages up (S fuel) row params acc log = (Raises e, l2)).
  { intros fuel row params acc log rs l1 rr l2 sends recvs Hs Hr Hse Hre Hrn Hlen.
    destruct (Hpair row rr recvs sends acc Hre Hlen) as [e He].
    exists e.
    exact (events_pages_pairing_raises up fuel row params acc log rs l1 rr l2
             sends recvs e Hs Hr Hse Hre (nonempty_of_longer _ _ Hlen) Hrn He). }
  split; [ exact Hpair | ].
  split; [ exact pair_events_index_error | ].
  split; [ exact Hloop | ].
  split; [ | split ].
  - intros n fuel token addresses sd ed fo mv log symbol l1 g l page rs l2 rr l3
           sends recvs Hsym Hg Hl Hreach Hs Hr Hse Hre Hrn Hlen.
    destruct (Hloop fuel (transfers_row rt addresses fo mv)
                    (ls_params page) (ls_acc page) (ls_log page) rs l2 rr l3
                    sends recvs Hs Hr Hse Hre Hrn Hlen) as [e He].
    apply try_or_None_catches with (e := e). unfold fetch_transfers_body.
    rewrite (bind_Returns_eq _ _ _ _ _ Hsym).
    rewrite bind_lift, Hg, bind_lift, Hl.
    apply bind_Raises_eq.
    rewrite <- He.
    exact (events_pages_reaches up _ n _ page Hreach (S fuel)).
  - intros n fuel token sd ed log symbol l1 g l page rs l2 rr l3
           sends recvs Hsym Hg Hl Hreach Hs Hr Hse Hre Hrn Hlen.
    destruct (Hloop fuel (early_transfers_row rt symbol)
                    (ls_params page) (ls_acc page) (ls_log page) rs l2 rr l3
                    sends recvs Hs Hr Hse Hre Hrn Hlen) as [e He].
    apply try_or_None_catches with (e := e). unfold fetch_early_transfers_body.
    rewrite (bind_Returns_eq _ _ _ _ _ Hsym).
    rewrite bind_lift, Hg, bind_lift, Hl.
    apply bind_Raises_eq.
    rewrite <- He.
    exact (events_pages_reaches up _ n _ page Hreach (S fuel)).
  - intros row rr rr' recvs recvs' sends acc Hre Hre' Hpre.
    exact (pair_events_prefix row rr rr' recvs recvs' Hre Hre' sends 0 acc Hpre).
Qed.

(** Two send events against one receive event: both operations return
    [None], after the three requests. *)
Example short_receive_stream_example :
  fst (fetch_transfers example_runtime short_receive_upstream 1 "token"
                       None None None false (DFin false 0 0) [])
    = Returns None /\
  fst (fetch_early_transfers example_runtime short_receive_upstream 1 "token"
                             None None [])
    = Returns None.
Proof. split; vm_compute; reflexivity. Qed.

(** ** The page loop of the holders fetch *)

Lemma holders_rows_accepted (rt : Runtime) (token_symbol : pyval)
    (min_balance : decimal) (page : list pyval) :
  Forall (accepted rt token_symbol min_balance) page ->
  forall acc,
    exists rows,
      holders_rows rt token_symbol min_balance page acc = Ok (acc ++ rows)%list /\
      List.length rows = List.length page.
Proof.
  induction 1 as [| h page [d Hd] _ IH]; intros acc.
  - exists []. rewrite app_nil_r. split; reflexivity.
  - simpl holders_rows. rewrite Hd. cbn [rbind].
    destruct (IH (acc ++ [d])%list) as [rows [Hrows Hlen]].
    exists (d :: rows). rewrite Hrows, <- app_assoc. simpl. auto.
Qed.

Lemma holders_pages_stop (rt : Runtime) (up : upstream) (fuel : nat)
    (token_symbol : pyval) (min_balance : decimal) (params : dict)
    (acc : list dict) log result l1 :
  _make_request up "addresses" params log = (Returns result, l1) ->
  getitem result "addresses" = Ok (PList []) ->
  holders_pages rt up (S fuel) token_symbol min_balance params acc log
  = (Returns acc, l1).
Proof.
  intros Hreq Hget. cbn [holders_pages].
  rewrite (bind_Returns_eq _ _ _ _ _ Hreq), bind_lift, Hget. reflexivity.
Qed.

Lemma holders_pages_page (rt : Runtime) (up : upstream) (fuel : nat)
    (token_symbol : pyval) (min_balance : decimal) (params : dict)
    (acc : list dict) log result l1 page (limit offset : Z) :
  _make_request up "addresses" params log = (Returns result, l1) ->
  getitem result "addresses" = Ok (PList page) ->
  page <> [] ->
  int_item params "limit" = Ok limit ->
  int_item params "offset" = Ok offset ->
  holders_pages rt up (S fuel) token_symbol min_balance params acc log
  = match holders_rows rt token_symbol min_balance page acc with
    | Raise e => (Raises e, l1)
    | Ok acc' =>
        if Z.of_nat (List.length page) <? limit then (Returns acc', l1)
        else holders_pages rt up fuel token_symbol min_balance
               (dict_set "offset" (PInt (offset + limit)) params) acc' l1
    end.
Proof.
  intros Hreq Hget Hne Hlim Hoff. cbn [holders_pages].
  rewrite (bind_Returns_eq _ _ _ _ _ Hreq), bind_lift, Hget.
  destruct page as [| h page]; [ congruence | ].
  cbn [truth negb iter]. rewrite bind_lift, bind_lift.
  destruct (holders_rows rt token_symbol min_balance (h :: page) acc)
    as [acc' | e]; [ | reflexivity ].
  cbn [len]. rewrite bind_lift, bind_lift, Hlim.
  destruct (Z.of_nat (List.length (h :: page)) <? limit); [ reflexivity | ].
  rewrite bind_lift, Hoff. reflexivity.
Qed.

Lemma make_request_Returns_log (up : upstream) endpoint params log v l1 :
  _make_request up endpoint params log = (Returns v, l1) ->
  l1 = (log ++ [(endpoint_url endpoint, params)])%list.
Proof.
  intros H. rewrite <- (make_request_log up endpoint params log), H.
  reflexivity.
Qed.

(** C3. The page loop of [fetch_holders] (page limit 20000, every record
    accepted by the filter).  If the first page holds exactly 20000 records
    and the next page none, the loop ends after exactly two requests with
    exactly 20000 records; if the first page holds fewer than 20000
    records, it ends after exactly one request with as many records as the
    page; and a page that is not empty and not short is followed by the
    same loop at the offset plus the limit. *)
Theorem holders_pagination_terminates (rt : Runtime) (up : upstream)
    (token_symbol : pyval) (min_balance : decimal) :
  (forall fuel log page first l1 second l2,
      _make_request up "addresses" (holders_params token_symbol) log
        = (Returns first, l1) ->
      getitem first "addresses" = Ok (PList page) ->
      Z.of_nat (List.length page) = 20000 ->
      Forall (accepted rt token_symbol min_balance) page ->
      _make_request up "addresses"
                    (dict_set "offset" (PInt 20000) (holders_params token_symbol)) l1
        = (Returns second, l2) ->
      getitem second "addresses" = Ok (PList []) ->
      exists rows,
        holders_pages rt up (S (S fuel)) token_symbol min_balance
                      (holders_params token_symbol) [] log
          = (Returns rows, l2) /\
        Z.of_nat (List.length rows) = 20000 /\
        l2 = (log ++ [(endpoint_url "addresses", holders_params token_symbol);
                      (endpoint_url "addresses",
                       dict_set "offset" (PInt 20000)
                                (holders_params token_symbol))])%list) /\
  (forall fuel log page first l1,
      _make_request up "addresses" (holders_params token_symbol) log
        = (Returns first, l1) ->
      getitem first "addresses" = Ok (PList page) ->
      Z.of_nat (List.length page) < 20000 ->
      Forall (accepted rt token_symbol min_balance) page ->
      exists rows,
        holders_pages rt up (S fuel) token_symbol min_balance
                      (holders_params token_symbol) [] log
          = (Returns rows, l1) /\
        List.length rows = List.length page /\
        l1 = (log ++ [(endpoint_url "addresses",
                       holders_params token_symbol)])%list) /\
  (forall fuel params acc log result l1 page acc' limit offset,
      _make_request up "addresses" params log = (Returns result, l1) ->
      getitem result "addresses" = Ok (PList page) ->
      page <> [] ->
      holders_rows rt token_symbol min_balance page acc = Ok acc' ->
      int_item params "limit" = Ok limit ->
      int_item params "offset" = Ok offset ->
      limit <= Z.of_nat (List.length page) ->
      holders_pages rt up (S fuel) token_symbol min_balance params acc log
      = holders_pages rt up fuel token_symbol min_balance
          (dict_set "offset" (PInt (offset + limit)) params) acc' l1).
Proof.
  split; [ | split ].
  - intros fuel log page first l1 second l2 Hreq1 Hget1 Hlen Hacc Hreq2 Hget2.
    destruct (holders_rows_accepted rt token_symbol min_balance page Hacc [])
      as [rows [Hrows Hrlen]].
    exists rows. split; [ | split ].
    + assert (Hne : page <> []) by (intros ->; discriminate Hlen).
      rewrite (holders_pages_page rt up (S fuel) token_symbol min_balance
                 (holders_params token_symbol) [] log first l1 page
                 page_limit 0 Hreq1 Hget1 Hne eq_refl eq_refl).
      rewrite Hrows. cbn [app].
      replace (Z.of_nat (List.length page) <? page_limit) with false
        by (symmetry; apply Z.ltb_ge; unfold page_limit; lia).
      change (0 + page_limit) with 20000.
      exact (holders_pages_stop rt up fuel token_symbol min_balance _ rows l1
               second l2 Hreq2 Hget2).
    + rewrite Hrlen. exact Hlen.
    + rewrite (make_request_Returns_log _ _ _ _ _ _ Hreq2).
      rewrite (make_request_Returns_log _ _ _ _ _ _ Hreq1).
      rewrite <- app_assoc. reflexivity.
  - intros fuel log page first l1 Hreq1 Hget1 Hlen Hacc.
    destruct (holders_rows_accepted rt token_symbol min_balance page Hacc [])
      as [rows [Hrows Hrlen]].
    exists rows. split; [ | split ].
    + destruct page as [| h page].
      * simpl in Hrlen. destruct rows; [ | discriminate ].
        exact (holders_pages_stop rt up fuel token_symbol min_balance _ [] log
                 first l1 Hreq1 Hget1).
      * rewrite (holders_pages_page rt up fuel token_symbol min_balance
                   (holders_params token_symbol) [] log first l1 (h :: page)
                   page_limit 0 Hreq1 Hget1 ltac:(discriminate) eq_refl eq_refl).
        rewrite Hrows. cbn [app].
        replace (Z.of_nat (List.length (h :: page)) <? page_limit) with true
          by (symmetry; apply Z.ltb_lt; unfold page_limit; lia).
        reflexivity.
    + exact Hrlen.
    + exact (make_request_Returns_log _ _ _ _ _ _ Hreq1).
  - intros fuel params acc log result l1 page acc' limit offset
           Hreq Hget Hne Hrows Hlim Hoff Hfull.
    rewrite (holders_pages_page rt up fuel token_symbol min_balance params acc
               log result l1 page limit offset Hreq Hget Hne Hlim Hoff).
    rewrite Hrows.
    replace (Z.of_nat (List.length page) <? limit) with false
      by (symmetry; apply Z.ltb_ge; lia).
    reflexivity.
Qed.

Lemma repeat_example_holder_accepted (n : nat) :
  Forall (accepted example_runtime (PStr "SOUL") (DFin false 0 0))
         (repeat example_holder n).
Proof.
  apply Forall_forall. intros h Hin. apply repeat_spec in Hin. subst h.
  eexists. reflexivity.
Qed.

(** The two scenarios of the specification, on the upstream that serves one
    page: 20000 records and then none (two requests, 20000 records), and
    15000 records (one request, 15000 records). *)
Lemma holders_pagination_terminates_example :
  (exists rows,
      holders_pages example_runtime (paged_upstream full_page) 2 (PStr "SOUL")
                    (DFin false 0 0) (holders_params (PStr "SOUL")) [] []
        = (Returns rows,
           [(endpoint_url "addresses", holders_params (PStr "SOUL"));
            (endpoint_url "addresses",
             dict_set "offset" (PInt 20000) (holders_params (PStr "SOUL")))]) /\
      Z.of_nat (List.length rows) = 20000) /\
  (exists rows,
      holders_pages example_runtime (paged_upstream short_page) 1 (PStr "SOUL")
                    (DFin false 0 0) (holders_params (PStr "SOUL")) [] []
        = (Returns rows,
           [(endpoint_url "addresses", holders_params (PStr "SOUL"))]) /\
      Z.of_nat (List.length rows) = 15000).
Proof.
  split.
  - destruct (holders_pagination_terminates
                example_runtime (paged_upstream full_page) (PStr "SOUL")
                (DFin false 0 0)) as [Hfull _].
    destruct (Hfull 0%nat [] full_page
                (PDict [("addresses", PList full_page)])
                [(endpoint_url "addresses", holders_params (PStr "SOUL"))]
                (PDict [("addresses", PList [])])
                [(endpoint_url "addresses", holders_params (PStr "SOUL"));
                 (endpoint_url "addresses",
                  dict_set "offset" (PInt 20000) (holders_params (PStr "SOUL")))]
                eq_refl eq_refl
                (eq_trans (f_equal Z.of_nat (repeat_length example_holder _))
                          (Z2Nat.id 20000 ltac:(lia)))
                (repeat_example_holder_accepted _)
                eq_refl eq_refl)
      as [rows [Hrun [Hlen _]]].
    exists rows. split; assumption.
  - destruct (holders_pagination_terminates
                example_runtime (paged_upstream short_page) (PStr "SOUL")
                (DFin false 0 0)) as [_ [Hshort _]].
    destruct (Hshort 0%nat [] short_page
                (PDict [("addresses", PList short_page)])
                [(endpoint_url "addresses", holders_params (PStr "SOUL"))]
                eq_refl eq_refl
                ltac:(unfold short_page; rewrite repeat_length, Z2Nat.id; lia)
                (repeat_example_holder_accepted _))
      as [rows [Hrun [Hlen _]]].
    exists rows. split; [ exact Hrun | ].
    rewrite Hlen. unfold short_page. rewrite repeat_length. apply Z2Nat.id. lia.
Defined.

(** ** The dust filter of the early transfers *)

(** The double that the literal [0.005] denotes, and that it is the double
    nearest to 5/1000: the error is at most half a unit in the last place. *)
Lemma double_0_005 :
  Prim2SF 0.005%float = S754_finite false 5764607523034235 (-60) /\
  2 * Z.abs (5764607523034235 * 1000 - 5 * 2 ^ 60) <= 1000 /\
  2 ^ 52 <= 5764607523034235 < 2 ^ 53.
Proof. split; [ reflexivity | split; [ | split ]; vm_compute; congruence ]. Qed.

(** [Decimal(0.005)] lies above 0.005. *)
Lemma dust_threshold_value :
  dust_threshold
  = DFin false 5000000000000000104083408558608425664715468883514404296875 (-60) /\
  below (DFin false 5 (-3)) dust_threshold.
Proof. split; reflexivity. Qed.

(** What the dust filter does: for a symbol other than "KCAL" every pair
    gives its record, whatever its value; for "KCAL" a pair whose amount
    can be read is skipped exactly when the amount is below
    [Decimal(0.005)]. *)
Lemma early_transfers_row_spec (rt : Runtime) (token_symbol : pyval)
    (event_send event_receive : pyval) :
  (py_eq token_symbol (PStr "KCAL") = false ->
   early_transfers_row rt token_symbol event_send event_receive
   = (d <- transfer_record event_send event_receive ;; Ok (Some d))%res) /\
  (forall token_event value amount,
      py_eq token_symbol (PStr "KCAL") = true ->
      getitem event_send "token_event" = Ok token_event ->
      getitem token_event "value" = Ok value ->
      Decimal_of rt value = Ok amount ->
      dec_is_nan amount = false ->
      early_transfers_row rt token_symbol event_send event_receive
      = match dec_cmp amount dust_threshold with
        | Lt => Ok None
        | _ => (d <- transfer_record event_send event_receive ;; Ok (Some d))%res
        end).
Proof.
  unfold early_transfers_row. split.
  - intros ->. reflexivity.
  - intros te v amount -> Hte Hv Hd Hna.
    rewrite Hte. cbn [rbind]. rewrite Hv. cbn [rbind]. rewrite Hd. cbn [rbind].
    unfold dec_lt. rewrite Hna.
    replace (dec_is_nan dust_threshold) with false by reflexivity.
    cbn [orb rbind]. destruct (dec_cmp amount dust_threshold); reflexivity.
Qed.

(** C7, at the value 0.005 itself.  The string "0.005" is the decimal
    5E-3, which is not strictly below 0.005; yet for the symbol "KCAL" the
    pair is skipped, because the threshold of the code is [Decimal(0.005)],
    the expansion of the double; for another symbol the same pair is
    emitted. *)
Theorem early_transfers_skip_value_equal_to_threshold (rt : Runtime) :
  Decimal_of rt (PStr "0.005") = Ok (DFin false 5 (-3)) /\
  dec_lt (DFin false 5 (-3)) (DFin false 5 (-3)) = Ok false /\
  early_transfers_row rt (PStr "KCAL") threshold_send example_receive = Ok None /\
  early_transfers_row rt (PStr "SOUL") threshold_send example_receive
    = Ok (Some [("timestamp", PInt 100);
                ("from_address", PStr "A");
                ("to_address", PStr "B");
                ("quantity", PStr "0.005");
                ("transaction_hash", PStr "h1")]).
Proof. repeat split. Qed.

(** * Further properties of the code *)

(** ** Dictionaries *)

Lemma dict_lookup_set_same (k : string) (v : pyval) (d : dict) :
  dict_lookup k (dict_set k v d) = Some v.
Proof.
  induction d as [| [k' v'] d IH]; simpl.
  - rewrite String.eqb_refl. reflexivity.
  - destruct (String.eqb k k') eqn:Hk; simpl.
    + rewrite String.eqb_refl. reflexivity.
    + rewrite Hk. exact IH.
Qed.

Lemma dict_lookup_set_other (k k' : string) (v : pyval) (d : dict) :
  String.eqb k' k = false ->
  dict_lookup k' (dict_set k v d) = dict_lookup k' d.
Proof.
  intros Hne. induction d as [| [k0 v0] d IH]; simpl.
  - rewrite Hne. reflexivity.
  - destruct (String.eqb k k0) eqn:Hk; simpl.
    + apply String.eqb_eq in Hk. subst k0. rewrite Hne. reflexivity.
    + destruct (String.eqb k' k0); [ reflexivity | exact IH ].
Qed.

Lemma dict_set_set (k : string) (v w : pyval) (d : dict) :
  dict_set k w (dict_set k v d) = dict_set k w d.
Proof.
  induction d as [| [k' v'] d IH]; simpl.
  - rewrite String.eqb_refl. reflexivity.
  - destruct (String.eqb k k') eqn:Hk; simpl.
    + rewrite String.eqb_refl. reflexivity.
    + rewrite Hk, IH. reflexivity.
Qed.

Lemma dict_set_unchanged (k : string) (v : pyval) (d : dict) :
  dict_lookup k d = Some v -> dict_set k v d = d.
Proof.
  induction d as [| [k' v'] d IH]; simpl; intros H.
  - discriminate.
  - destruct (String.eqb k k') eqn:Hk.
    + apply String.eqb_eq in Hk. inversion H. subst. reflexivity.
    + rewrite (IH H). reflexivity.
Qed.

Lemma int_item_lookup (d : dict) (k : string) (z : Z) :
  int_item d k = Ok z -> dict_lookup k d = Some (PInt z).
Proof.
  unfold int_item. destruct (dict_lookup k d) as [[] |]; intros H;
    inversion H; reflexivity.
Qed.

Lemma int_item_set_same (k : string) (z : Z) (d : dict) :
  int_item (dict_set k (PInt z) d) k = Ok z.
Proof. unfold int_item. rewrite dict_lookup_set_same. reflexivity. Qed.

Lemma int_item_set_other (k k' : string) (v : pyval) (d : dict) :
  String.eqb k' k = false ->
  int_item (dict_set k v d) k' = int_item d k'.
Proof.
  intros H. unfold int_item. rewrite (dict_lookup_set_other k k' v d H).
  reflexivity.
Qed.

Lemma page_params_0 (params : dict) (offset limit : Z) :
  int_item params "offset" = Ok offset ->
  page_params params offset limit 0 = params.
Proof.
  intros H. unfold page_params. apply dict_set_unchanged.
  rewrite (int_item_lookup _ _ _ H). f_equal. f_equal. simpl. lia.
Qed.

Lemma page_params_next (params : dict) (offset limit : Z) (i : nat) :
  page_params (dict_set "offset" (PInt (offset + limit)) params)
              (offset + limit) limit i
  = page_params params offset limit (S i).
Proof.
  unfold page_params. rewrite dict_set_set. f_equal. f_equal. lia.
Qed.

(** ** What the page loops leave behind *)

Lemma pair_events_rows (row : pyval -> pyval -> res (option dict))
    (result_receive : pyval) :
  forall sends index acc acc',
    pair_events row result_receive index sends acc = Ok acc' ->
    exists rows,
      acc' = (acc ++ rows)%list /\
      Forall (emitted_by row) rows /\
      (List.length rows <= List.length sends)%nat.
Proof.
  induction sends as [| s sends IH]; intros index acc acc' H.
  - inversion H. exists []. rewrite app_nil_r. auto.
  - simpl pair_events in H.
    apply rbind_Ok in H. destruct H as [events [_ H]].
    apply rbind_Ok in H. destruct H as [r [_ H]].
    apply rbind_Ok in H. destruct H as [kept [Hrow H]].
    destruct (IH _ _ _ H) as [rows [Hacc [Hall Hlen]]].
    destruct kept as [d |].
    + exists (d :: rows). rewrite Hacc, <- app_assoc. simpl.
      split; [ reflexivity | split; [ | lia ] ].
      constructor; [ exists s, r; exact Hrow | exact Hall ].
    + exists rows. simpl. auto.
Qed.

Lemma holders_rows_rows (rt : Runtime) (token_symbol : pyval)
    (min_balance : decimal) :
  forall page acc acc',
    holders_rows rt token_symbol min_balance page acc = Ok acc' ->
    exists rows,
      acc' = (acc ++ rows)%list /\
      Forall (holder_record_of rt token_symbol min_balance) rows /\
      (List.length rows <= List.length page)%nat.
Proof.
  induction page as [| h page IH]; intros acc acc' H.
  - inversion H. exists []. rewrite app_nil_r. auto.
  - simpl holders_rows in H.
    apply rbind_Ok in H. destruct H as [kept [Hrow H]].
    destruct (IH _ _ H) as [rows [Hacc [Hall Hlen]]].
    destruct kept as [d |].
    + exists (d :: rows). rewrite Hacc, <- app_assoc. simpl.
      split; [ reflexivity | split; [ | lia ] ].
      constructor; [ exists h; exact Hrow | exact Hall ].
    + exists rows. simpl. auto.
Qed.

(** One pass of the events loop that returns: it made its two requests,
    and either stopped with the accumulator it had, or paired the page and
    then stopped or went on at the next offset. *)
Lemma events_pages_S_Returns (up : upstream) (fuel : nat)
    (row : pyval -> pyval -> res (option dict)) (params : dict)
    (acc : list dict) log acc' log' :
  events_pages up (S fuel) row params acc log = (Returns acc', log') ->
  let l2 := (log ++ [(endpoint_url "events", send_request params);
                     (endpoint_url "events", receive_request params)])%list in
  (acc' = acc /\ log' = l2) \/
  (exists result_receive sends acc1,
      pair_events row result_receive 0 sends acc = Ok acc1 /\
      ((acc' = acc1 /\ log' = l2) \/
       (exists limit offset,
           int_item params "limit" = Ok limit /\
           int_item params "offset" = Ok offset /\
           events_pages up fuel row
             (dict_set "offset" (PInt (offset + limit)) params) acc1 l2
           = (Returns acc', log')))).
Proof.
  intros H l2. cbn [events_pages] in H.
  apply bind_Returns in H. destruct H as [rs [l1 [Hs H]]].
  apply bind_Returns in H. destruct H as [rr [l2' [Hr H]]].
  assert (Hl2 : l2' = l2).
  { apply make_request_Returns_log in Hs. apply make_request_Returns_log in Hr.
    subst l1 l2'. unfold l2, send_request, receive_request.
    rewrite <- app_assoc. reflexivity. }
  subst l2'.
  apply bind_Returns in H. destruct H as [se [l3 [Hse H]]].
  apply lift_Returns in Hse. destruct Hse as [Hse ->].
  apply bind_Returns in H. destruct H as [stop [l4 [Hstop H]]].
  assert (Hl4 : l4 = l2).
  { destruct (negb (truth se)).
    - inversion Hstop. reflexivity.
    - apply bind_Returns in Hstop. destruct Hstop as [re [l5 [Hre Hstop]]].
      apply lift_Returns in Hre. destruct Hre as [_ ->].
      inversion Hstop. reflexivity. }
  subst l4. destruct stop.
  - left. inversion H. auto.
  - right.
    apply bind_Returns in H. destruct H as [sends [l5 [Hit H]]].
    apply lift_Returns in Hit. destruct Hit as [_ ->].
    apply bind_Returns in H. destruct H as [acc1 [l6 [Hpairs H]]].
    apply lift_Returns in Hpairs. destruct Hpairs as [Hpairs ->].
    apply bind_Returns in H. destruct H as [n [l7 [Hn H]]].
    apply lift_Returns in Hn. destruct Hn as [_ ->].
    apply bind_Returns in H. destruct H as [limit [l8 [Hlim H]]].
    apply lift_Returns in Hlim. destruct Hlim as [Hlim ->].
    exists rr, sends, acc1. split; [ exact Hpairs | ].
    destruct (n <? limit).
    + left. inversion H. auto.
    + right.
      apply bind_Returns in H. destruct H as [offset [l9 [Hoff H]]].
      apply lift_Returns in Hoff. destruct Hoff as [Hoff ->].
      exists limit, offset. auto.
Qed.

Lemma holders_pages_S_Returns (rt : Runtime) (up : upstream) (fuel : nat)
    (token_symbol : pyval) (min_balance : decimal) (params : dict)
    (acc : list dict) log acc' log' :
  holders_pages rt up (S fuel) token_symbol min_balance params acc log
    = (Returns acc', log') ->
  let l1 := (log ++ [(endpoint_url "addresses", params)])%list in
  (acc' = acc /\ log' = l1) \/
  (exists page acc1,
      holders_rows rt token_symbol min_balance page acc = Ok acc1 /\
      ((acc' = acc1 /\ log' = l1) \/
       (exists limit offset,
           int_item params "limit" = Ok limit /\
           int_item params "offset" = Ok offset /\
           holders_pages rt up fuel token_symbol min_balance
             (dict_set "offset" (PInt (offset + limit)) params) acc1 l1
           = (Returns acc', log')))).
Proof.
  intros H l1. cbn [holders_pages] in H.
  apply bind_Returns in H. destruct H as [result [l1' [Hreq H]]].
  apply make_request_Returns_log in Hreq. subst l1'. fold l1 in H.
  apply bind_Returns in H. destruct H as [addresses [l2 [Hget H]]].
  apply lift_Returns in Hget. destruct Hget as [_ ->].
  destruct (negb (truth addresses)).
  - left. inversion H. auto.
  - right.
    apply bind_Returns in H. destruct H as [page [l3 [Hit H]]].
    apply lift_Returns in Hit. destruct Hit as [_ ->].
    apply bind_Returns in H. destruct H as [acc1 [l4 [Hrows H]]].
    apply lift_Returns in Hrows. destruct Hrows as [Hrows ->].
    apply bind_Returns in H. destruct H as [n [l5 [Hn H]]].
    apply lift_Returns in Hn. destruct Hn as [_ ->].
    apply bind_Returns in H. destruct H as [limit [l6 [Hlim H]]].
    apply lift_Returns in Hlim. destruct Hlim as [Hlim ->].
    exists page, acc1. split; [ exact Hrows | ].
    destruct (n <? limit).
    + left. inversion H. auto.
    + right.
      apply bind_Returns in H. destruct H as [offset [l7 [Hoff H]]].
      apply lift_Returns in Hoff. destruct Hoff as [Hoff ->].
      exists limit, offset. auto.
Qed.

Lemma events_requests_S (params : dict) (offset limit : Z) (k : nat) :
  int_item params "offset" = Ok offset ->
  events_requests params offset limit (S k)
  = ([(endpoint_url "events", send_request params);
      (endpoint_url "events", receive_request params)]
     ++ events_requests (dict_set "offset" (PInt (offset + limit)) params)
                        (offset + limit) limit k)%list.
Proof.
  intros Hoff. unfold events_requests. cbn [seq flat_map].
  rewrite (page_params_0 params offset limit Hoff).
  cbn [app]. do 2 f_equal.
  rewrite <- seq_shift, flat_map_concat_map, map_map, <- flat_map_concat_map.
  apply flat_map_ext. intros i. rewrite page_params_next. reflexivity.
Qed.

Lemma holders_requests_S (params : dict) (offset limit : Z) (k : nat) :
  int_item params "offset" = Ok offset ->
  holders_requests params offset limit (S k)
  = ((endpoint_url "addresses", params)
     :: holders_requests (dict_set "offset" (PInt (offset + limit)) params)
                         (offset + limit) limit k)%list.
Proof.
  intros Hoff. unfold holders_requests. cbn [seq map].
  rewrite (page_params_0 params offset limit Hoff). f_equal.
  rewrite <- seq_shift, map_map.
  apply map_ext. intros i. rewrite page_params_next. reflexivity.
Qed.

(** What a run of the events loop that returns has done: [k] pages, each
    with its send and its receive request at the same parameters, the
    offset going up by the limit; and the accumulator has only grown, by
    records that passes of the inner loop emitted. *)
Lemma events_pages_trace (up : upstream)
    (row : pyval -> pyval -> res (option dict)) (limit : Z) :
  forall fuel params offset acc log acc' log',
    int_item params "limit" = Ok limit ->
    int_item params "offset" = Ok offset ->
    events_pages up fuel row params acc log = (Returns acc', log') ->
    exists k rows,
      (1 <= k <= fuel)%nat /\
      log' = (log ++ events_requests params offset limit k)%list /\
      acc' = (acc ++ rows)%list /\
      Forall (emitted_by row) rows.
Proof.
  induction fuel as [| fuel IH]; intros params offset acc log acc' log' Hlim Hoff H.
  - discriminate H.
  - destruct (events_pages_S_Returns up fuel row params acc log acc' log' H)
      as [[-> ->] | [rr [sends [acc1 [Hpairs Hrest]]]]].
    + exists 1%nat, []. rewrite app_nil_r.
      rewrite (events_requests_S params offset limit 0 Hoff).
      cbn [events_requests seq flat_map]. rewrite app_nil_r.
      repeat split; auto; lia.
    + destruct (pair_events_rows row rr sends 0 acc acc1 Hpairs)
        as [rows1 [-> [Hall1 _]]].
      destruct Hrest as [[-> ->] | [limit' [offset' [Hlim' [Hoff' Hnext]]]]].
      * exists 1%nat, rows1.
        rewrite (events_requests_S params offset limit 0 Hoff).
        cbn [events_requests seq flat_map]. rewrite app_nil_r.
        repeat split; auto; lia.
      * assert (limit' = limit) by congruence.
        assert (offset' = offset) by congruence. subst limit' offset'.
        destruct (IH (dict_set "offset" (PInt (offset + limit)) params)
                     (offset + limit) _ _ _ _
                     (eq_trans (int_item_set_other "offset" "limit" _ params eq_refl)
                               Hlim)
                     (int_item_set_same "offset" _ params)
                     Hnext)
          as [k [rows2 [Hk [Hlog [Hacc Hall2]]]]].
        exists (S k), (rows1 ++ rows2)%list.
        rewrite (events_requests_S params offset limit k Hoff).
        split; [ lia | ]. split; [ | split ].
        -- rewrite Hlog, <- app_assoc. reflexivity.
        -- rewrite Hacc, <- app_assoc. reflexivity.
        -- apply Forall_app. auto.
Qed.

Lemma holders_pages_trace (rt : Runtime) (up : upstream)
    (token_symbol : pyval) (min_balance : decimal) (limit : Z) :
  forall fuel params offset acc log acc' log',
    int_item params "limit" = Ok limit ->
    int_item params "offset" = Ok offset ->
    holders_pages rt up fuel token_symbol min_balance params acc log
      = (Returns acc', log') ->
    exists k rows,
      (1 <= k <= fuel)%nat /\
      log' = (log ++ holders_requests params offset limit k)%list /\
      acc' = (acc ++ rows)%list /\
      Forall (holder_record_of rt token_symbol min_balance) rows.
Proof.
  induction fuel as [| fuel IH]; intros params offset acc log acc' log' Hlim Hoff H.
  - discriminate H.
  - destruct (holders_pages_S_Returns rt up fuel token_symbol min_balance
                params acc log acc' log' H)
      as [[-> ->] | [page [acc1 [Hrows Hrest]]]].
    + exists 1%nat, []. rewrite app_nil_r.
      rewrite (holders_requests_S params offset limit 0 Hoff).
      repeat split; auto; lia.
    + destruct (holders_rows_rows rt token_symbol min_balance page acc acc1 Hrows)
        as [rows1 [-> [Hall1 _]]].
      destruct Hrest as [[-> ->] | [limit' [offset' [Hlim' [Hoff' Hnext]]]]].
      * exists 1%nat, rows1.
        rewrite (holders_requests_S params offset limit 0 Hoff).
        repeat split; auto; lia.
      * assert (limit' = limit) by congruence.
        assert (offset' = offset) by congruence. subst limit' offset'.
        destruct (IH (dict_set "offset" (PInt (offset + limit)) params)
                     (offset + limit) _ _ _ _
                     (eq_trans (int_item_set_other "offset" "limit" _ params eq_refl)
                               Hlim)
                     (int_item_set_same "offset" _ params)
                     Hnext)
          as [k [rows2 [Hk [Hlog [Hacc Hall2]]]]].
        exists (S k), (rows1 ++ rows2)%list.
        rewrite (holders_requests_S params offset limit k Hoff).
        split; [ lia | ]. split; [ | split ].
        -- rewrite Hlog. rewrite <- app_assoc. reflexivity.
        -- rewrite Hacc, <- app_assoc. reflexivity.
        -- apply Forall_app. auto.
Qed.

Lemma get_symbol_Returns_log (up : upstream) token log symbol l1 :
  get_symbol_by_token_address up token log = (Returns symbol, l1) ->
  l1 = (log ++ [(endpoint_url "addresses", [("address", PStr token)])])%list.
Proof.
  unfold get_symbol_by_token_address. intros H.
  apply bind_Returns in H. destruct H as [results [l [Hreq H]]].
  apply make_request_Returns_log in Hreq. subst l.
  apply bind_Returns in H. destruct H as [result [l [Hget H]]].
  apply lift_Returns in Hget. destruct Hget as [_ ->].
  destruct (negb (truth result)); apply lift_Returns in H; tauto.
Qed.

(** A request that returns: the upstream answered with status 200 and a
    body that parses. *)
Lemma make_request_Returns_inv (up : upstream) endpoint params log v l1 :
  _make_request up endpoint params log = (Returns v, l1) ->
  exists r,
    up log (endpoint_url endpoint) params = Ok r /\
    status_code r = 200 /\ json r = Ok v.
Proof.
  unfold _make_request. fold (endpoint_url endpoint).
  destruct (up log (endpoint_url endpoint) params) as [r | e];
    [ | discriminate ].
  destruct (status_code r =? 200) eqn:Hst; [ | discriminate ].
  intros H. apply lift_Returns in H. destruct H as [H _].
  exists r. apply Z.eqb_eq in Hst. auto.
Qed.

(** The symbol a fetch operation works with is the one the upstream gave
    for the token address. *)
Lemma get_symbol_resolves (up : upstream) token log symbol l1 :
  get_symbol_by_token_address up token log = (Returns symbol, l1) ->
  resolves_to up log token symbol.
Proof.
  unfold get_symbol_by_token_address. intros H.
  apply bind_Returns in H. destruct H as [results [l [Hreq H]]].
  pose proof (make_request_Returns_log _ _ _ _ _ _ Hreq) as Hl.
  apply make_request_Returns_inv in Hreq. destruct Hreq as [r [Hup [Hst Hjs]]].
  apply bind_Returns in H. destruct H as [result [l' [Hget H]]].
  apply lift_Returns in Hget. destruct Hget as [Hget _].
  destruct (truth result) eqn:Htruth; cbn [negb] in H;
    apply lift_Returns in H; destruct H as [H _]; [ | discriminate ].
  apply rbind_Ok in H. destruct H as [first [Hfirst Hname]].
  exists r, results, result, first. auto 10.
Qed.

Lemma transfers_row_passes (rt : Runtime) addresses from_only min_value
    (event_send event_receive : pyval) (d : dict) :
  transfers_row rt addresses from_only min_value event_send event_receive
    = Ok (Some d) ->
  passes_filters rt addresses from_only min_value d.
Proof.
  intros H. pose proof (transfers_row_record rt _ _ _ _ _ _ H) as Hrec.
  destruct (transfer_record_fields _ _ _ Hrec)
    as [date [ts [a [b [te [q [h [_ [_ [Ha [Hb [Hte [Hq [_ ->]]]]]]]]]]]]]].
  unfold transfers_row in H. rewrite Hte in H. cbn [rbind] in H.
  rewrite Hq in H. cbn [rbind] in H.
  apply rbind_Ok in H. destruct H as [amount [Hd H]].
  apply rbind_Ok in H. destruct H as [small [Hlt H]].
  destruct small; [ discriminate | ].
  apply rbind_Ok in H. destruct H as [pass [Hpass H]].
  destruct pass; [ | discriminate ].
  exists ts, a, b, q, h, amount. repeat split; try assumption.
  unfold address_filter in Hpass. rewrite Ha in Hpass.
  destruct addresses as [[| w wanted] |]; [ exact I | | exact I ].
  destruct from_only.
  - exact Hpass.
  - rewrite Hb in Hpass. cbn [rbind] in Hpass.
    destruct (set_contains (w :: wanted) a) as [[|] |]; try discriminate.
    + left. reflexivity.
    + right. exact Hpass.
Qed.


(** What a call of [fetch_transfers] that returns a table has done. *)
Lemma fetch_transfers_inv (rt : Runtime) (up : upstream) fuel token addresses
    start_date end_date from_only min_value log t log' :
  fetch_transfers rt up fuel token addresses start_date end_date
                  from_only min_value log = (Returns (Some t), log') ->
  exists symbol greater less k records,
    resolves_to up log token symbol /\
    date_param rt start_date = Ok greater /\
    date_param rt end_date = Ok less /\
    (1 <= k <= fuel)%nat /\
    log' = (log ++ (endpoint_url "addresses", [("address", PStr token)])
                :: events_requests (events_params greater less symbol)
                                   0 page_limit k)%list /\
    Forall (emitted_by (transfers_row rt addresses from_only min_value)) records /\
    (df <- pd_DataFrame records ;; format_transfers_df rt df)%res = Ok t.
Proof.
  intros H. apply try_or_None_Some in H. unfold fetch_transfers_body in H.
  apply bind_Returns in H. destruct H as [symbol [l1 [Hsym H]]].
  pose proof (get_symbol_resolves _ _ _ _ _ Hsym) as Hres.
  apply get_symbol_Returns_log in Hsym. subst l1.
  apply bind_Returns in H. destruct H as [greater [l [Hg H]]].
  apply lift_Returns in Hg. destruct Hg as [Hg ->].
  apply bind_Returns in H. destruct H as [less [l [Hl H]]].
  apply lift_Returns in Hl. destruct Hl as [Hl ->].
  apply bind_Returns in H. destruct H as [records [l [Hpages H]]].
  apply lift_Returns in H. destruct H as [Hfmt ->].
  destruct (events_pages_trace up _ page_limit fuel
              (events_params greater less symbol) 0 [] _ records l
              eq_refl eq_refl Hpages)
    as [k [rows [Hk [Hlog [Hacc Hall]]]]].
  cbn [app] in Hacc. subst rows.
  exists symbol, greater, less, k, records.
  repeat split; try assumption; try lia.
  rewrite Hlog, <- app_assoc. reflexivity.
Qed.

(** X1. A call of [fetch_transfers] that returns a table has made one
    symbol-resolution request and then, for some number [k] of pages
    between 1 and the page budget, a TokenSend and a TokenReceive request
    per page, both with the same parameters (dates, limit 20000, symbol),
    at the offsets 0, 20000, 40000, ... in this order, and nothing else. *)
Theorem fetch_transfers_request_trace (rt : Runtime) (up : upstream)
    (fuel : nat) (token : string) (addresses : option (list string))
    (start_date end_date : option datetime) (from_only : bool)
    (min_value : decimal) (log : list request) (t : transfers_table)
    (log' : list request) :
  fetch_transfers rt up fuel token addresses start_date end_date
                  from_only min_value log = (Returns (Some t), log') ->
  exists symbol greater less k,
    date_param rt start_date = Ok greater /\
    date_param rt end_date = Ok less /\
    (1 <= k <= fuel)%nat /\
    log' = (log ++ (endpoint_url "addresses", [("address", PStr token)])
                :: events_requests (events_params greater less symbol)
                                   0 page_limit k)%list.
Proof.
  intros H.
  destruct (fetch_transfers_inv rt up fuel token addresses start_date end_date
              from_only min_value log t log' H)
    as [symbol [greater [less [k [records [_ [Hg [Hl [Hk [Hlog _]]]]]]]]]].
  exists symbol, greater, less, k. auto.
Qed.

Lemma fetch_transfers_request_trace_example :
  exists symbol greater less k,
    date_param example_runtime None = Ok greater /\
    date_param example_runtime None = Ok less /\
    (1 <= k <= 1)%nat /\
    [(endpoint_url "addresses", [("address", PStr "token")]);
     (endpoint_url "events",
      send_request (events_params PNone PNone (PStr "SOUL")));
     (endpoint_url "events",
      receive_request (events_params PNone PNone (PStr "SOUL")))]
    = ([] ++ (endpoint_url "addresses", [("address", PStr "token")])
             :: events_requests (events_params greater less symbol)
                                0 page_limit k)%list.
Proof.
  exact (fetch_transfers_request_trace
           example_runtime example_events_upstream 1 "token" None None None
           false (DFin false 0 0) [] _ _ fetch_transfers_pairs_example).
Defined.

(** What a call of [fetch_holders] that returns a table has done. *)
Lemma fetch_holders_inv (rt : Runtime) (up : upstream) fuel token min_balance
    log t log' :
  fetch_holders rt up fuel token min_balance log = (Returns (Some t), log') ->
  exists symbol k records,
    resolves_to up log token symbol /\
    (1 <= k <= fuel)%nat /\
    log' = (log ++ (endpoint_url "addresses", [("address", PStr token)])
                :: holders_requests (holders_params symbol) 0 page_limit k)%list /\
    Forall (holder_record_of rt symbol min_balance) records /\
    (df <- pd_DataFrame records ;; format_holders_df rt df)%res = Ok t.
Proof.
  intros H. apply try_or_None_Some in H. unfold fetch_holders_body in H.
  apply bind_Returns in H. destruct H as [symbol [l1 [Hsym H]]].
  pose proof (get_symbol_resolves _ _ _ _ _ Hsym) as Hres.
  apply get_symbol_Returns_log in Hsym. subst l1.
  apply bind_Returns in H. destruct H as [records [l [Hpages H]]].
  apply lift_Returns in H. destruct H as [Hfmt ->].
  destruct (holders_pages_trace rt up symbol min_balance page_limit fuel
              (holders_params symbol) 0 [] _ records l
              eq_refl eq_refl Hpages)
    as [k [rows [Hk [Hlog [Hacc Hall]]]]].
  cbn [app] in Hacc. subst rows.
  exists symbol, k, records.
  repeat split; try assumption; try lia.
  rewrite Hlog, <- app_assoc. reflexivity.
Qed.

Example fetch_holders_run_example :
  fetch_holders example_runtime example_holders_upstream 1 "token"
                (DFin false 1 0) []
  = (Returns (Some (mkHolders ["P2K1"] [DFin false 250 (-2)])),
     [(endpoint_url "addresses", [("address", PStr "token")]);
      (endpoint_url "addresses", holders_params (PStr "SOUL"))]).
Proof. vm_compute. reflexivity. Qed.

(** X2. A call of [fetch_holders] that returns a table has made one
    symbol-resolution request and then one request per page, for some
    number [k] of pages between 1 and the page budget, with limit 20000,
    as contract the symbol the upstream gave in answer to the resolution
    request (the address_name of the first entry of that answer), and the
    offsets 0, 20000, 40000, ... in this order, and nothing else. *)
Theorem fetch_holders_request_trace (rt : Runtime) (up : upstream)
    (fuel : nat) (token : string) (min_balance : decimal)
    (log : list request) (t : holders_table) (log' : list request) :
  fetch_holders rt up fuel token min_balance log = (Returns (Some t), log') ->
  exists symbol k,
    resolves_to up log token symbol /\
    (1 <= k <= fuel)%nat /\
    log' = (log ++ (endpoint_url "addresses", [("address", PStr token)])
                :: holders_requests (holders_params symbol) 0 page_limit k)%list.
Proof.
  intros H.
  destruct (fetch_holders_inv rt up fuel token min_balance log t log' H)
    as [symbol [k [records [Hres [Hk [Hlog _]]]]]].
  exists symbol, k. auto.
Qed.

Lemma fetch_holders_request_trace_example :
  exists symbol k,
    resolves_to example_holders_upstream [] "token" symbol /\
    (1 <= k <= 1)%nat /\
    [(endpoint_url "addresses", [("address", PStr "token")]);
     (endpoint_url "addresses", holders_params (PStr "SOUL"))]
    = ([] ++ (endpoint_url "addresses", [("address", PStr "token")])
             :: holders_requests (holders_params symbol) 0 page_limit k)%list.
Proof.
  exact (fetch_holders_request_trace
           example_runtime example_holders_upstream 1 "token" (DFin false 1 0)
           [] _ _ fetch_holders_run_example).
Defined.

(** ** No partial success *)





(** ** The shape of the tables *)

(** X4. The tables the formatters build are rectangular: every column has
    as many entries as the frame has records. *)
Theorem formatted_tables_are_rectangular (rt : Runtime) (df : DataFrame) :
  (forall t, format_holders_df rt df = Ok t ->
             List.length (h_owner_address t) = List.length (df_records df) /\
             List.length (h_balance t) = List.length (df_records df)) /\
  (forall t, format_historical_holders_df rt df = Ok t ->
             List.length (hh_timestamp t) = List.length (df_records df) /\
             List.length (hh_owner_address t) = List.length (df_records df) /\
             List.length (hh_balance t) = List.length (df_records df)) /\
  (forall t, format_prices_df rt df = Ok t ->
             List.length (p_timestamp t) = List.length (df_records df) /\
             List.length (p_average_price t) = List.length (df_records df) /\
             List.length (p_close_price t) = List.length (df_records df) /\
             List.length (p_volume t) = List.length (df_records df)) /\
  (forall t, format_transfers_df rt df = Ok t ->
             List.length (t_timestamp t) = List.length (df_records df) /\
             List.length (t_from_address t) = List.length (df_records df) /\
             List.length (t_to_address t) = List.length (df_records df) /\
             List.length (t_quantity t) = List.length (df_records df) /\
             List.length (t_transaction_hash t) = List.length (df_records df)).
Proof.
  split; [ | split; [ | split ] ]; intros t H.
  - unfold format_holders_df, astype_str_strip in H.
    apply rbind_Ok in H. destruct H as [c1 [H1 H]].
    apply rbind_Ok in H. destruct H as [m1 [M1 H]].
    apply rbind_Ok in H. destruct H as [c2 [H2 H]].
    apply rbind_Ok in H. destruct H as [m2 [M2 H]].
    inversion H. simpl.
    rewrite (mapM_length _ _ _ M1), (mapM_length _ _ _ M2),
      (df_getitem_length _ _ _ H1), (df_getitem_length _ _ _ H2). auto.
  - unfold format_historical_holders_df, astype_str_strip in H.
    apply rbind_Ok in H. destruct H as [c1 [H1 H]].
    apply rbind_Ok in H. destruct H as [m1 [M1 H]].
    apply rbind_Ok in H. destruct H as [c2 [H2 H]].
    apply rbind_Ok in H. destruct H as [m2 [M2 H]].
    apply rbind_Ok in H. destruct H as [c3 [H3 H]].
    apply rbind_Ok in H. destruct H as [m3 [M3 H]].
    inversion H. simpl.
    rewrite (mapM_length _ _ _ M1), (mapM_length _ _ _ M2),
      (mapM_length _ _ _ M3),
      (df_getitem_length _ _ _ H1), (df_getitem_length _ _ _ H2),
      (df_getitem_length _ _ _ H3). auto.
  - unfold format_prices_df in H.
    apply rbind_Ok in H. destruct H as [c1 [H1 H]].
    apply rbind_Ok in H. destruct H as [m1 [M1 H]].
    apply rbind_Ok in H. destruct H as [c2 [H2 H]].
    apply rbind_Ok in H. destruct H as [m2 [M2 H]].
    apply rbind_Ok in H. destruct H as [c3 [H3 H]].
    apply rbind_Ok in H. destruct H as [m3 [M3 H]].
    apply rbind_Ok in H. destruct H as [c4 [H4 H]].
    apply rbind_Ok in H. destruct H as [m4 [M4 H]].
    inversion H. simpl. unfold tz_localize_None.
    rewrite length_map, (mapM_length _ _ _ M1), (mapM_length _ _ _ M2),
      (mapM_length _ _ _ M3), (mapM_length _ _ _ M4),
      (df_getitem_length _ _ _ H1), (df_getitem_length _ _ _ H2),
      (df_getitem_length _ _ _ H3), (df_getitem_length _ _ _ H4). auto.
  - unfold format_transfers_df, astype_str_strip in H.
    apply rbind_Ok in H. destruct H as [c1 [H1 H]].
    apply rbind_Ok in H. destruct H as [m1 [M1 H]].
    apply rbind_Ok in H. destruct H as [c2 [H2 H]].
    apply rbind_Ok in H. destruct H as [m2 [M2 H]].
    apply rbind_Ok in H. destruct H as [c3 [H3 H]].
    apply rbind_Ok in H. destruct H as [m3 [M3 H]].
    apply rbind_Ok in H. destruct H as [c4 [H4 H]].
    apply rbind_Ok in H. destruct H as [m4 [M4 H]].
    apply rbind_Ok in H. destruct H as [c5 [H5 H]].
    apply rbind_Ok in H. destruct H as [m5 [M5 H]].
    inversion H. simpl. unfold tz_localize_None.
    rewrite length_map, (mapM_length _ _ _ M1), (mapM_length _ _ _ M2),
      (mapM_length _ _ _ M3), (mapM_length _ _ _ M4), (mapM_length _ _ _ M5),
      (df_getitem_length _ _ _ H1), (df_getitem_length _ _ _ H2),
      (df_getitem_length _ _ _ H3), (df_getitem_length _ _ _ H4),
      (df_getitem_length _ _ _ H5). auto.
Qed.

(** ** Trimmed strings *)

Lemma drop_spaces_clean (l : list ascii) : starts_clean (drop_spaces l).
Proof.
  induction l as [| c l IH]; simpl; [ exact I | ].
  destruct (is_space c) eqn:Hc; [ exact IH | exact Hc ].
Qed.

Lemma drop_spaces_split (l : list ascii) :
  exists sp, l = (sp ++ drop_spaces l)%list /\
             Forall (fun c => is_space c = true) sp.
Proof.
  induction l as [| c l [sp [Heq Hsp]]]; simpl.
  - exists []. split; [ reflexivity | constructor ].
  - destruct (is_space c) eqn:Hc.
    + exists (c :: sp). simpl. rewrite <- Heq. split; [ reflexivity | ].
      constructor; assumption.
    + exists []. split; [ reflexivity | constructor ].
Qed.

Lemma drop_spaces_of_clean (l : list ascii) :
  starts_clean l -> drop_spaces l = l.
Proof.
  destruct l as [| c l]; simpl; [ reflexivity | ]. intros ->. reflexivity.
Qed.

Lemma strip_chars_trimmed (l : list ascii) : trimmed_chars (strip_chars l).
Proof.
  unfold strip_chars, trimmed_chars. rewrite rev_involutive.
  split; [ | apply drop_spaces_clean ].
  pose proof (drop_spaces_clean l) as Hx.
  destruct (drop_spaces_split (rev (drop_spaces l))) as [sp [Heq Hsp]].
  set (x := drop_spaces l) in *.
  set (y := drop_spaces (rev x)) in *.
  assert (Hxy : x = (rev y ++ rev sp)%list).
  { rewrite <- rev_app_distr, <- Heq, rev_involutive. reflexivity. }
  destruct (rev y) as [| c r] eqn:Hr; [ exact I | ].
  rewrite Hxy in Hx. exact Hx.
Qed.

Lemma strip_chars_of_trimmed (l : list ascii) :
  trimmed_chars l -> strip_chars l = l.
Proof.
  intros [Hhead Hlast]. unfold strip_chars.
  rewrite (drop_spaces_of_clean l Hhead), (drop_spaces_of_clean _ Hlast).
  apply rev_involutive.
Qed.

Lemma strip_trimmed (s : string) : trimmed (strip s).
Proof.
  unfold trimmed, strip. rewrite list_ascii_of_string_of_list_ascii.
  apply strip_chars_trimmed.
Qed.

Lemma strip_of_trimmed (s : string) : trimmed s -> strip s = s.
Proof.
  unfold trimmed, strip. intros H. rewrite (strip_chars_of_trimmed _ H).
  apply string_of_list_ascii_of_string.
Qed.

Lemma str_strip_trimmed (rt : Runtime) (v : pyval) (s : string) :
  str_strip rt v = Ok s -> trimmed s.
Proof.
  unfold str_strip. intros H. apply rbind_Ok in H. destruct H as [s0 [_ H]].
  inversion H. apply strip_trimmed.
Qed.

Lemma astype_str_strip_trimmed (rt : Runtime) (col : list pyval) l :
  astype_str_strip rt col = Ok l -> Forall trimmed l.
Proof.
  unfold astype_str_strip. apply mapM_Forall. apply str_strip_trimmed.
Qed.

Lemma stripped_list_trimmed (rt : Runtime) (data : dict) (k : string) l :
  stripped_list rt data k = Ok (Some l) -> Forall trimmed l.
Proof.
  unfold stripped_list. destruct (dict_lookup k data) as [v |];
    [ | discriminate ].
  intros H. apply rbind_Ok in H. destruct H as [items [_ H]].
  apply rbind_Ok in H. destruct H as [stripped [Hs H]].
  inversion H. subst. exact (mapM_Forall _ _ (str_strip_trimmed rt) _ _ Hs).
Qed.

(** X5. Every string the formatters put out is trimmed: no white space at
    its start or at its end, so that stripping it again changes nothing.
    This holds of the owner addresses of the holders tables, of the from
    and to addresses and the transaction hashes of the transfers table,
    and of the symbol, the name, the creators and the involved addresses
    of the token info. *)
Theorem formatted_strings_are_trimmed (rt : Runtime) :
  (forall s, trimmed (strip s) /\ strip (strip s) = strip s) /\
  (forall df t, format_holders_df rt df = Ok t ->
                Forall trimmed (h_owner_address t)) /\
  (forall df t, format_historical_holders_df rt df = Ok t ->
                Forall trimmed (hh_owner_address t)) /\
  (forall df t, format_transfers_df rt df = Ok t ->
                Forall trimmed (t_from_address t) /\
                Forall trimmed (t_to_address t) /\
                Forall trimmed (t_transaction_hash t)) /\
  (forall data ti, format_token_info rt data = Ok ti ->
                   trimmed (ti_symbol ti) /\
                   trimmed (ti_name ti) /\
                   (forall l, ti_creators ti = Some l -> Forall trimmed l) /\
                   (forall l, ti_involved ti = Some l -> Forall trimmed l)).
Proof.
  split; [ | split; [ | split; [ | split ] ] ].
  - intros s. split; [ apply strip_trimmed | ].
    apply strip_of_trimmed, strip_trimmed.
  - intros df t H. unfold format_holders_df in H.
    apply rbind_Ok in H. destruct H as [c1 [_ H]].
    apply rbind_Ok in H. destruct H as [m1 [M1 H]].
    apply rbind_Ok in H. destruct H as [c2 [_ H]].
    apply rbind_Ok in H. destruct H as [m2 [_ H]].
    inversion H. simpl. exact (astype_str_strip_trimmed _ _ _ M1).
  - intros df t H. unfold format_historical_holders_df in H.
    apply rbind_Ok in H. destruct H as [c1 [_ H]].
    apply rbind_Ok in H. destruct H as [m1 [_ H]].
    apply rbind_Ok in H. destruct H as [c2 [_ H]].
    apply rbind_Ok in H. destruct H as [m2 [M2 H]].
    apply rbind_Ok in H. destruct H as [c3 [_ H]].
    apply rbind_Ok in H. destruct H as [m3 [_ H]].
    inversion H. simpl. exact (astype_str_strip_trimmed _ _ _ M2).
  - intros df t H. unfold format_transfers_df in H.
    apply rbind_Ok in H. destruct H as [c1 [_ H]].
    apply rbind_Ok in H. destruct H as [m1 [_ H]].
    apply rbind_Ok in H. destruct H as [c2 [_ H]].
    apply rbind_Ok in H. destruct H as [m2 [M2 H]].
    apply rbind_Ok in H. destruct H as [c3 [_ H]].
    apply rbind_Ok in H. destruct H as [m3 [M3 H]].
    apply rbind_Ok in H. destruct H as [c4 [_ H]].
    apply rbind_Ok in H. destruct H as [m4 [_ H]].
    apply rbind_Ok in H. destruct H as [c5 [_ H]].
    apply rbind_Ok in H. destruct H as [m5 [M5 H]].
    inversion H. simpl.
    split; [ exact (astype_str_strip_trimmed _ _ _ M2) | ].
    split; [ exact (astype_str_strip_trimmed _ _ _ M3) | ].
    exact (astype_str_strip_trimmed _ _ _ M5).
  - intros data ti H. unfold format_token_info in H.
    apply rbind_Ok in H. destruct H as [base_symbol [Hsym H]].
    apply rbind_Ok in H. destruct H as [created [_ H]].
    apply rbind_Ok in H. destruct H as [ts [_ H]].
    apply rbind_Ok in H. destruct H as [decimals [_ H]].
    apply rbind_Ok in H. destruct H as [name [Hname H]].
    apply rbind_Ok in H. destruct H as [supply [_ H]].
    apply rbind_Ok in H. destruct H as [creators [Hc H]].
    apply rbind_Ok in H. destruct H as [involved [Hi H]].
    inversion H. simpl.
    split; [ exact (str_strip_trimmed _ _ _ Hsym) | ].
    split; [ exact (str_strip_trimmed _ _ _ Hname) | ].
    split; intros l ->.
    + exact (stripped_list_trimmed rt data "creators" l Hc).
    + exact (stripped_list_trimmed rt data "involved" l Hi).
Qed.

(** ** The price history *)

Lemma price_row_fields (p : pyval) (d : dict) :
  price_row p = Ok d ->
  exists timestamp usd volume,
    d = [("timestamp", PInt timestamp);
         ("average_price", usd);
         ("close_price", usd);
         ("volume", volume)].
Proof.
  unfold price_row. intros H.
  apply rbind_Ok in H. destruct H as [date [_ H]].
  apply rbind_Ok in H. destruct H as [ts [_ H]].
  apply rbind_Ok in H. destruct H as [price [Hp H]].
  apply rbind_Ok in H. destruct H as [usd [Hu H]].
  apply rbind_Ok in H. destruct H as [price' [Hp' H]].
  apply rbind_Ok in H. destruct H as [usd' [Hu' H]].
  apply rbind_Ok in H. destruct H as [volume [_ H]].
  assert (price' = price) by congruence. subst price'.
  assert (usd' = usd) by congruence. subst usd'.
  inversion H. eauto.
Qed.

(** The columns of the frame a list of records makes: a column holds
    the cells of the records, as floats when the scan of the column says
    so. *)
Lemma frame_row_lookup (records : list dict) (c : string) :
  forall columns dtypes,
    mapM (column_dtype records) columns = Ok dtypes ->
    has_column c columns = true ->
    exists seen,
      scan_objects (map (cell c) records) nothing_seen = Ok seen /\
      forall r, cell c (frame_row dtypes r)
                = if is_float64 seen then as_float64 (cell c r) else cell c r.
Proof.
  induction columns as [| c0 columns IH]; intros dtypes H Hc.
  - discriminate Hc.
  - cbn [mapM] in H. apply rbind_Ok in H. destruct H as [cd [Hcd H]].
    apply rbind_Ok in H. destruct H as [rest [Hrest H]].
    inversion H; subst dtypes. clear H.
    unfold column_dtype in Hcd. apply rbind_Ok in Hcd.
    destruct Hcd as [seen [Hseen Hcd]]. inversion Hcd; subst cd. clear Hcd.
    unfold has_column in Hc. cbn [existsb] in Hc.
    destruct (String.eqb c c0) eqn:E.
    + apply String.eqb_eq in E. subst c0. exists seen.
      split; [ exact Hseen | ]. intros r.
      unfold cell at 1. cbn [frame_row map fst snd dict_lookup].
      rewrite String.eqb_refl. reflexivity.
    + cbn [orb] in Hc. destruct (IH _ Hrest Hc) as [seen' [Hs Hr]].
      exists seen'. split; [ exact Hs | ]. intros r. rewrite <- Hr.
      unfold cell at 1 2. cbn [frame_row map fst snd dict_lookup].
      rewrite E. reflexivity.
Qed.

Lemma pd_DataFrame_column (records : list dict) (df : DataFrame) (c : string)
    (col : list pyval) :
  pd_DataFrame records = Ok df ->
  df_getitem df c = Ok col ->
  exists seen,
    scan_objects (map (cell c) records) nothing_seen = Ok seen /\
    col = map (fun r => if is_float64 seen then as_float64 (cell c r)
                        else cell c r) records.
Proof.
  unfold pd_DataFrame. intros Hdf H.
  apply rbind_Ok in Hdf. destruct Hdf as [dtypes [Hdt Hdf]].
  inversion Hdf; subst df. clear Hdf.
  unfold df_getitem in H. cbn [df_columns df_records] in H.
  destruct (has_column c (fold_left add_keys records [])) eqn:Hc;
    [ | discriminate ].
  inversion H. clear H.
  destruct (frame_row_lookup records c _ _ Hdt Hc) as [seen [Hs Hr]].
  exists seen. split; [ exact Hs | ].
  rewrite map_map. apply map_ext. exact Hr.
Qed.

(** A column of strings is kept as it is. *)
Lemma string_column_kept (records : list dict) (df : DataFrame) (c : string)
    (col : list pyval) :
  pd_DataFrame records = Ok df ->
  df_getitem df c = Ok col ->
  Forall (string_field c) records ->
  col = map (cell c) records.
Proof.
  intros Hdf H Hall.
  destruct (pd_DataFrame_column _ _ _ _ Hdf H) as [seen [Hs ->]].
  destruct Hall as [| r records [s Hr] _]; [ reflexivity | ].
  cbn [map] in Hs. unfold cell at 1 in Hs. rewrite Hr in Hs.
  cbn [scan_objects] in Hs. inversion Hs. reflexivity.
Qed.

Lemma price_columns_equal (records : list dict) (df : DataFrame)
    (average close : list pyval) :
  Forall (fun d => dict_lookup "average_price" d = dict_lookup "close_price" d)
         records ->
  pd_DataFrame records = Ok df ->
  df_getitem df "average_price" = Ok average ->
  df_getitem df "close_price" = Ok close ->
  average = close.
Proof.
  intros Hall Hdf Ha Hc.
  destruct (pd_DataFrame_column _ _ _ _ Hdf Ha) as [sa [Hsa ->]].
  destruct (pd_DataFrame_column _ _ _ _ Hdf Hc) as [sc [Hsc ->]].
  assert (Hcells : forall r, In r records ->
                     cell "average_price" r = cell "close_price" r).
  { intros r Hin. unfold cell.
    rewrite (proj1 (Forall_forall _ _) Hall r Hin). reflexivity. }
  rewrite (map_ext_in _ _ _ Hcells) in Hsa.
  assert (sa = sc) by congruence. subst sc.
  apply map_ext_in. intros r Hin. rewrite (Hcells r Hin). reflexivity.
Qed.

Example fetch_prices_run_example :
  fetch_prices example_runtime example_prices_upstream "token"
               (mkDatetime 0 None) None []
  = (Returns (Some (mkPrices [mkDatetime 62135596900000000 None;
                              mkDatetime 62135597000000000 None]
                             [0.5%float; 0.25%float]
                             [0.5%float; 0.25%float]
                             [DFin false 0 0; DFin false 125 (-1)])),
     [(endpoint_url "addresses", [("address", PStr "token")]);
      (endpoint_url "historyPrices", [("symbol", PStr "SOUL")])]).
Proof. vm_compute. reflexivity. Qed.

(** X6. A table that [fetch_prices] returns has its average_price column
    equal to its close_price column, and one row per price point of the
    upstream's history; the call has made exactly two requests, the symbol
    resolution and one historyPrices request whose only parameter is the
    symbol the upstream gave in answer to the resolution (the address_name
    of the first entry of that answer): no date bound is sent. *)
Theorem fetch_prices_single_series (rt : Runtime) (up : upstream)
    (token : string) (start_date : datetime) (end_date : option datetime)
    (log : list request) (t : prices_table) (log' : list request) :
  fetch_prices rt up token start_date end_date log = (Returns (Some t), log') ->
  p_average_price t = p_close_price t /\
  exists symbol result history points,
    resolves_to up log token symbol /\
    log' = (log ++ [(endpoint_url "addresses", [("address", PStr token)]);
                    (endpoint_url "historyPrices", [("symbol", symbol)])])%list /\
    _make_request up "historyPrices" [("symbol", symbol)]
                  (log ++ [(endpoint_url "addresses", [("address", PStr token)])])%list
      = (Returns result, log') /\
    getitem result "history_prices" = Ok history /\
    iter history = Ok points /\
    List.length (p_timestamp t) = List.length points.
Proof.
  intros H. apply try_or_None_Some in H. unfold fetch_prices_body in H.
  apply bind_Returns in H. destruct H as [symbol [l1 [Hsym H]]].
  pose proof (get_symbol_resolves _ _ _ _ _ Hsym) as Hres.
  apply get_symbol_Returns_log in Hsym. subst l1.
  apply bind_Returns in H. destruct H as [result [l2 [Hreq H]]].
  apply lift_Returns in H. destruct H as [H ->].
  apply rbind_Ok in H. destruct H as [history [Hget H]].
  apply rbind_Ok in H. destruct H as [points [Hit H]].
  apply rbind_Ok in H. destruct H as [records [Hrec H]].
  apply rbind_Ok in H. destruct H as [df [Hdf Hfmt]].
  assert (Hall : Forall (fun d => dict_lookup "average_price" d
                                  = dict_lookup "close_price" d) records).
  { apply (mapM_Forall price_row _) with (l := points); [ | exact Hrec ].
    intros p d Hd. destruct (price_row_fields p d Hd) as [ts [usd [vol ->]]].
    reflexivity. }
  split.
  - unfold format_prices_df in Hfmt.
    apply rbind_Ok in Hfmt. destruct Hfmt as [c1 [_ Hfmt]].
    apply rbind_Ok in Hfmt. destruct Hfmt as [m1 [_ Hfmt]].
    apply rbind_Ok in Hfmt. destruct Hfmt as [c2 [H2 Hfmt]].
    apply rbind_Ok in Hfmt. destruct Hfmt as [m2 [M2 Hfmt]].
    apply rbind_Ok in Hfmt. destruct Hfmt as [c3 [H3 Hfmt]].
    apply rbind_Ok in Hfmt. destruct Hfmt as [m3 [M3 Hfmt]].
    apply rbind_Ok in Hfmt. destruct Hfmt as [c4 [_ Hfmt]].
    apply rbind_Ok in Hfmt. destruct Hfmt as [m4 [_ Hfmt]].
    inversion Hfmt. simpl.
    rewrite (price_columns_equal records df c2 c3 Hall Hdf H2 H3) in M2.
    congruence.
  - exists symbol, result, history, points. split; [ exact Hres | ].
    split; [ | split; [ exact Hreq | split; [ exact Hget | split ] ] ].
    + rewrite (make_request_Returns_log _ _ _ _ _ _ Hreq), <- app_assoc.
      reflexivity.
    + exact Hit.
    + unfold format_prices_df in Hfmt.
      apply rbind_Ok in Hfmt. destruct Hfmt as [c1 [H1 Hfmt]].
      apply rbind_Ok in Hfmt. destruct Hfmt as [m1 [M1 Hfmt]].
      apply rbind_Ok in Hfmt. destruct Hfmt as [c2 [_ Hfmt]].
      apply rbind_Ok in Hfmt. destruct Hfmt as [m2 [_ Hfmt]].
      apply rbind_Ok in Hfmt. destruct Hfmt as [c3 [_ Hfmt]].
      apply rbind_Ok in Hfmt. destruct Hfmt as [m3 [_ Hfmt]].
      apply rbind_Ok in Hfmt. destruct Hfmt as [c4 [_ Hfmt]].
      apply rbind_Ok in Hfmt. destruct Hfmt as [m4 [_ Hfmt]].
      inversion Hfmt. simpl. unfold tz_localize_None.
      rewrite length_map, (mapM_length _ _ _ M1), (df_getitem_length _ _ _ H1).
      rewrite (proj2 (pd_DataFrame_shape _ _ Hdf)).
      exact (mapM_length _ _ _ Hrec).
Qed.

Lemma fetch_prices_single_series_example :
  [0.5%float; 0.25%float] = [0.5%float; 0.25%float] /\
  exists symbol result history points,
    resolves_to example_prices_upstream [] "token" symbol /\
    [(endpoint_url "addresses", [("address", PStr "token")]);
     (endpoint_url "historyPrices", [("symbol", PStr "SOUL")])]
    = ([] ++ [(endpoint_url "addresses", [("address", PStr "token")]);
              (endpoint_url "historyPrices", [("symbol", symbol)])])%list /\
    _make_request example_prices_upstream "historyPrices" [("symbol", symbol)]
                  ([] ++ [(endpoint_url "addresses", [("address", PStr "token")])])%list
      = (Returns result,
         [(endpoint_url "addresses", [("address", PStr "token")]);
          (endpoint_url "historyPrices", [("symbol", PStr "SOUL")])]) /\
    getitem result "history_prices" = Ok history /\
    iter history = Ok points /\
    List.length [mkDatetime 62135596900000000 None;
                 mkDatetime 62135597000000000 None] = List.length points.
Proof.
  exact (fetch_prices_single_series
           example_runtime example_prices_upstream "token" (mkDatetime 0 None)
           None [] _ _ fetch_prices_run_example).
Defined.

(** ** Integers through [to_decimal] *)

Ltac digit_step :=
  cbn [NilEmpty.string_of_uint list_ascii_of_string span_digits
       Pos.of_uint_acc Pos.of_uint Decimal.nb_digits];
  match goal with
  | |- context [is_digit ?c] => change (is_digit c) with true
  end;
  cbn iota;
  match goal with
  | |- context [digit_val ?c] =>
      let v := eval vm_compute in (digit_val c) in
      change (digit_val c) with v
  end.

Lemma span_digits_uint_acc (d : Decimal.uint) :
  forall acc n,
    span_digits (uint_chars d) (N.pos acc) n
    = (N.pos (Pos.of_uint_acc d acc), n + Z.of_nat (Decimal.nb_digits d), []).
Proof.
  unfold uint_chars.
  induction d as [| d IH | d IH | d IH | d IH | d IH | d IH | d IH | d IH | d IH | d IH];
    intros acc n;
    [ simpl; f_equal; f_equal; lia | .. ];
    digit_step;
    match goal with
    | |- span_digits _ ?a _ = (N.pos (Pos.of_uint_acc _ ?x), _, _) =>
        replace a with (N.pos x) by lia
    end;
    rewrite IH; f_equal; f_equal; lia.
Qed.

Lemma span_digits_uint (d : Decimal.uint) :
  forall n,
    span_digits (uint_chars d) 0%N n
    = (Pos.of_uint d, n + Z.of_nat (Decimal.nb_digits d), []).
Proof.
  induction d as [| d IH | d IH | d IH | d IH | d IH | d IH | d IH | d IH | d IH | d IH];
    intros n;
    [ simpl; f_equal; f_equal; lia | .. ];
    unfold uint_chars; digit_step; fold (uint_chars d);
    [ change (0 * 10 + 0)%N with 0%N; rewrite IH; f_equal; f_equal; lia | .. ];
    match goal with
    | |- span_digits _ ?a _ = (N.pos (Pos.of_uint_acc _ ?x), _, _) =>
        change a with (N.pos x)
    end;
    rewrite span_digits_uint_acc; f_equal; f_equal; lia.
Qed.

Lemma uint_chars_digits (d : Decimal.uint) :
  Forall (fun c => is_digit c = true) (uint_chars d).
Proof.
  unfold uint_chars. induction d; simpl; constructor; auto.
Qed.

Lemma digit_facts (c : ascii) (l : list ascii) :
  is_digit c = true ->
  is_space c = false /\
  Ascii.eqb c "_"%char = false /\
  read_sign (c :: l) = (false, c :: l) /\
  starts_with (list_ascii_of_string "infinity") (c :: l) = None /\
  starts_with (list_ascii_of_string "inf") (c :: l) = None /\
  starts_with (list_ascii_of_string "nan") (c :: l) = None /\
  starts_with (list_ascii_of_string "snan") (c :: l) = None.
Proof.
  destruct c as [b0 b1 b2 b3 b4 b5 b6 b7].
  destruct b0, b1, b2, b3, b4, b5, b6, b7; intros H;
    try discriminate H; repeat split.
Qed.

Lemma digits_untouched (cs : list ascii) :
  Forall (fun c => is_digit c = true) cs ->
  strip_chars cs = cs /\ without_underscores cs = cs.
Proof.
  intros Hall. split.
  - apply strip_chars_of_trimmed. split.
    + destruct Hall as [| c l Hc _]; [ exact I | ].
      exact (proj1 (digit_facts c [] Hc)).
    + apply Forall_rev in Hall. destruct Hall as [| c l Hc _]; [ exact I | ].
      exact (proj1 (digit_facts c [] Hc)).
  - unfold without_underscores.
    induction Hall as [| c l Hc _ IH]; simpl; [ reflexivity | ].
    rewrite (proj1 (proj2 (digit_facts c [] Hc))). simpl. f_equal. exact IH.
Qed.

Lemma parse_numeric_digits (neg : bool) (cs : list ascii) (v : N) (k : Z) :
  Forall (fun c => is_digit c = true) cs ->
  span_digits cs 0 0 = (v, k, []) ->
  0 < k ->
  parse_numeric (if neg then "-"%char :: cs else cs) = Some (LitFin neg v 0).
Proof.
  intros Hall Hspan Hk.
  destruct cs as [| c l].
  - inversion Hspan. lia.
  - inversion Hall as [| c' l' Hc Hl]; subst.
    destruct (digit_facts c l Hc) as [_ [_ [Hsign [H1 [H2 [H3 H4]]]]]].
    assert (Hread : read_sign (if neg then "-"%char :: c :: l else c :: l)
                    = (neg, c :: l))
      by (destruct neg; [ reflexivity | exact Hsign ]).
    unfold parse_numeric. rewrite Hread, H1, H2, H3, H4, Hspan.
    cbn [read_exponent]. rewrite Z.add_0_r.
    replace (0 <? k) with true by (symmetry; apply Z.ltb_lt; exact Hk).
    reflexivity.
Qed.

Lemma nb_digits_positive (d : Decimal.uint) :
  d <> Decimal.Nil -> (0 < Decimal.nb_digits d)%nat.
Proof. destruct d; simpl; intros H; try lia. congruence. Qed.

Lemma Decimal_of_int_string (z : Z) :
  decimal_in_range (Z.abs_N z) 0 = true ->
  Decimal_of_str (NilZero.string_of_int (Z.to_int z))
  = Ok (DFin (z <? 0) (Z.abs_N z) 0).
Proof.
  intros Hrange.
  destruct z as [| p | p]; [ reflexivity | | ].
  - assert (Hs : list_ascii_of_string (NilZero.string_of_int (Z.to_int (Z.pos p)))
                 = uint_chars (Pos.to_uint p)).
    { unfold uint_chars. simpl.
      pose proof (DecimalPos.Unsigned.to_uint_nonnil p) as Hnn.
      destruct (Pos.to_uint p); [ congruence | reflexivity .. ]. }
    unfold Decimal_of_str. rewrite Hs.
    pose proof (uint_chars_digits (Pos.to_uint p)) as Hall.
    destruct (digits_untouched _ Hall) as [Hstrip Hunder].
    rewrite Hstrip. fold (without_underscores (uint_chars (Pos.to_uint p))).
    rewrite Hunder.
    rewrite (parse_numeric_digits false _ _ _ Hall
               (span_digits_uint (Pos.to_uint p) 0)).
    + rewrite DecimalPos.Unsigned.of_to.
      change (Z.abs_N (Z.pos p)) with (N.pos p) in Hrange.
      rewrite Hrange. reflexivity.
    + pose proof (nb_digits_positive _ (DecimalPos.Unsigned.to_uint_nonnil p)). lia.
  - assert (Hs : list_ascii_of_string (NilZero.string_of_int (Z.to_int (Z.neg p)))
                 = "-"%char :: uint_chars (Pos.to_uint p)).
    { unfold uint_chars. simpl.
      pose proof (DecimalPos.Unsigned.to_uint_nonnil p) as Hnn.
      destruct (Pos.to_uint p); [ congruence | reflexivity .. ]. }
    unfold Decimal_of_str. rewrite Hs.
    pose proof (uint_chars_digits (Pos.to_uint p)) as Hall.
    destruct (digits_untouched _ Hall) as [Hstrip Hunder].
    assert (Hstrip' : strip_chars ("-"%char :: uint_chars (Pos.to_uint p))
                      = "-"%char :: uint_chars (Pos.to_uint p)).
    { apply strip_chars_of_trimmed. split; [ reflexivity | ].
      simpl rev.
      pose proof (Forall_rev Hall) as Hrev.
      destruct (rev (uint_chars (Pos.to_uint p))) as [| c l];
        [ reflexivity | ].
      inversion Hrev as [| c' l' Hc _]; subst.
      exact (proj1 (digit_facts c [] Hc)). }
    rewrite Hstrip'.
    change (filter (fun c => negb (Ascii.eqb c "_"%char))
                   ("-"%char :: uint_chars (Pos.to_uint p)))
      with ("-"%char :: without_underscores (uint_chars (Pos.to_uint p))).
    rewrite Hunder.
    rewrite (parse_numeric_digits true _ _ _ Hall
               (span_digits_uint (Pos.to_uint p) 0)).
    + rewrite DecimalPos.Unsigned.of_to.
      change (Z.abs_N (Z.neg p)) with (N.pos p) in Hrange.
      rewrite Hrange. reflexivity.
    + pose proof (nb_digits_positive _ (DecimalPos.Unsigned.to_uint_nonnil p)). lia.
Qed.

(** An int within the digit limit is well within the bounds of [Decimal]. *)
Lemma short_int_in_range (z : Z) :
  int_digits z <= int_max_str_digits ->
  decimal_in_range (Z.abs_N z) 0 = true.
Proof.
  unfold decimal_in_range, coef_digits, int_digits, int_max_str_digits,
    decimal_etiny, decimal_emax.
  intros H. apply andb_true_intro. split.
  - reflexivity.
  - apply Z.leb_le. lia.
Qed.

Lemma to_decimal_of_short_int (rt : Runtime) (z : Z) :
  int_digits z <= int_max_str_digits ->
  to_decimal rt (PInt z) = Ok (DFin (z <? 0) (Z.abs_N z) 0).
Proof.
  intros H. unfold to_decimal, isna. cbn [rbind str_of]. unfold str_of_Z.
  replace (int_max_str_digits <? int_digits z) with false
    by (symmetry; apply Z.ltb_ge; exact H).
  cbn [rbind Decimal_of].
  rewrite (Decimal_of_int_string z (short_int_in_range z H)). reflexivity.
Qed.

Lemma to_decimal_of_long_int (rt : Runtime) (z : Z) :
  int_max_str_digits < int_digits z ->
  to_decimal rt (PInt z) = Raise ValueError.
Proof.
  intros H. unfold to_decimal, isna. cbn [rbind str_of]. unfold str_of_Z.
  replace (int_max_str_digits <? int_digits z) with true
    by (symmetry; apply Z.ltb_lt; exact H).
  reflexivity.
Qed.

(** The digit limit stands between [10^4300 - 1] and [10^4300]. *)
Example int_digits_at_the_limit :
  int_digits (10 ^ 4300 - 1) = 4300 /\ int_digits (- (10 ^ 4300 - 1)) = 4300 /\
  int_digits (10 ^ 4300) = 4301 /\ int_digits 0 = 1.
Proof. vm_compute. repeat split. Qed.

(** X7. [to_decimal] is lossless on an int of at most 4300 digits: the
    int goes through its decimal string and comes back as the decimal with
    that integer as coefficient and exponent zero, whose value is the int
    and which is what [Decimal] makes of the int itself.  On an int of
    more digits, the first being [10^4300], [to_decimal] raises
    [ValueError], because the int has no string, where [Decimal] of the
    int itself is still exact. *)
Theorem to_decimal_of_int_is_exact (rt : Runtime) (z : Z) :
  (int_digits z <= int_max_str_digits ->
   to_decimal rt (PInt z) = Ok (DFin (z <? 0) (Z.abs_N z) 0) /\
   to_decimal rt (PInt z) = Decimal_of rt (PInt z)) /\
  (int_max_str_digits < int_digits z ->
   to_decimal rt (PInt z) = Raise ValueError /\
   Decimal_of rt (PInt z) = Ok (DFin (z <? 0) (Z.abs_N z) 0)) /\
  dec_value (z <? 0) (Z.abs_N z) 0 == inject_Z z /\
  (int_digits (10 ^ 4300 - 1) = int_max_str_digits /\
   int_digits (- (10 ^ 4300 - 1)) = int_max_str_digits /\
   int_digits (10 ^ 4300) = int_max_str_digits + 1).
Proof.
  split; [ | split; [ | split ] ].
  - intros H. rewrite (to_decimal_of_short_int rt z H). split; reflexivity.
  - intros H. rewrite (to_decimal_of_long_int rt z H). split; reflexivity.
  - unfold dec_value. cbn [Qpower]. rewrite Qmult_1_r.
    apply inject_Z_injective.
    rewrite N2Z.inj_abs_N. destruct (Z.ltb_spec z 0); lia.
  - destruct int_digits_at_the_limit as [H1 [H2 [H3 _]]].
    rewrite H1, H2, H3. repeat split.
Qed.

(** ** The filters seen from the returned table *)

Lemma to_decimal_of_str (rt : Runtime) (s : string) (b : decimal) :
  to_decimal rt (PStr s) = Ok b -> Decimal_of_str s = Ok b.
Proof.
  unfold to_decimal, isna. cbn [rbind str_of Decimal_of]. intros H.
  exact (reraise_as_Ok _ _ _ H).
Qed.

Lemma mapM_Forall2 {A B : Type} (f : A -> res B) :
  forall l l', mapM f l = Ok l' -> Forall2 (fun x y => f x = Ok y) l l'.
Proof.
  induction l as [| x l IH]; simpl; intros l' H.
  - inversion H. constructor.
  - apply rbind_Ok in H. destruct H as [y [Hy H]].
    apply rbind_Ok in H. destruct H as [ys [Hys H]].
    inversion H. constructor; auto.
Qed.

Lemma Forall2_of_map {A B C : Type} (g : A -> B) (R : B -> C -> Prop) :
  forall l l', Forall2 R (map g l) l' -> Forall2 (fun a c => R (g a) c) l l'.
Proof.
  induction l as [| a l IH]; simpl; intros l' H; inversion H; subst;
    constructor; auto.
Qed.

Lemma Forall2_with_Forall {A B : Type} (P : A -> Prop) (R S : A -> B -> Prop) :
  (forall a b, P a -> R a b -> S a b) ->
  forall l l', Forall P l -> Forall2 R l l' -> Forall2 S l l'.
Proof.
  intros HS. induction l as [| a l IH]; intros l' HP HR;
    inversion HR; subst; constructor.
  - inversion HP; subst. auto.
  - inversion HP; subst. auto.
Qed.

Lemma Forall_both {A : Type} (P Q : A -> Prop) (l : list A) :
  Forall P l -> Forall Q l -> Forall (fun a => P a /\ Q a) l.
Proof.
  intros HP HQ. apply Forall_forall. intros a Hin.
  split; [ exact (proj1 (Forall_forall _ _) HP a Hin)
         | exact (proj1 (Forall_forall _ _) HQ a Hin) ].
Qed.



(** X9. A table that [fetch_transfers] returns is the formatting of the
    frame of a list of records, each made of a pair of events and each
    passing the filters (a quantity that reads as a decimal not below
    [min_value]; with a non-empty set of addresses, the sender in the set,
    or the sender or the receiver).  When the upstream sent every one of
    these values as a string, the quantity column of the table holds, row
    by row, the very decimal the filter compared, so no quantity in the
    table is below [min_value].  (A column of numbers may be stored as
    floats, and then holds other decimals.) *)
Theorem fetch_transfers_table_quantities (rt : Runtime) (up : upstream)
    (fuel : nat) (token : string) (addresses : option (list string))
    (start_date end_date : option datetime) (from_only : bool)
    (min_value : decimal) (log : list request) (t : transfers_table)
    (log' : list request) :
  fetch_transfers rt up fuel token addresses start_date end_date
                  from_only min_value log = (Returns (Some t), log') ->
  exists records,
    Forall (emitted_by (transfers_row rt addresses from_only min_value))
           records /\
    Forall (passes_filters rt addresses from_only min_value) records /\
    (df <- pd_DataFrame records ;; format_transfers_df rt df)%res = Ok t /\
    (Forall (string_field "quantity") records ->
     Forall2 (transfer_in_table min_value) records (t_quantity t)).
Proof.
  intros H.
  destruct (fetch_transfers_inv rt up fuel token addresses start_date end_date
              from_only min_value log t log' H)
    as [symbol [greater [less [k [records [_ [_ [_ [_ [_ [Hall Hfmt]]]]]]]]]]].
  exists records.
  assert (Hpass : Forall (passes_filters rt addresses from_only min_value) records).
  { apply Forall_forall. intros d Hin.
    destruct (proj1 (Forall_forall _ _) Hall d Hin) as [es [er Hrow]].
    exact (transfers_row_passes rt _ _ _ _ _ _ Hrow). }
  split; [ exact Hall | ]. split; [ exact Hpass | ]. split; [ exact Hfmt | ].
  intros Hstr.
  apply rbind_Ok in Hfmt. destruct Hfmt as [df [Hdf Hfmt]].
  unfold format_transfers_df in Hfmt.
  apply rbind_Ok in Hfmt. destruct Hfmt as [c1 [_ Hfmt]].
  apply rbind_Ok in Hfmt. destruct Hfmt as [m1 [_ Hfmt]].
  apply rbind_Ok in Hfmt. destruct Hfmt as [c2 [_ Hfmt]].
  apply rbind_Ok in Hfmt. destruct Hfmt as [m2 [_ Hfmt]].
  apply rbind_Ok in Hfmt. destruct Hfmt as [c3 [_ Hfmt]].
  apply rbind_Ok in Hfmt. destruct Hfmt as [m3 [_ Hfmt]].
  apply rbind_Ok in Hfmt. destruct Hfmt as [qty [Hq Hfmt]].
  apply rbind_Ok in Hfmt. destruct Hfmt as [quantity [Hm Hfmt]].
  apply rbind_Ok in Hfmt. destruct Hfmt as [c5 [_ Hfmt]].
  apply rbind_Ok in Hfmt. destruct Hfmt as [m5 [_ Hfmt]].
  inversion Hfmt. simpl.
  apply mapM_Forall2 in Hm.
  rewrite (string_column_kept _ _ _ _ Hdf Hq Hstr) in Hm.
  apply Forall2_of_map in Hm.
  apply (Forall2_with_Forall _ _ _) with (3 := Hm)
                                         (2 := Forall_both _ _ _ Hpass Hstr).
  intros d q [[ts [a [b [v [h [amount [-> [Hd [Hlt _]]]]]]]]] [s Hs]] Hto.
  cbn in Hs. inversion Hs. subst v.
  change (cell "quantity" [("timestamp", PInt ts); ("from_address", a);
                           ("to_address", b); ("quantity", PStr s);
                           ("transaction_hash", h)])
    with (PStr s) in Hto.
  apply to_decimal_of_str in Hto. cbn [Decimal_of] in Hd.
  assert (q = amount) by congruence. subst q.
  exists ts, a, b, s, h. auto.
Qed.

Lemma fetch_transfers_table_quantities_example :
  exists records,
    Forall (emitted_by (transfers_row example_runtime None false (DFin false 0 0)))
           records /\
    Forall (passes_filters example_runtime None false (DFin false 0 0)) records /\
    (df <- pd_DataFrame records ;; format_transfers_df example_runtime df)%res
      = Ok (mkTransfers [mkDatetime 62135596900000000 None]
                        ["A"] ["B"] [DFin false 5 0] ["h1"]) /\
    (Forall (string_field "quantity") records ->
     Forall2 (transfer_in_table (DFin false 0 0)) records [DFin false 5 0]).
Proof.
  exact (fetch_transfers_table_quantities
           example_runtime example_events_upstream 1 "token" None None None
           false (DFin false 0 0) [] _ _ fetch_transfers_pairs_example).
Defined.

(** ** Failures of the symbol resolution *)

Lemma resolution_failure_returns_None (rt : Runtime) (up : upstream)
    (token : string) (log : list request) (e : exn) (log' : list request) :
  get_symbol_by_token_address up token log = (Raises e, log') ->
  fetch_token_info rt up token log = (Returns None, log') /\
  (forall fuel min_balance,
      fetch_holders rt up fuel token min_balance log = (Returns None, log')) /\
  (forall fuel addresses start_date end_date from_only min_value,
      fetch_transfers rt up fuel token addresses start_date end_date
                      from_only min_value log = (Returns None, log')) /\
  (forall fuel start_date end_date,
      fetch_early_transfers rt up fuel token start_date end_date log
        = (Returns None, log')) /\
  (forall start_date end_date,
      fetch_prices rt up token start_date end_date log = (Returns None, log')).
Proof.
  intros Hsym.
  repeat split; intros; apply try_or_None_catches with (e := e).
  - unfold fetch_token_info_body, bind. rewrite Hsym. reflexivity.
  - unfold fetch_holders_body, bind. rewrite Hsym. reflexivity.
  - unfold fetch_transfers_body, bind. rewrite Hsym. reflexivity.
  - unfold fetch_early_transfers_body, bind. rewrite Hsym. reflexivity.
  - unfold fetch_prices_body, bind. rewrite Hsym. reflexivity.
Qed.

(** X10. When the upstream answers the symbol resolution with a status
    other than 200, or with a body whose addresses entry is empty (or
    otherwise false), no token is resolved: every fetch operation returns
    [None] after that single request, and in particular no page is ever
    requested, whatever the page budget and the other arguments. *)
Theorem unresolved_token_returns_None (rt : Runtime) (up : upstream)
    (token : string) (log : list request) (r : response) :
  up log (endpoint_url "addresses") [("address", PStr token)] = Ok r ->
  status_code r <> 200 \/
  (exists body found,
      json r = Ok body /\ getitem body "addresses" = Ok found /\
      truth found = false) ->
  let log' := (log ++ [(endpoint_url "addresses", [("address", PStr token)])])%list in
  fetch_token_info rt up token log = (Returns None, log') /\
  (forall fuel min_balance,
      fetch_holders rt up fuel token min_balance log = (Returns None, log')) /\
  (forall fuel addresses start_date end_date from_only min_value,
      fetch_transfers rt up fuel token addresses start_date end_date
                      from_only min_value log = (Returns None, log')) /\
  (forall fuel start_date end_date,
      fetch_early_transfers rt up fuel token start_date end_date log
        = (Returns None, log')) /\
  (forall start_date end_date,
      fetch_prices rt up token start_date end_date log = (Returns None, log')).
Proof.
  intros Hup Hbad log'.
  apply resolution_failure_returns_None with (e := ValueError).
  unfold get_symbol_by_token_address.
  destruct Hbad as [Hstatus | [body [found [Hjson [Hget Hfalse]]]]].
  - apply bind_Raises_eq. unfold _make_request.
    fold (endpoint_url "addresses"). rewrite Hup.
    replace (status_code r =? 200) with false
      by (symmetry; apply Z.eqb_neq; exact Hstatus).
    reflexivity.
  - destruct (Z.eq_dec (status_code r) 200) as [H200 | Hne].
    + assert (Hreq : _make_request up "addresses" [("address", PStr token)] log
                     = (Returns body, log')).
      { unfold _make_request. fold (endpoint_url "addresses"). rewrite Hup.
        rewrite H200. simpl. unfold lift. rewrite Hjson. reflexivity. }
      rewrite (bind_Returns_eq _ _ _ _ _ Hreq), bind_lift, Hget, Hfalse.
      reflexivity.
    + apply bind_Raises_eq. unfold _make_request.
      fold (endpoint_url "addresses"). rewrite Hup.
      replace (status_code r =? 200) with false
        by (symmetry; apply Z.eqb_neq; exact Hne).
      reflexivity.
Qed.

Lemma unresolved_token_returns_None_example :
  let log' := ([] ++ [(endpoint_url "addresses", [("address", PStr "token")])])%list in
  fetch_token_info example_runtime empty_upstream "token" [] = (Returns None, log') /\
  (forall fuel min_balance,
      fetch_holders example_runtime empty_upstream fuel "token" min_balance []
      = (Returns None, log')) /\
  (forall fuel addresses start_date end_date from_only min_value,
      fetch_transfers example_runtime empty_upstream fuel "token" addresses
                      start_date end_date from_only min_value []
      = (Returns None, log')) /\
  (forall fuel start_date end_date,
      fetch_early_transfers example_runtime empty_upstream fuel "token"
                            start_date end_date []
      = (Returns None, log')) /\
  (forall start_date end_date,
      fetch_prices example_runtime empty_upstream "token" start_date end_date []
      = (Returns None, log')).
Proof.
  exact (unresolved_token_returns_None
           example_runtime empty_upstream "token" []
           (mkResponse 200 "" (Ok (PDict [("addresses", PList [])])))
           eq_refl
           (or_intror
              (ex_intro _ (PDict [("addresses", PList [])])
                 (ex_intro _ (PList [])
                    (conj eq_refl (conj eq_refl eq_refl)))))).
Defined.

(** X11. When the transport fails on the symbol resolution, every fetch
    operation returns [None] after that single request: nothing is
    retried and no page is requested. *)
Theorem unreachable_upstream_returns_None (rt : Runtime) (up : upstream)
    (token : string) (log : list request) (e : exn) :
  up log (endpoint_url "addresses") [("address", PStr token)] = Raise e ->
  let log' := (log ++ [(endpoint_url "addresses", [("address", PStr token)])])%list in
  fetch_token_info rt up token log = (Returns None, log') /\
  (forall fuel min_balance,
      fetch_holders rt up fuel token min_balance log = (Returns None, log')) /\
  (forall fuel addresses start_date end_date from_only min_value,
      fetch_transfers rt up fuel token addresses start_date end_date
                      from_only min_value log = (Returns None, log')) /\
  (forall fuel start_date end_date,
      fetch_early_transfers rt up fuel token start_date end_date log
        = (Returns None, log')) /\
  (forall start_date end_date,
      fetch_prices rt up token start_date end_date log = (Returns None, log')).
Proof.
  intros H log'.
  apply resolution_failure_returns_None with (e := e).
  unfold get_symbol_by_token_address. apply bind_Raises_eq.
  exact (make_request_transport_failure up _ _ _ e H).
Qed.

Lemma unreachable_upstream_returns_None_example :
  let log' := ([] ++ [(endpoint_url "addresses", [("address", PStr "token")])])%list in
  fetch_token_info example_runtime unreachable_upstream "token" []
    = (Returns None, log') /\
  (forall fuel min_balance,
      fetch_holders example_runtime unreachable_upstream fuel "token" min_balance []
      = (Returns None, log')) /\
  (forall fuel addresses start_date end_date from_only min_value,
      fetch_transfers example_runtime unreachable_upstream fuel "token" addresses
                      start_date end_date from_only min_value []
      = (Returns None, log')) /\
  (forall fuel start_date end_date,
      fetch_early_transfers example_runtime unreachable_upstream fuel "token"
                            start_date end_date []
      = (Returns None, log')) /\
  (forall start_date end_date,
      fetch_prices example_runtime unreachable_upstream "token"
                   start_date end_date []
      = (Returns None, log')).
Proof.
  exact (unreachable_upstream_returns_None
           example_runtime unreachable_upstream "token" [] RequestException
           eq_refl).
Defined.

(** ** Token information *)

Example fetch_token_info_run_example :
  fetch_token_info example_runtime example_token_upstream "token" []
  = (Returns (Some (mkTokenInfo (mkDatetime 62135596800000000 None) 0 "soul"
                                (mkSymbolFormats "soul" "SOUL" "SOUL/USDT" "soul")
                                "Phantasma Stake" (DFin false 1000 0)
                                None None None)),
     [(endpoint_url "addresses", [("address", PStr "token")]);
      (endpoint_url "tokens", [("symbol", PStr "SOUL"); ("create_event", PInt 1)])]).
Proof. vm_compute. reflexivity. Qed.

(** X12. A call of [fetch_token_info] that returns a record has made
    exactly two requests, the symbol resolution and one tokens request for
    the symbol the upstream gave in answer to the resolution (the
    address_name of the first entry of that answer).  The symbol of the
    record is the stripped string of the symbol of the first token of the
    second answer; the four symbol formats are derived from it (itself,
    upper case, upper case with "/USDT", lower case); the creation
    timestamp is naive and is that of epoch 0 when the token has no
    creation event; and the optional fields creators, involved and
    early_transfers are always absent. *)
Theorem fetch_token_info_record (rt : Runtime) (up : upstream)
    (token : string) (log : list request) (ti : TokenInfo)
    (log' : list request) :
  fetch_token_info rt up token log = (Returns (Some ti), log') ->
  (exists symbol results tokens result token_symbol symbol_str,
      resolves_to up log token symbol /\
      log' = (log ++ [(endpoint_url "addresses", [("address", PStr token)]);
                      (endpoint_url "tokens",
                       [("symbol", symbol); ("create_event", PInt 1)])])%list /\
      _make_request up "tokens" [("symbol", symbol); ("create_event", PInt 1)]
                    (log ++ [(endpoint_url "addresses",
                              [("address", PStr token)])])%list
        = (Returns results, log') /\
      getitem results "tokens" = Ok tokens /\
      getindex tokens 0 = Ok result /\
      getitem result "symbol" = Ok token_symbol /\
      str_of rt token_symbol = Ok symbol_str /\
      ti_symbol ti = strip symbol_str /\
      (contains "create_event" result = Ok false ->
       to_timestamp rt (PInt 0) = Ok (ti_created_timestamp ti))) /\
  ti_symbol_formats ti
    = mkSymbolFormats (ti_symbol ti) (upper (ti_symbol ti))
                      (upper (ti_symbol ti) ++ "/USDT")%string
                      (lower (ti_symbol ti)) /\
  naive (ti_created_timestamp ti) /\
  ti_creators ti = None /\
  ti_involved ti = None /\
  ti_early_transfers ti = None.
Proof.
  intros H. apply try_or_None_Some in H. unfold fetch_token_info_body in H.
  apply bind_Returns in H. destruct H as [symbol [l1 [Hsym H]]].
  pose proof (get_symbol_resolves _ _ _ _ _ Hsym) as Hresolved.
  apply get_symbol_Returns_log in Hsym. subst l1.
  apply bind_Returns in H. destruct H as [results [l2 [Hreq H]]].
  apply lift_Returns in H. destruct H as [H ->].
  apply rbind_Ok in H. destruct H as [tokens [Htok H]].
  apply rbind_Ok in H. destruct H as [result [Hres H]].
  apply rbind_Ok in H. destruct H as [has_event [Hhas H]].
  apply rbind_Ok in H. destruct H as [created [Hcreated H]].
  apply rbind_Ok in H. destruct H as [decimals [_ H]].
  apply rbind_Ok in H. destruct H as [sym [Hsymbol H]].
  apply rbind_Ok in H. destruct H as [sym_str [Hstr H]].
  apply rbind_Ok in H. destruct H as [name [_ H]].
  apply rbind_Ok in H. destruct H as [name_str [_ H]].
  apply rbind_Ok in H. destruct H as [supply [_ H]].
  unfold format_token_info, str_strip in H.
  cbn [getitem dict_lookup String.eqb Ascii.eqb
       Bool.eqb rbind dict_get stripped_list str_of] in H.
  apply rbind_Ok in H. destruct H as [ts [Hts H]].
  apply rbind_Ok in H. destruct H as [dec [_ H]].
  apply rbind_Ok in H. destruct H as [sup [_ H]].
  inversion H. subst ti. cbn.
  split; [ | split; [ reflexivity | split; [ | auto ] ] ].
  - exists symbol, results, tokens, result, sym, sym_str.
    split; [ exact Hresolved | ].
    split; [ | split; [ exact Hreq | split; [ exact Htok | split;
                [ exact Hres | split; [ exact Hsymbol | split;
                  [ exact Hstr | split; [ reflexivity | ] ] ] ] ] ] ].
    + rewrite (make_request_Returns_log _ _ _ _ _ _ Hreq), <- app_assoc.
      reflexivity.
    + intros Hno. rewrite Hno in Hhas. inversion Hhas. subst has_event.
      inversion Hcreated. subst created. exact Hts.
  - exact (to_timestamp_naive rt _ _ Hts).
Qed.

Lemma fetch_token_info_record_example :
  (exists symbol results tokens result token_symbol symbol_str,
      resolves_to example_token_upstream [] "token" symbol /\
      [(endpoint_url "addresses", [("address", PStr "token")]);
       (endpoint_url "tokens", [("symbol", PStr "SOUL"); ("create_event", PInt 1)])]
      = ([] ++ [(endpoint_url "addresses", [("address", PStr "token")]);
                (endpoint_url "tokens",
                 [("symbol", symbol); ("create_event", PInt 1)])])%list /\
      _make_request example_token_upstream "tokens"
                    [("symbol", symbol); ("create_event", PInt 1)]
                    ([] ++ [(endpoint_url "addresses",
                             [("address", PStr "token")])])%list
        = (Returns results,
           [(endpoint_url "addresses", [("address", PStr "token")]);
            (endpoint_url "tokens",
             [("symbol", PStr "SOUL"); ("create_event", PInt 1)])]) /\
      getitem results "tokens" = Ok tokens /\
      getindex tokens 0 = Ok result /\
      getitem result "symbol" = Ok token_symbol /\
      str_of example_runtime token_symbol = Ok symbol_str /\
      "soul" = strip symbol_str /\
      (contains "create_event" result = Ok false ->
       to_timestamp example_runtime (PInt 0)
       = Ok (mkDatetime 62135596800000000 None))) /\
  mkSymbolFormats "soul" "SOUL" "SOUL/USDT" "soul"
    = mkSymbolFormats "soul" (upper "soul") (upper "soul" ++ "/USDT")%string
                      (lower "soul") /\
  naive (mkDatetime 62135596800000000 None) /\
  @None (list string) = None /\
  @None (list string) = None /\
  @None pyval = None.
Proof.
  exact (fetch_token_info_record
           example_runtime example_token_upstream "token" [] _ _
           fetch_token_info_run_example).
Defined.

(** ** The errors of the converters *)



(** ** The filters are monotone *)

Lemma dec_lt_lower (a : decimal) (nm : bool) (cm : N) (em : Z)
    (nm' : bool) (cm' : N) (em' : Z) :
  dec_cmp (DFin nm' cm' em') (DFin nm cm em) <> Gt ->
  dec_lt a (DFin nm cm em) = Ok false ->
  dec_lt a (DFin nm' cm' em') = Ok false.
Proof.
  intros Hle H. unfold dec_lt in *.
  destruct a as [na ca ea | [|] | sig]; cbn [dec_is_nan orb] in *;
    try discriminate H; try reflexivity.
  rewrite dec_cmp_value in Hle.
  rewrite dec_cmp_value in H. rewrite dec_cmp_value.
  set (va := dec_value na ca ea) in *.
  set (vm := dec_value nm cm em) in *.
  set (vm' := dec_value nm' cm' em') in *.
  assert (H1 : (vm <= va)%Q).
  { apply Qle_alt. rewrite <- Qcompare_antisym.
    destruct (va ?= vm)%Q; simpl; congruence. }
  assert (H2 : (vm' <= vm)%Q) by (apply Qle_alt; exact Hle).
  pose proof (Qle_trans _ _ _ H2 H1) as H3.
  pose proof (proj1 (Qle_alt vm' va) H3) as H4.
  rewrite <- (Qcompare_antisym va vm') in H4.
  destruct (va ?= vm')%Q; simpl in H4; congruence.
Qed.

(** X14. The filters of [fetch_transfers] only ever remove rows.  An
    empty set of addresses filters nothing, like no set at all; a pair
    emitted with [from_address_only] is emitted, with the same record,
    without it; and a pair emitted for a finite [min_value] is emitted,
    with the same record, for every lower one. *)
Theorem transfer_filters_are_monotone (rt : Runtime) :
  (forall from_only min_value event_send event_receive,
      transfers_row rt (Some []) from_only min_value event_send event_receive
      = transfers_row rt None from_only min_value event_send event_receive) /\
  (forall addresses min_value event_send event_receive d,
      transfers_row rt addresses true min_value event_send event_receive
        = Ok (Some d) ->
      transfers_row rt addresses false min_value event_send event_receive
        = Ok (Some d)) /\
  (forall addresses from_only nm cm em nm' cm' em' event_send event_receive d,
      dec_cmp (DFin nm' cm' em') (DFin nm cm em) <> Gt ->
      transfers_row rt addresses from_only (DFin nm cm em)
                    event_send event_receive = Ok (Some d) ->
      transfers_row rt addresses from_only (DFin nm' cm' em')
                    event_send event_receive = Ok (Some d)).
Proof.
  split; [ reflexivity | split ].
  - intros addresses mv es er d H.
    pose proof (transfers_row_record rt _ _ _ _ _ _ H) as Hrec.
    destruct (transfer_record_fields _ _ _ Hrec)
      as [date [ts [a [b [te [q [h [_ [_ [Ha [Hb [Hte [Hq [_ Hd]]]]]]]]]]]]]].
    unfold transfers_row in *.
    rewrite Hte in *. cbn [rbind] in *. rewrite Hq in *. cbn [rbind] in *.
    destruct (Decimal_of rt q) as [amount |]; [ | discriminate H ].
    cbn [rbind] in *.
    destruct (dec_lt amount mv) as [[|] |]; try discriminate H.
    cbn [rbind] in *.
    unfold address_filter in *. rewrite Ha in *. cbn [rbind] in *.
    rewrite Hb. cbn [rbind].
    destruct addresses as [[| w wanted] |]; try exact H.
    destruct (set_contains (w :: wanted) a) as [[|] |];
      cbn [rbind] in *; try discriminate H; exact H.
  - intros addresses fo nm cm em nm' cm' em' es er d Hle H.
    unfold transfers_row in *.
    destruct (getitem es "token_event") as [te |]; [ | discriminate H ].
    cbn [rbind] in *.
    destruct (getitem te "value") as [q |]; [ | discriminate H ].
    cbn [rbind] in *.
    destruct (Decimal_of rt q) as [amount |]; [ | discriminate H ].
    cbn [rbind] in *.
    destruct (dec_lt amount (DFin nm cm em)) as [[|] |] eqn:Hlt;
      try discriminate H.
    rewrite (dec_lt_lower amount nm cm em nm' cm' em' Hle Hlt). exact H.
Qed.

(** ** Early transfers *)

Lemma early_transfers_row_record (rt : Runtime) (token_symbol : pyval)
    (d : dict) :
  emitted_by (early_transfers_row rt token_symbol) d ->
  early_record rt token_symbol d.
Proof.
  intros [event_send [event_receive H]]. exists event_send, event_receive.
  unfold early_transfers_row in H.
  destruct (py_eq token_symbol (PStr "KCAL")).
  - apply rbind_Ok in H. destruct H as [skip [Hskip H]].
    destruct skip; [ discriminate H | ].
    apply rbind_Ok in H. destruct H as [d' [Hrec H]].
    inversion H. subst d'. split; [ exact Hrec | ]. intros _.
    apply rbind_Ok in Hskip. destruct Hskip as [token_event [Hte Hskip]].
    apply rbind_Ok in Hskip. destruct Hskip as [value [Hv Hskip]].
    apply rbind_Ok in Hskip. destruct Hskip as [amount [Hd Hlt]].
    exists token_event, value, amount. auto.
  - cbn [rbind] in H.
    apply rbind_Ok in H. destruct H as [d' [Hrec H]].
    inversion H. subst d'. split; [ exact Hrec | discriminate ].
Qed.

Example fetch_early_transfers_run_example :
  fetch_early_transfers example_runtime kcal_events_upstream 1 "token"
                        None None []
  = (Returns (Some (mkTransfers [mkDatetime 62135596900000000 None]
                                ["A"] ["B"] [DFin false 5 0] ["h1"])),
     [(endpoint_url "addresses", [("address", PStr "token")]);
      (endpoint_url "events",
       send_request (events_params PNone PNone (PStr "KCAL")));
      (endpoint_url "events",
       receive_request (events_params PNone PNone (PStr "KCAL")))]).
Proof. vm_compute. reflexivity. Qed.

(** X15. A call of [fetch_early_transfers] that returns a table has made
    one symbol-resolution request, then a TokenSend and a TokenReceive
    request per page at the offsets 0, 20000, ... for some number of pages
    between 1 and the page budget, all for the symbol the upstream gave in
    answer to the resolution (the address_name of the first entry of that
    answer).  The table is the formatting of the frame of a list of
    records of pairs of events, and when that symbol is "KCAL" the value
    of every one of them reads as a decimal that is not below
    [Decimal(0.005)]. *)
Theorem fetch_early_transfers_trace_and_records (rt : Runtime) (up : upstream)
    (fuel : nat) (token : string) (start_date end_date : option datetime)
    (log : list request) (t : transfers_table) (log' : list request) :
  fetch_early_transfers rt up fuel token start_date end_date log
    = (Returns (Some t), log') ->
  exists symbol greater less k records,
    resolves_to up log token symbol /\
    date_param rt start_date = Ok greater /\
    date_param rt end_date = Ok less /\
    (1 <= k <= fuel)%nat /\
    log' = (log ++ (endpoint_url "addresses", [("address", PStr token)])
                :: events_requests (events_params greater less symbol)
                                   0 page_limit k)%list /\
    Forall (early_record rt symbol) records /\
    (df <- pd_DataFrame records ;; format_transfers_df rt df)%res = Ok t.
Proof.
  intros H. apply try_or_None_Some in H. unfold fetch_early_transfers_body in H.
  apply bind_Returns in H. destruct H as [symbol [l1 [Hsym H]]].
  pose proof (get_symbol_resolves _ _ _ _ _ Hsym) as Hres.
  apply get_symbol_Returns_log in Hsym. subst l1.
  apply bind_Returns in H. destruct H as [greater [l [Hg H]]].
  apply lift_Returns in Hg. destruct Hg as [Hg ->].
  apply bind_Returns in H. destruct H as [less [l [Hl H]]].
  apply lift_Returns in Hl. destruct Hl as [Hl ->].
  apply bind_Returns in H. destruct H as [records [l [Hpages H]]].
  apply lift_Returns in H. destruct H as [Hfmt ->].
  destruct (events_pages_trace up _ page_limit fuel
              (events_params greater less symbol) 0 [] _ records l
              eq_refl eq_refl Hpages)
    as [k [rows [Hk [Hlog [Hacc Hall]]]]].
  cbn [app] in Hacc. subst rows.
  exists symbol, greater, less, k, records. split; [ exact Hres | ].
  split; [ exact Hg | ]. split; [ exact Hl | ]. split; [ lia | ].
  split; [ rewrite Hlog, <- app_assoc; reflexivity | ].
  split; [ | exact Hfmt ].
  apply Forall_forall. intros d Hin.
  apply early_transfers_row_record.
  exact (proj1 (Forall_forall _ _) Hall d Hin).
Qed.

Lemma fetch_early_transfers_trace_and_records_example :
  exists symbol greater less k records,
    resolves_to kcal_events_upstream [] "token" symbol /\
    date_param example_runtime None = Ok greater /\
    date_param example_runtime None = Ok less /\
    (1 <= k <= 1)%nat /\
    [(endpoint_url "addresses", [("address", PStr "token")]);
     (endpoint_url "events",
      send_request (events_params PNone PNone (PStr "KCAL")));
     (endpoint_url "events",
      receive_request (events_params PNone PNone (PStr "KCAL")))]
    = ([] ++ (endpoint_url "addresses", [("address", PStr "token")])
             :: events_requests (events_params greater less symbol)
                                0 page_limit k)%list /\
    Forall (early_record example_runtime symbol) records /\
    (df <- pd_DataFrame records ;; format_transfers_df example_runtime df)%res
    = Ok (mkTransfers [mkDatetime 62135596900000000 None]
                      ["A"] ["B"] [DFin false 5 0] ["h1"]).
Proof.
  exact (fetch_early_transfers_trace_and_records
           example_runtime kcal_events_upstream 1 "token" None None
           [] _ _ fetch_early_transfers_run_example).
Defined.
